(** * Timetable optimiser: conflict evaluator, model builder, solver drivers

    A shallow embedding of [solver.py] (the web flow, best-only mode) and of
    the parts of [planner.py] that differ from it (ranked enumeration).

    Conventions of the embedding:
    - a session dictionary is the record [Session]; an index-session carries
      its ["index"] entry, a lecture or timetable entry does not;
    - a Python [set] of week numbers is a [gset Z]; course codes and index
      ids are text, which the code only compares and prints;
    - [index_map], a [dict] whose iteration order the code relies on, is an
      association list in insertion order;
    - the CP-SAT model is kept as the list of constraints in the order the
      builder adds them, with a Boolean semantics over valuations;
    - the CP-SAT backend itself is outside the repository: it appears as a
      parameter [Solve] returning a status and a valuation. *)

From stdpp Require Import gmap strings list sorting.
From Stdlib Require Import ZArith Lia Ascii.

Local Open Scope string_scope.
Local Open Scope Z_scope.
Local Open Scope list_scope.

(** ** Python built-ins used by the code

    Text is a sequence of code points below 256.  In that range the
    characters [str.isspace] accepts, which [str.strip] removes, are 9-13,
    28-32, 133 and 160; the characters [int] skips around a number are
    9-13, 32, 133 and 160 only, so that [int] raises on 28-31; and the
    only decimal digits are ['0']-['9'].  [int] is the conversion without
    the interpreter's cap on the number of digits. *)
Module Py.
Definition chars (s : string) : list ascii :=
  Stdlib.Strings.String.list_ascii_of_string s.
Definition text (l : list ascii) : string :=
  Stdlib.Strings.String.string_of_list_ascii l.

Definition isspace (c : ascii) : bool :=
  let n := N_of_ascii c in
  ((9 <=? n) && (n <=? 13) || (28 <=? n) && (n <=? 32)
   || (n =? 133) || (n =? 160))%N.

Fixpoint lstrip_chars (l : list ascii) : list ascii :=
  match l with
  | [] => []
  | c :: rest => if isspace c then lstrip_chars rest else l
  end.

Definition strip_chars (l : list ascii) : list ascii :=
  reverse (lstrip_chars (reverse (lstrip_chars l))).

(** [s.strip()] *)
Definition strip (s : string) : string :=
  text (strip_chars (chars s)).

Fixpoint replace_go (old new : list ascii) (skip : nat) (l : list ascii)
  : list ascii :=
  match l with
  | [] => []
  | c :: rest =>
      match skip with
      | S k => replace_go old new k rest
      | O => if bool_decide (old `prefix_of` l)
             then new ++ replace_go old new (length old - 1) rest
             else c :: replace_go old new 0 rest
      end
  end.

(** [s.replace(old, new)] for a non-empty [old]: every occurrence, left
    to right, without overlap. *)
Definition replace (old new s : string) : string :=
  text
    (replace_go (chars old) (chars new) 0
                (chars s)).

Fixpoint split_go (sep : ascii) (cur : list ascii) (l : list ascii)
  : list (list ascii) :=
  match l with
  | [] => [reverse cur]
  | c :: rest => if bool_decide (c = sep) then reverse cur :: split_go sep [] rest
                 else split_go sep (c :: cur) rest
  end.

(** [s.split(sep)] for a one-character separator. *)
Definition split (sep : ascii) (s : string) : list string :=
  text <$> split_go sep [] (chars s).

Definition digit (c : ascii) : option Z :=
  let n := Z.of_N (N_of_ascii c) in
  if (48 <=? n) && (n <=? 57) then Some (n - 48) else None.

(** Decimal digits, single underscores allowed between two digits. *)
Fixpoint digits_go (acc : Z) (after_digit : bool) (l : list ascii) : option Z :=
  match l with
  | [] => if after_digit then Some acc else None
  | c :: rest =>
      match digit c with
      | Some d => digits_go (10 * acc + d) true rest
      | None => if bool_decide (c = "_"%char) && after_digit
                then digits_go acc false rest else None
      end
  end.

(** The white space [int] skips before and after the number. *)
Definition int_space (c : ascii) : bool :=
  let n := N_of_ascii c in
  ((9 <=? n) && (n <=? 13) || (n =? 32) || (n =? 133) || (n =? 160))%N.

Fixpoint int_lstrip_chars (l : list ascii) : list ascii :=
  match l with
  | [] => []
  | c :: rest => if int_space c then int_lstrip_chars rest else l
  end.

Definition int_strip_chars (l : list ascii) : list ascii :=
  reverse (int_lstrip_chars (reverse (int_lstrip_chars l))).

(** [int(s)] on text; [None] stands for [ValueError]. *)
Definition int (s : string) : option Z :=
  match int_strip_chars (chars s) with
  | "+"%char :: rest => digits_go 0 false rest
  | "-"%char :: rest => Z.opp <$> digits_go 0 false rest
  | l => digits_go 0 false l
  end.

Definition is_upper (c : ascii) : bool :=
  let n := N_of_ascii c in ((65 <=? n) && (n <=? 90))%N.
Definition is_lower (c : ascii) : bool :=
  let n := N_of_ascii c in ((97 <=? n) && (n <=? 122))%N.
Definition to_upper (c : ascii) : ascii :=
  if is_lower c then ascii_of_N (N_of_ascii c - 32) else c.
Definition to_lower (c : ascii) : ascii :=
  if is_upper c then ascii_of_N (N_of_ascii c + 32) else c.

Fixpoint title_go (after_cased : bool) (l : list ascii) : list ascii :=
  match l with
  | [] => []
  | c :: rest =>
      if is_upper c || is_lower c
      then (if after_cased then to_lower c else to_upper c) :: title_go true rest
      else c :: title_go false rest
  end.

(** [s.title()] on ASCII letters.  The keys [day_to_index] looks up are
    ASCII, and no character of 128-255 is turned into the ASCII letters
    of a key, so the lookup of a string containing one fails here as it
    does in Python. *)
Definition title (s : string) : string :=
  text (title_go false (chars s)).

Fixpoint contains_go (sub l : list ascii) : bool :=
  bool_decide (sub `prefix_of` l)
  || match l with [] => false | _ :: rest => contains_go sub rest end.

(** [sub in s] *)
Definition contains (sub s : string) : bool :=
  contains_go (chars sub) (chars s).
(** [list.sort(key=...)] is stable; a stable sort has one possible result,
    computed here by insertion. *)
Fixpoint insert_by {A} (key : A → Z) (x : A) (l : list A) : list A :=
  match l with
  | [] => [x]
  | y :: rest => if key x <=? key y then x :: y :: rest
                 else y :: insert_by key x rest
  end.

Definition sort_by {A} (key : A → Z) (l : list A) : list A :=
  foldr (insert_by key) [] l.

(** [l[:n]] *)
Definition slice_to {A} (n : Z) (l : list A) : list A :=
  if 0 <=? n then take (Z.to_nat n) l
  else take (length l - Z.to_nat (- n))%nat l.
End Py.

(** ** Session model *)

Record Session := mkSession {
  s_course : string;
  s_index  : option string;
  s_type   : string;
  s_day    : Z;
  s_start  : Z;
  s_end    : Z;
  s_weeks  : gset Z
}.

(** [set(range(1, 14))] and the two parity literals of the source. *)
Definition all_weeks : gset Z := list_to_set (seqZ 1 13).
Definition even_weeks : gset Z := list_to_set [2; 4; 6; 8; 10; 12].
Definition odd_weeks : gset Z := list_to_set [1; 3; 5; 7; 9; 11; 13].

(** Truth value of a Python set: non-emptiness. *)
Definition set_truthy (s : gset Z) : bool := bool_decide (s ≠ ∅).

(** [index_map]: (course, index) -> sessions, in insertion order. *)
Definition IndexMap := list ((string * string) * list Session).

(** ** Spreadsheet cells

    A cell as pandas hands it over. *)
Inductive PyVal :=
| PyStr (s : string)
| PyInt (n : Z)                    (* an [int] *)
| PyFloat (num : Z) (den : positive)
                                   (* a finite [float], the ratio num/den *)
| PyNaN                            (* an empty cell *)
| PyOther.                         (* any other object, e.g. a
                                      [datetime.time] or an infinite float *)

(** ** Helper functions *)

(** [None] stands for the exception the loader catches. *)
Definition time_to_minutes (t : PyVal) : option Z :=
  match t with
  | PyStr t =>
      let t := Py.strip t in
      let chars := Py.chars t in
      hm ← (if bool_decide (":"%char ∈ chars) then
              match Py.split ":" t with
              | [h; m] => h ← Py.int h; m ← Py.int m; Some (h, m)
              | _ => None
              end
            else if bool_decide (length chars ≤ 2)%nat then
              h ← Py.int t; Some (h, 0)
            else if bool_decide (length chars = 3)%nat then
              h ← Py.int (Py.text (take 1 chars));
              m ← Py.int (Py.text (drop 1 chars)); Some (h, m)
            else if bool_decide (length chars = 4)%nat then
              h ← Py.int (Py.text (take 2 chars));
              m ← Py.int (Py.text (drop 2 chars)); Some (h, m)
            else None);
      Some (hm.1 * 60 + hm.2)
  | PyInt n => Some n
  | PyFloat num den => Some (num ÷ Z.pos den)   (* [int] truncates *)
  | PyNaN | PyOther => None
  end.

Definition day_to_index (day : PyVal) : option Z :=
  match day with
  | PyStr day =>
      let day := Py.title (Py.strip day) in
      if bool_decide (day = "Mon") || bool_decide (day = "Monday") then Some 0
      else if bool_decide (day = "Tue") || bool_decide (day = "Tuesday") then Some 1
      else if bool_decide (day = "Wed") || bool_decide (day = "Wednesday") then Some 2
      else if bool_decide (day = "Thu") || bool_decide (day = "Thursday") then Some 3
      else if bool_decide (day = "Fri") || bool_decide (day = "Friday") then Some 4
      else None
  | _ => None
  end.

Definition default_weeks (week_pattern : string) : gset Z :=
  if bool_decide (week_pattern = "even") then even_weeks
  else if bool_decide (week_pattern = "odd") then odd_weeks
  else all_weeks.

(** [set(int(w.strip()) for w in remark.replace("Teaching Wk", "").split(","))],
    [None] when some [int] raises. *)
Definition parsed_weeks (remark : string) : option (gset Z) :=
  let remark := Py.replace "Teaching Wk" "" remark in
  let week_nums := Py.split "," remark in
  list_to_set <$> mapM (λ w, Py.int (Py.strip w)) week_nums.

Definition parse_weeks (remark : PyVal) (week_pattern : string) : gset Z :=
  match remark with
  | PyStr remark =>
      if bool_decide (Py.strip remark = "") then default_weeks week_pattern
      else
        match parsed_weeks remark with
        | Some parsed =>
            if bool_decide (week_pattern = "even")
            then parsed ∩ list_to_set [2; 4; 6; 8; 10; 12]
            else if bool_decide (week_pattern = "odd")
            then parsed ∩ list_to_set [1; 3; 5; 7; 9; 11; 13]
            else parsed
        | None => default_weeks week_pattern
        end
  | _ => default_weeks week_pattern
  end.

(** ** Load data *)

Record IndexRow := mkRow {
  row_course : string;     (* "Course Code" *)
  row_index  : string;     (* "Index" *)
  row_type   : string;     (* "TYPE" *)
  row_day    : PyVal;      (* "Day" *)
  row_start  : PyVal;      (* "Start Time" *)
  row_end    : PyVal;      (* "End Time" *)
  row_remark : PyVal       (* row.get("Remark", "") *)
}.

(** [if key not in index_map: index_map[key] = []] *)
Definition dict_setdefault (index_map : IndexMap) (k : string * string) : IndexMap :=
  if bool_decide (k ∈ index_map.*1) then index_map else index_map ++ [(k, [])].

(** [index_map[key].append(s)] *)
Fixpoint dict_append (index_map : IndexMap) (k : string * string) (s : Session)
  : IndexMap :=
  match index_map with
  | [] => []
  | (k', sessions) :: rest =>
      if bool_decide (k' = k) then (k', sessions ++ [s]) :: rest
      else (k', sessions) :: dict_append rest k s
  end.

Definition load_index_row (selected_courses : list string) (week_pattern : string)
    (index_map : IndexMap) (row : IndexRow) : IndexMap :=
  let course := row_course row in
  if bool_decide (course ∉ selected_courses) then index_map
  else
    let idx := row_index row in
    let index_map := dict_setdefault index_map (course, idx) in
    match
      day ← day_to_index (row_day row);
      start ← time_to_minutes (row_start row);
      end_ ← time_to_minutes (row_end row);
      Some {| s_course := course; s_index := Some idx; s_type := row_type row;
              s_day := day; s_start := start; s_end := end_;
              s_weeks := parse_weeks (row_remark row) week_pattern |}
    with
    | Some s => dict_append index_map (course, idx) s
    | None => index_map
    end.

(** [load_indexes] after [pd.read_excel]: the rows of the sheet in order. *)
Definition load_indexes (rows : list IndexRow) (selected_courses : list string)
    (week_pattern : string) : IndexMap :=
  foldl (load_index_row selected_courses week_pattern) [] rows.

Record LectureRow := mkLectureRow {
  lrow_course : string;    (* "Course Code" *)
  lrow_type   : string;    (* "TYPE" *)
  lrow_day    : PyVal;     (* "Day" *)
  lrow_start  : PyVal;     (* "Start Time" *)
  lrow_end    : PyVal      (* "End Time" *)
}.

(** [pd.isna] on a cell. *)
Definition isna (x : PyVal) : bool :=
  match x with PyNaN => true | _ => false end.

Definition load_lecture_row (selected_courses : list string)
    (sessions : list Session) (row : LectureRow) : list Session :=
  if bool_decide (lrow_course row ∉ selected_courses) then sessions
  else if isna (lrow_start row) || isna (lrow_end row) then sessions
  else
    match
      day ← day_to_index (lrow_day row);
      start ← time_to_minutes (lrow_start row);
      end_ ← time_to_minutes (lrow_end row);
      Some {| s_course := lrow_course row; s_index := None;
              s_type := lrow_type row; s_day := day; s_start := start;
              s_end := end_; s_weeks := all_weeks |}
    with
    | Some s => sessions ++ [s]
    | None => sessions
    end.

(** [load_lectures] after [pd.read_excel]. *)
Definition load_lectures (rows : list LectureRow) (selected_courses : list string)
  : list Session :=
  foldl (load_lecture_row selected_courses) [] rows.

(** ** Overlap detection helpers *)

Definition sessions_overlap (a b : Session) : bool :=
  if bool_decide (s_day a ≠ s_day b) then false
  else negb ((s_end a <=? s_start b) || (s_end b <=? s_start a)).

Definition labs_conflict (a b : Session) : bool :=
  if negb (sessions_overlap a b) then false
  else set_truthy (s_weeks a ∩ s_weeks b).

Definition strict_conflict (a b : Session) : bool :=
  if negb (sessions_overlap a b) then false
  else if bool_decide (s_type a = "LAB") && bool_decide (s_type b = "LAB")
       then labs_conflict a b
       else true.

(** ** The constraint model handed to CP-SAT *)

(** [chosen[(course, idx)]] and [campus_day[d]]: a Boolean variable is
    identified by the dictionary key, respectively the weekday, it was
    created for. *)
Inductive BoolVar :=
| Chosen (course idx : string)
| Campus (d : Z).

Global Instance BoolVar_eq_dec : EqDecision BoolVar.
Proof. solve_decision. Defined.

Inductive Constraint :=
| SumEq1 (vars : list BoolVar)                      (* Add(sum(vars) == 1) *)
| EqZero (v : BoolVar)                              (* Add(v == 0) *)
| SumLe1 (v1 v2 : BoolVar)                          (* Add(v1 + v2 <= 1) *)
| MaxEquality (target : BoolVar) (vars : list BoolVar). (* AddMaxEquality *)

Global Instance Constraint_eq_dec : EqDecision Constraint.
Proof. solve_decision. Defined.

Record CpModel := mkModel {
  constraints : list Constraint;
  minimize    : list BoolVar         (* Minimize(sum(...)) *)
}.

(** A valuation of the Boolean variables, as read by [solver.Value]. *)
Definition Valuation := BoolVar → bool.

Definition value (v : Valuation) (x : BoolVar) : Z := if v x then 1 else 0.

Definition sum_values (v : Valuation) (xs : list BoolVar) : Z :=
  foldr (λ x acc, value v x + acc) 0 xs.

Definition max_values (v : Valuation) (xs : list BoolVar) : Z :=
  foldr (λ x acc, Z.max (value v x) acc) 0 xs.

Definition holds (v : Valuation) (c : Constraint) : bool :=
  match c with
  | SumEq1 xs => sum_values v xs =? 1
  | EqZero x => value v x =? 0
  | SumLe1 x y => value v x + value v y <=? 1
  | MaxEquality t xs => value v t =? max_values v xs
  end.

Definition satisfies (v : Valuation) (m : CpModel) : bool :=
  forallb (holds v) (constraints m).

Definition objective (v : Valuation) (m : CpModel) : Z :=
  sum_values v (minimize m).

(** ** build_model *)

(** The combined check, used to state properties of the builder: two
    sessions genuinely clash when [strict_conflict] holds and their week
    sets meet.  The builder and the analyser do not call it; they inline
    the two nested tests, see [lecture_step] and [pair_step]. *)
Definition clash (a b : Session) : bool :=
  strict_conflict a b && set_truthy (s_weeks a ∩ s_weeks b).

Definition eligible (index_map : IndexMap) (course : string) : list BoolVar :=
  (λ k, Chosen k.1 k.2) <$> filter (λ k, k.1 = course) (index_map.*1).

(** One pass of the loop over [selected_courses]: the constraint added and
    the line printed. *)
Definition exactly_one_step (index_map : IndexMap) (course : string)
  : list Constraint * list string :=
  match eligible index_map course with
  | [] => ([], ["Warning: No indexes found for course " +:+ course])
  | x :: xs => ([SumEq1 (x :: xs)], [])
  end.

Definition all_index_sessions (index_map : IndexMap)
  : list (string * string * Session) :=
  flat_map (λ '((course, idx), sessions),
              (λ s, (course, idx, s)) <$> sessions) index_map.

Definition lecture_step (lectures : list Session)
    (e : string * string * Session) : list Constraint :=
  let '(c1, i1, s1) := e in
  flat_map (λ lec,
    if strict_conflict s1 lec then
      if set_truthy (s_weeks s1 ∩ s_weeks lec) then [EqZero (Chosen c1 i1)]
      else []
    else []) lectures.

Definition pair_step (e1 e2 : string * string * Session) : list Constraint :=
  let '(c1, i1, s1) := e1 in
  let '(c2, i2, s2) := e2 in
  if bool_decide (c1 = c2) then []
  else if strict_conflict s1 s2 then
    if set_truthy (s_weeks s1 ∩ s_weeks s2)
    then [SumLe1 (Chosen c1 i1) (Chosen c2 i2)]
    else []
  else [].

(** [for i in range(n): for j in range(i + 1, n): ...] *)
Fixpoint index_pairs (l : list (string * string * Session)) : list Constraint :=
  match l with
  | [] => []
  | e1 :: rest => flat_map (pair_step e1) rest ++ index_pairs rest
  end.

Definition day_sessions (index_map : IndexMap) (d : Z) : list BoolVar :=
  flat_map (λ '((course, idx), sessions),
    flat_map (λ s,
      if bool_decide (s_day s = d)
         && (bool_decide (s_type s = "TUT") || bool_decide (s_type s = "LAB"))
      then [Chosen course idx] else []) sessions) index_map.

Definition campus_step (index_map : IndexMap) (d : Z) : Constraint :=
  match day_sessions index_map d with
  | [] => EqZero (Campus d)
  | x :: xs => MaxEquality (Campus d) (x :: xs)
  end.

Record Built := mkBuilt {
  model  : CpModel;
  chosen : list ((string * string) * BoolVar);
  campus_day : list BoolVar;
  printed : list string
}.

Definition build_model (lectures : list Session) (index_map : IndexMap)
    (selected_courses : list string) : Built :=
  let steps := exactly_one_step index_map <$> selected_courses in
  let ais := all_index_sessions index_map in
  let campus_day := Campus <$> seqZ 0 5 in
  {| model :=
       {| constraints :=
            flat_map fst steps
            ++ flat_map (lecture_step lectures) ais
            ++ index_pairs ais
            ++ (campus_step index_map <$> seqZ 0 5);
          minimize := campus_day |};
     chosen := (λ k, (k, Chosen k.1 k.2)) <$> index_map.*1;
     campus_day := campus_day;
     printed := flat_map snd steps |}.

(** ** The CP-SAT backend *)

Inductive CpSolverStatus := UNKNOWN | MODEL_INVALID | FEASIBLE | INFEASIBLE | OPTIMAL.

Global Instance CpSolverStatus_eq_dec : EqDecision CpSolverStatus.
Proof. solve_decision. Defined.

Record Response := mkResponse {
  status : CpSolverStatus;
  Value  : Valuation
}.

(** What the driver relies on: a response reporting [OPTIMAL] or [FEASIBLE]
    carries a valuation that satisfies every constraint of the model. *)
Definition sound_response (m : CpModel) (r : Response) : Prop :=
  status r = OPTIMAL ∨ status r = FEASIBLE → satisfies (Value r) m = true.

(** ** analyze_infeasibility *)

(** A loop whose body may [return]: the first iteration that returns
    decides. *)
Fixpoint first_some {A B} (f : A → option B) (l : list A) : option B :=
  match l with
  | [] => None
  | x :: rest => match f x with Some y => Some y | None => first_some f rest end
  end.

(** [index_map[key]]; the keys looked up always come from [index_map]. *)
Fixpoint dict_get (index_map : IndexMap) (k : string * string) : list Session :=
  match index_map with
  | [] => []
  | (k', sessions) :: rest =>
      if bool_decide (k' = k) then sessions else dict_get rest k
  end.

(** [[(c1, c2) for i, c1 in enumerate(l) for c2 in l[i+1:]]] *)
Fixpoint course_pairs (l : list string) : list (string * string) :=
  match l with
  | [] => []
  | c1 :: rest => ((λ c2, (c1, c2)) <$> rest) ++ course_pairs rest
  end.

Definition no_schedule_msg : string :=
  "No feasible schedule found due to timing conflicts".

Definition analyze_infeasibility (lectures : list Session) (index_map : IndexMap)
    (selected_courses : list string) : string :=
  let keys_of c := filter (λ k : string * string, k.1 = c) (index_map.*1) in
  let lecture_scan :=
    first_some (λ course,
      let course_lectures := filter (λ lec, s_course lec = course) lectures in
      let other_courses := filter (λ c, c ≠ course) selected_courses in
      first_some (λ lec,
        first_some (λ other_course,
          first_some (λ '(c, idx),
            first_some (λ session,
              if strict_conflict lec session then
                if set_truthy (s_weeks lec ∩ s_weeks session) then
                  Some ("Conflict: " +:+ course +:+ " lecture clashes with "
                        +:+ other_course +:+ " " +:+ s_type session
                        +:+ " (Index " +:+ idx +:+ ")")
                else None
              else None) (dict_get index_map (c, idx)))
            (keys_of other_course))
          other_courses)
        course_lectures)
      selected_courses in
  match lecture_scan with
  | Some msg => msg
  | None =>
    let index_scan :=
      first_some (λ '(c1, c2),
        first_some (λ '(_, idx1),
          first_some (λ '(_, idx2),
            let sessions1 := dict_get index_map (c1, idx1) in
            let sessions2 := dict_get index_map (c2, idx2) in
            first_some (λ s1,
              first_some (λ s2,
                if strict_conflict s1 s2 then
                  if set_truthy (s_weeks s1 ∩ s_weeks s2) then
                    Some ("Conflict: " +:+ c1 +:+ " Index " +:+ idx1
                          +:+ " clashes with " +:+ c2 +:+ " Index " +:+ idx2)
                  else None
                else None) sessions2) sessions1)
            (keys_of c2))
          (keys_of c1))
        (course_pairs selected_courses) in
    match index_scan with
    | Some msg => msg
    | None => no_schedule_msg
    end
  end.

(** ** solve (best-only driver, [solver.py]) *)

Inductive SolveResult :=
| Success (indexes : gmap string string) (timetable : list Session)
          (campus_days : Z)
| Failure (error : string).

(** The dictionary a timetable row is rebuilt as: no ["index"] entry, and
    the course taken from the key, respectively from the lecture. *)
Definition timetable_entry (course : string) (s : Session) : Session :=
  {| s_course := course; s_index := None; s_type := s_type s;
     s_day := s_day s; s_start := s_start s; s_end := s_end s;
     s_weeks := s_weeks s |}.

Section Driver.
(** [solver.Solve(model)] with the 10 s budget. *)
Variable Solve : CpModel → Response.

Definition solve (lectures : list Session) (index_map : IndexMap)
    (selected_courses : list string) : SolveResult :=
  let b := build_model lectures index_map selected_courses in
  let r := Solve (model b) in
  if bool_decide (status r ≠ OPTIMAL) && bool_decide (status r ≠ FEASIBLE)
  then Failure (analyze_infeasibility lectures index_map selected_courses)
  else
    let chosen_indexes : gmap string string :=
      foldl (λ (acc : gmap string string) '((course, idx), var),
               if value (Value r) var =? 1 then <[course := idx]> acc else acc)
            ∅ (chosen b) in
    let timetable : list Session :=
      flat_map (λ '((course, idx), var),
                  if value (Value r) var =? 1
                  then timetable_entry course <$> dict_get index_map (course, idx)
                  else []) (chosen b)
      ++ ((λ lec, timetable_entry (s_course lec) lec) <$> lectures) in
    let campus_days := sum_values (Value r) (campus_day b) in
    Success chosen_indexes timetable campus_days.
End Driver.

(** ** solve (ranked enumeration, [planner.py])

    [build_model] and the conflict helpers of [planner.py] are the same
    text as in [solver.py]; only the driver differs. *)
Module Planner.

Record Solution := mkSolution {
  sol_chosen : list ((string * string) * Z);   (* solution["chosen"] *)
  sol_campus_days : Z                          (* solution["campus_days"] *)
}.

Record SolutionCollector := mkCollector {
  solutions : list Solution;
  max_solutions : Z;
  solution_count : Z;
  stop_requested : bool                        (* StopSearch() was called *)
}.

Definition new_collector (max_solutions : Z) : SolutionCollector :=
  {| solutions := []; max_solutions := max_solutions;
     solution_count := 0; stop_requested := false |}.

(** The dictionary stored for the solution the solver is currently at. *)
Definition solution_of (b : Built) (v : Valuation) : Solution :=
  {| sol_chosen := (λ '(k, var), (k, value v var)) <$> chosen b;
     sol_campus_days := sum_values v (campus_day b) |}.

Definition on_solution_callback (b : Built) (self : SolutionCollector)
    (v : Valuation) : SolutionCollector :=
  if solution_count self >=? max_solutions self then
    {| solutions := solutions self; max_solutions := max_solutions self;
       solution_count := solution_count self; stop_requested := true |}
  else
    let solution := solution_of b v in
    {| solutions := solutions self ++ [solution];
       max_solutions := max_solutions self;
       solution_count := solution_count self + 1;
       stop_requested := stop_requested self |}.

(** The search feeds every solution it finds to the callback and ends when
    the callback has asked it to stop or when nothing is left to find. *)
Fixpoint run_search (b : Built) (self : SolutionCollector)
    (found : list Valuation) : SolutionCollector :=
  match found with
  | [] => self
  | v :: rest =>
      let self' := on_solution_callback b self v in
      if stop_requested self' then self' else run_search b self' rest
  end.

Section Enumeration.
(** The solutions [solver.Solve(model, collector)] would report, in
    discovery order, were it never stopped. *)
Variable Enumerate : CpModel → list Valuation.

Definition solve (lectures : list Session) (index_map : IndexMap)
    (selected_courses : list string) (num_solutions : Z)
  : option (list Solution) :=
  let b := build_model lectures index_map selected_courses in
  let collector :=
    run_search b (new_collector num_solutions) (Enumerate (model b)) in
  match solutions collector with
  | [] => None
  | s :: ss => Some (Py.slice_to num_solutions (Py.sort_by sol_campus_days (s :: ss)))
  end.

(** [num_solutions=3] *)
Definition solve_default lectures index_map selected_courses :=
  solve lectures index_map selected_courses 3.
End Enumeration.
End Planner.

(** ** A reference backend

    An exhaustive search over the variables a model mentions.  It stands for
    CP-SAT wherever a concrete run of the drivers is evaluated. *)

Definition constraint_vars (c : Constraint) : list BoolVar :=
  match c with
  | SumEq1 xs => xs
  | EqZero x => [x]
  | SumLe1 x y => [x; y]
  | MaxEquality t xs => t :: xs
  end.

Definition model_vars (m : CpModel) : list BoolVar :=
  remove_dups (flat_map constraint_vars (constraints m) ++ minimize m).

Fixpoint sublists {A} (l : list A) : list (list A) :=
  match l with
  | [] => [[]]
  | x :: rest => sublists rest ++ (cons x <$> sublists rest)
  end.

(** The valuation setting exactly the listed variables to 1. *)
Definition valuation_of (ones : list BoolVar) : Valuation :=
  λ x, bool_decide (x ∈ ones).

Definition feasible_valuations (m : CpModel) : list (list BoolVar) :=
  filter (λ ones, satisfies (valuation_of ones) m = true) (sublists (model_vars m)).

Definition best_of (m : CpModel) (first : list BoolVar)
    (others : list (list BoolVar)) : list BoolVar :=
  foldl (λ best ones,
           if objective (valuation_of ones) m <? objective (valuation_of best) m
           then ones else best) first others.

Definition exhaustive_search (m : CpModel) : Response :=
  match feasible_valuations m with
  | [] => {| status := INFEASIBLE; Value := λ _, false |}
  | first :: others =>
      {| status := OPTIMAL; Value := valuation_of (best_of m first others) |}
  end.

(** The stream of feasible valuations in the order the search meets them. *)
Definition exhaustive_stream (m : CpModel) : list Valuation :=
  valuation_of <$> feasible_valuations m.

(** ** Vocabulary for the statements *)

(** The variables [build_model] creates with [NewBoolVar]: one per key of
    the index map and one per weekday. *)
Definition created_vars (b : Built) : list BoolVar :=
  (chosen b).*2 ++ campus_day b.

Definition agree_on (xs : list BoolVar) (v w : Valuation) : Prop :=
  ∀ x, x ∈ xs → v x = w x.

(** What ranked enumeration relies on from the backend: every solution
    handed to the callback satisfies the model, and no assignment of the
    variables is handed over twice. *)
Definition sound_stream (m : CpModel) (found : list Valuation) : Prop :=
  ∀ v, v ∈ found → satisfies v m = true.

Definition distinct_stream (xs : list BoolVar) (found : list Valuation) : Prop :=
  ∀ (i j : nat) v w, (i < j)%nat → found !! i = Some v → found !! j = Some w →
    ¬ agree_on xs v w.

Definition is_campus (x : BoolVar) : bool :=
  match x with Campus _ => true | Chosen _ _ => false end.

(** A constraint over a campus-day indicator. *)
Definition mentions_campus (c : Constraint) : bool :=
  existsb is_campus (constraint_vars c).

(** The two values a successful run of [solve] computes from the solver's
    valuation: the rows of the chosen options and the [chosen_indexes]
    dictionary. *)
Definition picked_rows (v : Valuation) (index_map : IndexMap)
    (chosen : list ((string * string) * BoolVar)) : list Session :=
  flat_map (λ '((course, idx), var),
              if value v var =? 1
              then timetable_entry course <$> dict_get index_map (course, idx)
              else []) chosen.

Definition picked_indexes (v : Valuation)
    (chosen : list ((string * string) * BoolVar)) : gmap string string :=
  foldl (λ (acc : gmap string string) '((course, idx), var),
           if value v var =? 1 then <[course := idx]> acc else acc)
        ∅ chosen.

(** The timetable rows of the lectures. *)
Definition lecture_rows (lectures : list Session) : list Session :=
  (λ lec, timetable_entry (s_course lec) lec) <$> lectures.

(** Every selected course is mapped to one of its options. *)
Definition every_course_assigned (selected_courses : list string)
    (index_map : IndexMap) (indexes : gmap string string) : Prop :=
  ∀ c, c ∈ selected_courses →
       ∃ i, indexes !! c = Some i ∧ (c, i) ∈ index_map.*1.

(** No two rows of different courses clash. *)
Definition clash_free (timetable : list Session) : Prop :=
  ∀ p q, p ∈ timetable → q ∈ timetable → s_course p ≠ s_course q →
         clash p q = false.

(** What a successful run does guarantee: the timetable is the rows of the
    chosen options followed by the lecture rows; a selected course that has
    options is mapped to one of them, and its rows are the sessions of that
    option; no row of a chosen option clashes with a lecture row or with
    a row of a chosen option of another course. *)
Definition resolved_schedule (lectures : list Session) (index_map : IndexMap)
    (selected_courses : list string) (indexes : gmap string string)
    (timetable : list Session) : Prop :=
  ∃ picked,
    timetable = picked ++ lecture_rows lectures
    ∧ (∀ c, c ∈ selected_courses → (∃ i, (c, i) ∈ index_map.*1) →
         ∃ i, indexes !! c = Some i ∧ (c, i) ∈ index_map.*1
              ∧ ∀ row, row ∈ picked ∧ s_course row = c ↔
                       ∃ s, s ∈ dict_get index_map (c, i)
                            ∧ row = timetable_entry c s)
    ∧ (∀ p l, p ∈ picked → l ∈ lecture_rows lectures → clash p l = false)
    ∧ (∀ p q, p ∈ picked → q ∈ picked → s_course p ≠ s_course q →
              clash p q = false).

(** ** Sample data used to exercise the definitions *)

Definition session (course : string) (index : option string) (type : string)
    (day start end_ : Z) (weeks : gset Z) : Session :=
  {| s_course := course; s_index := index; s_type := type; s_day := day;
     s_start := start; s_end := end_; s_weeks := weeks |}.

(** Two alternating labs, Tue 14:00-16:00. *)
Definition lab_odd : Session := session "SC2079" (Some "10101") "LAB" 1 840 960 odd_weeks.
Definition lab_even : Session := session "SC2104" (Some "10201") "LAB" 1 840 960 even_weeks.

(** Two tutorials at the same time on alternating weeks, and a lecture. *)
Definition tut_odd : Session := session "SC2079" (Some "10102") "TUT" 0 540 600 odd_weeks.
Definition tut_even : Session := session "SC2104" (Some "10202") "TUT" 0 540 600 even_weeks.
Definition lec_mon : Session := session "SC3103" None "LEC" 0 540 600 all_weeks.
Definition tut_after : Session := session "SC2104" (Some "10203") "TUT" 0 600 660 all_weeks.


(** Scenario: one course whose lecture and only tutorial option both sit on
    Monday 09:00-10:00 in all weeks. *)
Definition own_lecture (course : string) : Session :=
  session course None "LEC" 0 540 600 all_weeks.
Definition own_tutorial (course idx : string) : Session :=
  session course (Some idx) "TUT" 0 540 600 all_weeks.
Definition own_index_map (course idx : string) : IndexMap :=
  [((course, idx), [own_tutorial course idx])].

(** Scenario: two courses with lectures at the same time, only the first
    of which has an option. *)
Definition two_lectures : list Session :=
  [session "SC2079" None "LEC" 0 540 600 all_weeks;
   session "SC2104" None "LEC" 0 540 600 all_weeks].
Definition one_option : IndexMap :=
  [(("SC2079", "10101"), [session "SC2079" (Some "10101") "TUT" 1 540 600 all_weeks])].

Definition two_courses : list string := ["SC2079"; "SC2104"].

(** Scenario: two courses whose only tutorials sit at the same time, one
    in odd weeks, the other in even weeks. *)
Definition alternating_tutorials : IndexMap :=
  [(("SC2079", "10102"), [tut_odd]); (("SC2104", "10202"), [tut_even])].

(** Scenario: two courses, one option each, on different weekdays. *)
Definition two_options : IndexMap :=
  [(("SC2079", "10101"), [session "SC2079" (Some "10101") "TUT" 1 540 600 all_weeks]);
   (("SC2104", "10201"), [session "SC2104" (Some "10201") "LAB" 3 840 960 odd_weeks])].

(** Two rows of the index sheet with a week remark. *)
Definition row_odd_remark : IndexRow :=
  {| row_course := "SC2079"; row_index := "10101"; row_type := "LAB";
     row_day := PyStr "Mon"; row_start := PyStr "09:30"; row_end := PyStr "1130";
     row_remark := PyStr "Teaching Wk1,3" |}.
Definition row_late_remark : IndexRow :=
  {| row_course := "SC2079"; row_index := "10102"; row_type := "TUT";
     row_day := PyStr "tuesday"; row_start := PyInt 840; row_end := PyInt 900;
     row_remark := PyStr "Teaching Wk14,20" |}.


(** ** Further vocabulary *)

(** The session [load_indexes] builds from a row, [None] when the row's day
    or one of its times raises. *)
Definition index_row_session (week_pattern : string) (row : IndexRow)
  : option Session :=
  day ← day_to_index (row_day row);
  start ← time_to_minutes (row_start row);
  end_ ← time_to_minutes (row_end row);
  Some {| s_course := row_course row; s_index := Some (row_index row);
          s_type := row_type row; s_day := day; s_start := start;
          s_end := end_;
          s_weeks := parse_weeks (row_remark row) week_pattern |}.

(** The key [load_indexes] files a row under. *)
Definition row_key (row : IndexRow) : string * string :=
  (row_course row, row_index row).

(** Two rows of the lecture sheet, the second without times. *)
Definition lecture_row_mon : LectureRow :=
  {| lrow_course := "SC2079"; lrow_type := "LEC"; lrow_day := PyStr "MON";
     lrow_start := PyStr "0930"; lrow_end := PyStr "10:30" |}.
Definition lecture_row_untimed : LectureRow :=
  {| lrow_course := "SC2104"; lrow_type := "LEC"; lrow_day := PyStr "Tue";
     lrow_start := PyNaN; lrow_end := PyNaN |}.

(** A row of the index sheet whose remark names an even week, an odd week
    and a week after the thirteenth. *)
Definition row_mixed_remark : IndexRow :=
  {| row_course := "SC2079"; row_index := "10103"; row_type := "LAB";
     row_day := PyStr "Wed"; row_start := PyFloat 1881 2; row_end := PyStr "1130";
     row_remark := PyStr "Teaching Wk2,3,20" |}.

(** The valuation that sets to 1 the variables of the listed options and
    the campus-day indicators of the weekdays they occupy. *)
Definition valuation_of_choice (index_map : IndexMap)
    (pick : list (string * string)) : Valuation :=
  λ x, match x with
       | Chosen c i => bool_decide ((c, i) ∈ pick)
       | Campus d =>
           existsb (λ y, match y with
                         | Chosen c i => bool_decide ((c, i) ∈ pick)
                         | Campus _ => false
                         end) (day_sessions index_map d)
       end.

(** The two scans of [analyze_infeasibility], each giving the message of
    its first hit. *)
Definition lecture_scan (lectures : list Session) (index_map : IndexMap)
    (selected_courses : list string) : option string :=
  let keys_of c := filter (λ k : string * string, k.1 = c) (index_map.*1) in
  first_some (λ course,
    let course_lectures := filter (λ lec, s_course lec = course) lectures in
    let other_courses := filter (λ c, c ≠ course) selected_courses in
    first_some (λ lec,
      first_some (λ other_course,
        first_some (λ '(c, idx),
          first_some (λ session,
            if strict_conflict lec session then
              if set_truthy (s_weeks lec ∩ s_weeks session) then
                Some ("Conflict: " +:+ course +:+ " lecture clashes with "
                      +:+ other_course +:+ " " +:+ s_type session
                      +:+ " (Index " +:+ idx +:+ ")")
              else None
            else None) (dict_get index_map (c, idx)))
          (keys_of other_course))
        other_courses)
      course_lectures)
    selected_courses.

Definition index_scan (index_map : IndexMap) (selected_courses : list string)
  : option string :=
  let keys_of c := filter (λ k : string * string, k.1 = c) (index_map.*1) in
  first_some (λ '(c1, c2),
    first_some (λ '(_, idx1),
      first_some (λ '(_, idx2),
        let sessions1 := dict_get index_map (c1, idx1) in
        let sessions2 := dict_get index_map (c2, idx2) in
        first_some (λ s1,
          first_some (λ s2,
            if strict_conflict s1 s2 then
              if set_truthy (s_weeks s1 ∩ s_weeks s2) then
                Some ("Conflict: " +:+ c1 +:+ " Index " +:+ idx1
                      +:+ " clashes with " +:+ c2 +:+ " Index " +:+ idx2)
              else None
            else None) sessions2) sessions1)
        (keys_of c2))
      (keys_of c1))
    (course_pairs selected_courses).

(** The two messages naming a conflict. *)
Definition lecture_conflict_msg (course other_course type idx : string) : string :=
  "Conflict: " +:+ course +:+ " lecture clashes with " +:+ other_course
  +:+ " " +:+ type +:+ " (Index " +:+ idx +:+ ")".

Definition index_conflict_msg (c1 idx1 c2 idx2 : string) : string :=
  "Conflict: " +:+ c1 +:+ " Index " +:+ idx1 +:+ " clashes with " +:+ c2
  +:+ " Index " +:+ idx2.

(** Scenario: a lecture of one course at the time of the only tutorial of
    another. *)
Definition clashing_tutorial : IndexMap :=
  [(("SC2079", "10102"), [tut_odd])].
Definition lecture_and_tutorial_courses : list string := ["SC3103"; "SC2079"].

(** ** Formatting numbers and times *)
Module Fmt.
Definition digit_char (d : Z) : ascii := ascii_of_N (Z.to_N (48 + d)).

Fixpoint decimal_go (fuel : nat) (n : Z) (acc : list ascii) : list ascii :=
  match fuel with
  | O => acc
  | S fuel' =>
      let acc' := digit_char (n mod 10) :: acc in
      if n <? 10 then acc' else decimal_go fuel' (n / 10) acc'
  end.

(** The decimal digits of a number that is not negative. *)
Definition decimal (n : Z) : list ascii :=
  decimal_go (S (Z.to_nat (Z.log2 n))) n [].

(** [str(n)] *)
Definition str_chars (n : Z) : list ascii :=
  if n <? 0 then "-"%char :: decimal (- n) else decimal n.
Definition str (n : Z) : string := Py.text (str_chars n).

(** [format(n, "02d")]: at least two characters, padded with a zero. *)
Definition d02_chars (n : Z) : list ascii :=
  if (0 <=? n) && (n <? 10) then "0"%char :: decimal n else str_chars n.
Definition d02 (n : Z) : string := Py.text (d02_chars n).
End Fmt.

(** [f"{t // 60:02d}:{t % 60:02d}"], the way a time is displayed. *)
Definition hhmm (t : Z) : string :=
  Py.text (Fmt.d02_chars (t / 60) ++ ":"%char :: Fmt.d02_chars (t mod 60)).

(** A character that is neither white space nor a colon, as all characters
    of a formatted number are. *)
Definition plain_char (c : ascii) : Prop :=
  Py.isspace c = false ∧ c ≠ ":"%char.

(** ** check_solution_conflicts *)

(** The copy of a session made for the check: its own course, no index. *)
Definition session_copy (s : Session) : Session :=
  timetable_entry (s_course s) s.

(** [selected_sessions]: the lectures, then the sessions of the options
    whose variable is 1.  [chosen] is the dictionary [build_model] returns:
    its keys are those of the index map, so [index_map[(course, idx)]] is
    defined. *)
Definition selected_sessions (v : Valuation) (lectures : list Session)
    (index_map : IndexMap) (chosen : list ((string * string) * BoolVar))
  : list Session :=
  (session_copy <$> lectures)
  ++ flat_map (λ '((course, idx), var),
                 if value v var =? 1
                 then session_copy <$> dict_get index_map (course, idx)
                 else []) chosen.

(** [", ".join(...)] *)
Fixpoint join (sep : string) (l : list string) : string :=
  match l with
  | [] => ""
  | [x] => x
  | x :: rest => x +:+ sep +:+ join sep rest
  end.

(** The text of [sorted(weeks)], a list of integers. *)
Definition sorted_weeks_text (weeks : gset Z) : string :=
  "[" +:+ join ", " (Fmt.str <$> merge_sort Z.le (elements weeks)) +:+ "]".

Definition conflict_message (s1 s2 : Session) : string :=
  s_course s1 +:+ " " +:+ s_type s1 +:+ " conflicts with "
  +:+ s_course s2 +:+ " " +:+ s_type s2 +:+ " "
  +:+ "on day " +:+ Fmt.str (s_day s1) +:+ " at " +:+ hhmm (s_start s1) +:+ "-"
  +:+ hhmm (s_end s1) +:+ " vs "
  +:+ hhmm (s_start s2) +:+ "-" +:+ hhmm (s_end s2) +:+ " "
  +:+ "(weeks: " +:+ sorted_weeks_text (s_weeks s1 ∩ s_weeks s2) +:+ ")".

(** The double loop over the positions [i < j] of [selected_sessions]. *)
Fixpoint conflict_scan (l : list Session) : list string :=
  match l with
  | [] => []
  | s1 :: rest =>
      flat_map (λ s2,
        if bool_decide (s_day s1 = s_day s2) && sessions_overlap s1 s2 then
          if strict_conflict s1 s2 then
            if set_truthy (s_weeks s1 ∩ s_weeks s2)
            then [conflict_message s1 s2] else []
          else []
        else []) rest
      ++ conflict_scan rest
  end.

Definition check_solution_conflicts (v : Valuation) (lectures : list Session)
    (index_map : IndexMap) (chosen : list ((string * string) * BoolVar))
  : list string :=
  conflict_scan (selected_sessions v lectures index_map chosen).

(** ** calculate_campus_days_for_weeks *)

(** The set [campus_days] the function fills. *)
Definition campus_day_set (v : Valuation) (index_map : IndexMap)
    (chosen : list ((string * string) * BoolVar)) (target_weeks : gset Z)
  : gset Z :=
  foldl (λ (days : gset Z) '((course, idx), var),
           if value v var =? 1 then
             foldl (λ (days : gset Z) session,
                      if set_truthy (s_weeks session ∩ target_weeks)
                      then {[s_day session]} ∪ days else days)
                   days (dict_get index_map (course, idx))
           else days) ∅ chosen.

Definition calculate_campus_days_for_weeks (v : Valuation)
    (index_map : IndexMap) (chosen : list ((string * string) * BoolVar))
    (target_weeks : gset Z) : Z :=
  Z.of_nat (size (campus_day_set v index_map chosen target_weeks)).

(** ** show_detailed_timetable *)

(** [sorted(...)] and [list.sort(...)] under a total order [le]: the sort
    is stable, so it has one possible result, computed here by insertion. *)
Fixpoint insert_le {A} (le : A → A → bool) (x : A) (l : list A) : list A :=
  match l with
  | [] => [x]
  | y :: rest => if le x y then x :: y :: rest else y :: insert_le le x rest
  end.

Definition sort_le {A} (le : A → A → bool) (l : list A) : list A :=
  foldr (insert_le le) [] l.

(** [a <= b] on pairs of integers: the first components decide unless
    they are equal. *)
Definition pair_le (a b : Z * Z) : bool :=
  (a.1 <? b.1) || ((a.1 =? b.1) && (a.2 <=? b.2)).

(** [timetable_sessions] after [sort(key=lambda x: (x["day"], x["start"]))] *)
Definition timetable_sessions (v : Valuation) (lectures : list Session)
    (index_map : IndexMap) (chosen : list ((string * string) * BoolVar))
  : list Session :=
  sort_le (λ a b, pair_le (s_day a, s_start a) (s_day b, s_start b))
          (selected_sessions v lectures index_map chosen).

Definition days : list string := ["Mon"; "Tue"; "Wed"; "Thu"; "Fri"].

(** [f"\n{days[day_idx]}:"] *)
Definition day_header (day_idx : Z) : string :=
  String "010"%char (default "" (days !! Z.to_nat day_idx) +:+ ":").

(** The line printed for one session. *)
Definition session_line (s : Session) : string :=
  let weeks_str :=
    if bool_decide (s_weeks s ≠ all_weeks)
    then " (Weeks: " +:+ sorted_weeks_text (s_weeks s) +:+ ")" else "" in
  "  " +:+ hhmm (s_start s) +:+ "-" +:+ hhmm (s_end s) +:+ " "
  +:+ s_course s +:+ " " +:+ s_type s +:+ weeks_str.

(** The sessions listed under one weekday. *)
Definition sessions_on (day_idx : Z) (sessions : list Session) : list Session :=
  filter (λ s, s_day s = day_idx) sessions.

(** What the loop body prints for one weekday. *)
Definition show_day (sessions : list Session) (day_idx : Z) : list string :=
  match sessions_on day_idx sessions with
  | [] => []
  | s :: rest => day_header day_idx :: (session_line <$> s :: rest)
  end.

(** The arguments of the calls of [print], in order. *)
Definition show_detailed_timetable (v : Valuation) (lectures : list Session)
    (index_map : IndexMap) (chosen : list ((string * string) * BoolVar))
  : list string :=
  flat_map (show_day (timetable_sessions v lectures index_map chosen))
           (seqZ 0 5).

(** ** select_courses_console *)

(** [s.lower()] on ASCII letters.  The result is only compared with
    ["all"], and no character of 128-255 is turned into an ASCII letter,
    so the comparison comes out here as it does in Python. *)
Definition lower (s : string) : string :=
  Py.text (Py.to_lower <$> Py.chars s).

(** [sorted(...)] of a list of strings: by code points. *)
Definition sorted_strings (l : list string) : list string :=
  sort_le Stdlib.Strings.String.leb l.

(** [format(n, "2d")]: at least two characters, padded with a space. *)
Definition fmt_2d (n : Z) : string :=
  if (0 <=? n) && (n <? 10) then " " +:+ Fmt.str n else Fmt.str n.

(** What [input] does at one prompt: it returns a line, or raises
    [KeyboardInterrupt], or raises another exception (with its text). *)
Inductive ConsoleInput :=
  | Line (text : string)
  | KeyboardInterrupt
  | OtherException (e : string).

Definition invalid_number_msg (num n : Z) : string :=
  "Invalid course number: " +:+ Fmt.str num
  +:+ ". Please enter numbers between 1 and " +:+ Fmt.str n +:+ ".".

Definition invalid_input_msg : string :=
  "Invalid input. Please enter numbers separated by commas or 'all'.".

(** The loop over the parts of the line: the numbers read, or what was
    printed before [ValueError] was raised. *)
Fixpoint read_parts (n : Z) (parts : list string) : list string + list Z :=
  match parts with
  | [] => inr []
  | part :: rest =>
      match Py.int (Py.strip part) with
      | None => inl []
      | Some num =>
          if (1 <=? num) && (num <=? n) then
            match read_parts n rest with
            | inl printed => inl printed
            | inr selected_indices => inr (num :: selected_indices)
            end
          else inl [invalid_number_msg num n]
      end
  end.

(** "Remove duplicates while preserving order" *)
Fixpoint unique_go (seen : gset string) (l : list string) : list string :=
  match l with
  | [] => []
  | course :: rest =>
      if bool_decide (course ∉ seen)
      then course :: unique_go ({[course]} ∪ seen) rest
      else unique_go seen rest
  end.

(** One round of the [while True] loop on a line that was read: the
    function returns, or prints and prompts again. *)
Inductive Round :=
  | Return (courses : list string)
  | Continue (printed : list string).

Definition round (sorted_courses : list string) (line : string) : Round :=
  let user_input := Py.strip line in
  if bool_decide (lower user_input = "all") then Return sorted_courses
  else if bool_decide (user_input = "")
  then Continue ["Please enter at least one course number."]
  else
    match read_parts (Z.of_nat (length sorted_courses))
                     (Py.split "," user_input) with
    | inl printed => Continue (printed ++ [invalid_input_msg])
    | inr selected_indices =>
        (* every index is between 1 and the length: the lookup succeeds *)
        let selected_courses :=
          (λ idx, default "" (sorted_courses !! Z.to_nat (idx - 1)))
            <$> selected_indices in
        let unique_selected := unique_go ∅ selected_courses in
        if Z.of_nat (length unique_selected) <? 2
        then Continue ["Please select at least 2 courses."]
        else Return unique_selected
    end.

(** The [while True] loop on the successive outcomes of [input]: what is
    printed, and the pair returned ([Some None] for [(None, None)]);
    [None] when the function is still prompting after the last of them. *)
Fixpoint prompt_loop (sorted_courses : list string) (inputs : list ConsoleInput)
  : list string * option (option (list string * string)) :=
  match inputs with
  | [] => ([], None)
  | Line line :: rest =>
      match round sorted_courses line with
      | Return courses => ([], Some (Some (courses, "all")))
      | Continue printed =>
          let '(out, r) := prompt_loop sorted_courses rest in
          (printed ++ out, r)
      end
  | KeyboardInterrupt :: _ =>
      ([String "010"%char "Operation cancelled."], Some None)
  | OtherException e :: rest =>
      let '(out, r) := prompt_loop sorted_courses rest in
      (("Error: " +:+ e +:+ ". Please try again.") :: out, r)
  end.

Definition selection_header (sorted_courses : list string) : list string :=
  [String "010"%char "=== Course Selection ==="; "Available courses:"]
  ++ imap (λ i course, fmt_2d (Z.of_nat i + 1) +:+ ". " +:+ course)
          sorted_courses
  ++ [String "010"%char
        "Please select courses by entering numbers separated by commas.";
      "Example: 1,3,5";
      "Or type 'all' to select all courses.";
      "You must select at least 2 courses." +:+ String "010"%char ""].

Definition select_courses_console (available_courses : list string)
    (inputs : list ConsoleInput)
  : list string * option (option (list string * string)) :=
  let sorted_courses := sorted_strings available_courses in
  let '(out, r) := prompt_loop sorted_courses inputs in
  (selection_header sorted_courses ++ out, r).

(** ** get_available_courses *)

(** The set of the codes of a "Course Code" column, a cell being text or
    empty ([None], which [pd.notna] rejects). *)
Definition course_codes (column : list (option string)) : gset string :=
  list_to_set (Py.strip <$> omap id column).

(** [course.startswith(prefix)] *)
Definition startswith (prefix course : string) : bool :=
  bool_decide (Py.chars prefix `prefix_of` Py.chars course).

(** The value returned, given the course-code column of each of the two
    sheets; [None] for a sheet whose reading raises, in which case the
    [except] branch returns the empty list. *)
Definition get_available_courses (table1 table2 : option (list (option string)))
  : list string :=
  match table1, table2 with
  | Some column1, Some column2 =>
      let lecture_courses := course_codes column1 in
      let index_courses := course_codes column2 in
      let all_courses := lecture_courses ∪ index_courses in
      let valid_courses : gset string :=
        filter (λ course, course ≠ "" ∧ startswith "Unnamed" course = false)
               all_courses in
      sorted_strings (elements valid_courses)
  | _, _ => []
  end.

(** ** plan_app *)

(** What the handler of the button computes from the rows of the two
    sheets: [None] when nothing is selected (a warning is shown), else the
    result of [solve] on the loaded lectures and options. *)
Definition optimize (Solve : CpModel → Response)
    (lecture_sheet : list LectureRow) (index_sheet : list IndexRow)
    (selected : list string) : option SolveResult :=
  match selected with
  | [] => None
  | _ :: _ =>
      let lectures := load_lectures lecture_sheet selected in
      let index_map := load_indexes index_sheet selected "all" in
      Some (solve Solve lectures index_map selected)
  end.
(** * Properties *)

(** ** Conflict evaluator *)

Lemma sessions_overlap_true a b :
  sessions_overlap a b = true ↔
  s_day a = s_day b ∧ s_start a < s_end b ∧ s_start b < s_end a.
Proof.
  unfold sessions_overlap. case_bool_decide as Hd.
  - split; [discriminate | intros (? & _); contradiction].
  - rewrite negb_true_iff, orb_false_iff, !Z.leb_gt. tauto.
Qed.

Lemma sessions_overlap_sym a b : sessions_overlap a b = sessions_overlap b a.
Proof.
  apply eq_true_iff_eq. rewrite !sessions_overlap_true.
  split; intros (-> & ? & ?); auto.
Qed.

Lemma set_truthy_true s : set_truthy s = true ↔ s ≠ ∅.
Proof. unfold set_truthy. apply bool_decide_eq_true. Qed.

Lemma set_truthy_false s : set_truthy s = false ↔ s = ∅.
Proof.
  unfold set_truthy. rewrite bool_decide_eq_false. split.
  - apply dec_stable.
  - intros -> H. by apply H.
Qed.

Lemma strict_conflict_no_overlap a b :
  sessions_overlap a b = false → strict_conflict a b = false.
Proof. unfold strict_conflict. by intros ->. Qed.

Lemma strict_conflict_labs a b :
  s_type a = "LAB" → s_type b = "LAB" →
  strict_conflict a b = sessions_overlap a b && set_truthy (s_weeks a ∩ s_weeks b).
Proof.
  intros Ha Hb. unfold strict_conflict, labs_conflict.
  rewrite Ha, Hb. by destruct (sessions_overlap a b).
Qed.

Lemma strict_conflict_other a b :
  ¬ (s_type a = "LAB" ∧ s_type b = "LAB") →
  strict_conflict a b = sessions_overlap a b.
Proof.
  intros Hn. unfold strict_conflict.
  destruct (sessions_overlap a b); simpl; [|done].
  do 2 case_bool_decide; simpl; tauto.
Qed.

Lemma strict_conflict_sym a b : strict_conflict a b = strict_conflict b a.
Proof.
  unfold strict_conflict, labs_conflict.
  rewrite (sessions_overlap_sym b a), (comm_L (∩) (s_weeks b)).
  destruct (sessions_overlap a b); simpl; [|done].
  by do 2 case_bool_decide.
Qed.

Lemma clash_sym a b : clash a b = clash b a.
Proof.
  unfold clash. by rewrite strict_conflict_sym, (comm_L (∩) (s_weeks b)).
Qed.

Lemma clash_true a b :
  clash a b = true ↔ strict_conflict a b = true ∧ s_weeks a ∩ s_weeks b ≠ ∅.
Proof. unfold clash. by rewrite andb_true_iff, set_truthy_true. Qed.

(** C4. [sessions_overlap a b] holds exactly when the two sessions are on
    the same weekday and [a.start < b.end] and [b.start < a.end]: the
    intervals are half-open, so a session ending when the other starts
    does not overlap it.  Consequently two sessions on different weekdays
    never conflict, whatever their times and types. *)
Theorem sessions_overlap_half_open (a b : Session) :
  (sessions_overlap a b = true ↔
     s_day a = s_day b ∧ s_start a < s_end b ∧ s_start b < s_end a)
  ∧ (s_end a = s_start b → sessions_overlap a b = false)
  ∧ (s_day a ≠ s_day b → strict_conflict a b = false).
Proof.
  split; [apply sessions_overlap_true|]. split.
  - intros He. apply not_true_is_false. rewrite sessions_overlap_true. lia.
  - intros Hd. apply strict_conflict_no_overlap, not_true_is_false.
    rewrite sessions_overlap_true. tauto.
Qed.

Lemma sessions_overlap_half_open_witness :
  sessions_overlap tut_odd tut_after = false
  ∧ strict_conflict tut_odd lab_even = false.
Proof.
  split.
  - apply (proj1 (proj2 (sessions_overlap_half_open tut_odd tut_after))).
    reflexivity.
  - apply (proj2 (proj2 (sessions_overlap_half_open tut_odd lab_even))).
    simpl. lia.
Defined.

(** C3. For two LAB sessions whose times overlap on the same weekday,
    [strict_conflict] holds exactly when their week sets intersect; two
    LABs with disjoint week sets never conflict, even with the same day
    and time slot. *)
Theorem lab_pair_conflicts_iff_weeks_meet (a b : Session) :
  s_type a = "LAB" → s_type b = "LAB" →
  (sessions_overlap a b = true →
     (strict_conflict a b = true ↔ s_weeks a ∩ s_weeks b ≠ ∅))
  ∧ (s_weeks a ∩ s_weeks b = ∅ → strict_conflict a b = false).
Proof.
  intros Ha Hb. rewrite (strict_conflict_labs a b Ha Hb). split.
  - intros ->. simpl. apply set_truthy_true.
  - intros He. apply andb_false_iff. right. by apply set_truthy_false.
Qed.

Lemma lab_pair_conflicts_iff_weeks_meet_witness :
  sessions_overlap lab_odd lab_even = true
  ∧ s_weeks lab_odd ∩ s_weeks lab_even = ∅
  ∧ strict_conflict lab_odd lab_even = false.
Proof.
  split; [reflexivity|]. split; [reflexivity|].
  apply (lab_pair_conflicts_iff_weeks_meet lab_odd lab_even);
    reflexivity.
Defined.

(** ** Shape of the built model *)

Lemma elem_of_flat_map {A B} (f : A → list B) (l : list A) (y : B) :
  y ∈ flat_map f l ↔ ∃ x, x ∈ l ∧ y ∈ f x.
Proof.
  induction l as [|a l IH]; simpl.
  - rewrite elem_of_nil. split; [done | intros (x & Hx & _)].
    by apply elem_of_nil in Hx.
  - rewrite elem_of_app, IH. split.
    + intros [Hy | (x & Hx & Hy)].
      * exists a. split; [left | done].
      * exists x. split; [by right | done].
    + intros (x & Hx & Hy). apply elem_of_cons in Hx as [-> | Hx]; eauto.
Qed.

Lemma elem_of_all_index_sessions index_map c i s :
  (c, i, s) ∈ all_index_sessions index_map ↔
  ∃ sessions, ((c, i), sessions) ∈ index_map ∧ s ∈ sessions.
Proof.
  unfold all_index_sessions. rewrite elem_of_flat_map. split.
  - intros ([[c' i'] ss] & Hin & Hs).
    apply list_elem_of_fmap in Hs as (s' & [= -> -> ->] & Hs'). eauto.
  - intros (ss & Hin & Hs). exists ((c, i), ss). split; [done|].
    apply list_elem_of_fmap. eauto.
Qed.

Lemma elem_of_lecture_step lectures c i s x :
  x ∈ lecture_step lectures (c, i, s) ↔
  x = EqZero (Chosen c i) ∧ ∃ lec, lec ∈ lectures ∧ clash s lec = true.
Proof.
  unfold lecture_step, clash. rewrite elem_of_flat_map. split.
  - intros (lec & Hl & Hx).
    destruct (strict_conflict s lec) eqn:E1;
      [destruct (set_truthy _) eqn:E2|]; try by apply elem_of_nil in Hx.
    apply list_elem_of_singleton in Hx. split; [done|].
    exists lec. by rewrite E1, E2.
  - intros (-> & lec & Hl & [E1 E2]%andb_true_iff). exists lec.
    rewrite E1, E2. split; [done | by apply list_elem_of_singleton].
Qed.

Lemma elem_of_pair_step c1 i1 s1 c2 i2 s2 x :
  x ∈ pair_step (c1, i1, s1) (c2, i2, s2) ↔
  x = SumLe1 (Chosen c1 i1) (Chosen c2 i2) ∧ c1 ≠ c2 ∧ clash s1 s2 = true.
Proof.
  unfold pair_step, clash. case_bool_decide as Hc.
  - rewrite elem_of_nil. tauto.
  - destruct (strict_conflict s1 s2); [destruct (set_truthy _)|]; simpl;
      rewrite ?list_elem_of_singleton, ?elem_of_nil; intuition congruence.
Qed.

(** The double loop visits exactly the pairs of positions [i < j]. *)
Lemma elem_of_index_pairs l x :
  x ∈ index_pairs l ↔
  ∃ (i j : nat) e1 e2,
    (i < j)%nat ∧ l !! i = Some e1 ∧ l !! j = Some e2 ∧ x ∈ pair_step e1 e2.
Proof.
  induction l as [|e l IH]; simpl.
  - rewrite elem_of_nil. split; [done | intros (i & j & e1 & e2 & _ & H & _)].
    by rewrite lookup_nil in H.
  - rewrite elem_of_app, elem_of_flat_map, IH. split.
    + intros [(e2 & He2 & Hx) | (i & j & e1 & e2 & Hij & H1 & H2 & Hx)].
      * apply list_elem_of_lookup in He2 as [j Hj].
        exists 0%nat, (S j), e, e2. repeat split; [lia | done..].
      * exists (S i), (S j), e1, e2. repeat split; [lia | done..].
    + intros (i & j & e1 & e2 & Hij & H1 & H2 & Hx).
      destruct j as [|j]; [lia|]. destruct i as [|i]; simpl in *.
      * injection H1 as ->. left. exists e2. split; [|done].
        apply list_elem_of_lookup. eauto.
      * right. exists i, j, e1, e2. repeat split; [lia | done..].
Qed.

Lemma elem_of_exactly_one index_map selected_courses x :
  x ∈ flat_map fst (exactly_one_step index_map <$> selected_courses) ↔
  ∃ course, course ∈ selected_courses ∧ eligible index_map course ≠ []
            ∧ x = SumEq1 (eligible index_map course).
Proof.
  rewrite elem_of_flat_map. split.
  - intros (st & (course & -> & Hc)%list_elem_of_fmap & Hx).
    unfold exactly_one_step in Hx. exists course.
    destruct (eligible index_map course) as [|y ys]; simpl in Hx.
    + by apply elem_of_nil in Hx.
    + apply list_elem_of_singleton in Hx. by repeat split.
  - intros (course & Hc & Hne & ->). exists (exactly_one_step index_map course).
    split; [apply list_elem_of_fmap; eauto|]. unfold exactly_one_step.
    destruct (eligible index_map course); [done|]. by apply list_elem_of_singleton.
Qed.

Lemma elem_of_printed index_map selected_courses line :
  line ∈ flat_map snd (exactly_one_step index_map <$> selected_courses) ↔
  ∃ course, course ∈ selected_courses ∧ eligible index_map course = []
            ∧ line = "Warning: No indexes found for course " +:+ course.
Proof.
  rewrite elem_of_flat_map. split.
  - intros (st & (course & -> & Hc)%list_elem_of_fmap & Hx).
    unfold exactly_one_step in Hx. exists course.
    destruct (eligible index_map course) as [|y ys]; simpl in Hx.
    + apply list_elem_of_singleton in Hx. by repeat split.
    + by apply elem_of_nil in Hx.
  - intros (course & Hc & He & ->). exists (exactly_one_step index_map course).
    split; [apply list_elem_of_fmap; eauto|]. unfold exactly_one_step.
    rewrite He. by apply list_elem_of_singleton.
Qed.

Lemma elem_of_campus_steps index_map x :
  x ∈ campus_step index_map <$> seqZ 0 5 ↔
  ∃ d, 0 ≤ d < 5 ∧ x = campus_step index_map d.
Proof.
  rewrite list_elem_of_fmap. split.
  - intros (d & -> & Hd%elem_of_seqZ). exists d. split; [lia | done].
  - intros (d & Hd & ->). exists d. split; [done|]. apply elem_of_seqZ. lia.
Qed.

Lemma elem_of_build_model lectures index_map selected_courses x :
  x ∈ constraints (model (build_model lectures index_map selected_courses)) ↔
  x ∈ flat_map fst (exactly_one_step index_map <$> selected_courses)
  ∨ x ∈ flat_map (lecture_step lectures) (all_index_sessions index_map)
  ∨ x ∈ index_pairs (all_index_sessions index_map)
  ∨ x ∈ campus_step index_map <$> seqZ 0 5.
Proof. simpl. by rewrite !elem_of_app. Qed.

Lemma elem_of_eligible index_map course x :
  x ∈ eligible index_map course ↔
  ∃ i, x = Chosen course i ∧ (course, i) ∈ index_map.*1.
Proof.
  unfold eligible. rewrite list_elem_of_fmap. split.
  - intros ([c i] & -> & [Hc Hin]%list_elem_of_filter). simpl in *. subst. eauto.
  - intros (i & -> & Hin). exists (course, i). split; [done|].
    by apply list_elem_of_filter.
Qed.

Lemma elem_of_day_sessions index_map d x :
  x ∈ day_sessions index_map d ↔
  ∃ c i sessions s, x = Chosen c i ∧ ((c, i), sessions) ∈ index_map ∧ s ∈ sessions
    ∧ s_day s = d ∧ (s_type s = "TUT" ∨ s_type s = "LAB").
Proof.
  unfold day_sessions. rewrite elem_of_flat_map. split.
  - intros ([[c i] ss] & Hin & (s & Hs & Hx)%elem_of_flat_map).
    destruct (bool_decide (s_day s = d) && _) eqn:E;
      [|by apply elem_of_nil in Hx].
    apply list_elem_of_singleton in Hx.
    apply andb_true_iff in E as [Hd%bool_decide_eq_true Ht%orb_true_iff].
    rewrite !bool_decide_eq_true in Ht. exists c, i, ss, s. by repeat split.
  - intros (c & i & ss & s & -> & Hin & Hs & Hd & Ht).
    exists ((c, i), ss). split; [done|]. apply elem_of_flat_map.
    exists s. split; [done|].
    rewrite (bool_decide_eq_true_2 _ Hd).
    assert (bool_decide (s_type s = "TUT") || bool_decide (s_type s = "LAB") = true)
      as ->; [|by apply list_elem_of_singleton].
    apply orb_true_iff. rewrite !bool_decide_eq_true. done.
Qed.

Lemma campus_step_vars index_map d :
  campus_step index_map d = EqZero (Campus d)
  ∨ ∃ xs, campus_step index_map d = MaxEquality (Campus d) xs.
Proof. unfold campus_step. destruct (day_sessions index_map d); eauto. Qed.

Lemma elem_of_index_pairs_sessions index_map x :
  x ∈ index_pairs (all_index_sessions index_map) ↔
  ∃ (i j : nat) c1 i1 s1 c2 i2 s2,
    (i < j)%nat
    ∧ all_index_sessions index_map !! i = Some (c1, i1, s1)
    ∧ all_index_sessions index_map !! j = Some (c2, i2, s2)
    ∧ x = SumLe1 (Chosen c1 i1) (Chosen c2 i2) ∧ c1 ≠ c2 ∧ clash s1 s2 = true.
Proof.
  rewrite elem_of_index_pairs. split.
  - intros (i & j & [[c1 i1] s1] & [[c2 i2] s2] & Hij & H1 & H2 & Hx).
    apply elem_of_pair_step in Hx as (-> & Hc & Hcl).
    exists i, j, c1, i1, s1, c2, i2, s2. by repeat split.
  - intros (i & j & c1 & i1 & s1 & c2 & i2 & s2 & Hij & H1 & H2 & -> & Hc & Hcl).
    exists i, j, (c1, i1, s1), (c2, i2, s2). repeat split; [done..|].
    by apply elem_of_pair_step.
Qed.

Lemma elem_of_build_model_EqZero_Chosen lectures index_map selected_courses c i :
  EqZero (Chosen c i)
    ∈ constraints (model (build_model lectures index_map selected_courses)) ↔
  ∃ sessions s lec, ((c, i), sessions) ∈ index_map ∧ s ∈ sessions
                    ∧ lec ∈ lectures ∧ clash s lec = true.
Proof.
  rewrite elem_of_build_model. split.
  - intros [H | [H | [H | H]]].
    + apply elem_of_exactly_one in H as (? & _ & _ & ?). discriminate.
    + apply elem_of_flat_map in H as ([[c' i'] s] & He & Hx).
      apply elem_of_lecture_step in Hx as ([= -> ->] & lec & Hl & Hcl).
      apply elem_of_all_index_sessions in He as (ss & Hin & Hs).
      by exists ss, s, lec.
    + apply elem_of_index_pairs_sessions in H
        as (? & ? & ? & ? & ? & ? & ? & ? & _ & _ & _ & ? & _). discriminate.
    + apply elem_of_campus_steps in H as (d & _ & Hx).
      destruct (campus_step_vars index_map d) as [E | [xs E]];
        rewrite E in Hx; discriminate.
  - intros (ss & s & lec & Hin & Hs & Hl & Hcl). right. left.
    apply elem_of_flat_map. exists (c, i, s). split.
    + apply elem_of_all_index_sessions. eauto.
    + apply elem_of_lecture_step. eauto.
Qed.

Lemma elem_of_build_model_SumLe1 lectures index_map selected_courses x y :
  SumLe1 x y ∈ constraints (model (build_model lectures index_map selected_courses)) ↔
  SumLe1 x y ∈ index_pairs (all_index_sessions index_map).
Proof.
  rewrite elem_of_build_model. split; [|tauto].
  intros [H | [H | [H | H]]]; [| |done|].
  - apply elem_of_exactly_one in H as (? & _ & _ & ?). discriminate.
  - apply elem_of_flat_map in H as ([[c' i'] s] & He & Hx).
    apply elem_of_lecture_step in Hx as (? & _). discriminate.
  - apply elem_of_campus_steps in H as (d & _ & Hx).
    destruct (campus_step_vars index_map d) as [E | [xs E]];
      rewrite E in Hx; discriminate.
Qed.

Lemma elem_of_build_model_SumLe1_Chosen lectures index_map selected_courses
    c1 i1 c2 i2 :
  SumLe1 (Chosen c1 i1) (Chosen c2 i2)
    ∈ constraints (model (build_model lectures index_map selected_courses))
  ∨ SumLe1 (Chosen c2 i2) (Chosen c1 i1)
    ∈ constraints (model (build_model lectures index_map selected_courses)) ↔
  c1 ≠ c2 ∧ ∃ ss1 ss2 s1 s2,
    ((c1, i1), ss1) ∈ index_map ∧ ((c2, i2), ss2) ∈ index_map
    ∧ s1 ∈ ss1 ∧ s2 ∈ ss2 ∧ clash s1 s2 = true.
Proof.
  rewrite !elem_of_build_model_SumLe1.
  rewrite !elem_of_index_pairs_sessions. split.
  - intros [H | H];
      destruct H as (i & j & a1 & b1 & s1 & a2 & b2 & s2 & Hij & H1 & H2
                       & [= <- <- <- <-] & Hc & Hcl);
      apply list_elem_of_lookup_2, elem_of_all_index_sessions in H1 as (ss1 & ? & ?);
      apply list_elem_of_lookup_2, elem_of_all_index_sessions in H2 as (ss2 & ? & ?).
    + split; [done|]. by exists ss1, ss2, s1, s2.
    + split; [done|]. rewrite clash_sym in Hcl. by exists ss2, ss1, s2, s1.
  - intros (Hc & ss1 & ss2 & s1 & s2 & Hin1 & Hin2 & Hs1 & Hs2 & Hcl).
    assert ((c1, i1, s1) ∈ all_index_sessions index_map) as He1
      by (apply elem_of_all_index_sessions; eauto).
    assert ((c2, i2, s2) ∈ all_index_sessions index_map) as He2
      by (apply elem_of_all_index_sessions; eauto).
    apply list_elem_of_lookup in He1 as [i Hi].
    apply list_elem_of_lookup in He2 as [j Hj].
    destruct (lt_eq_lt_dec i j) as [[Hlt | ->] | Hlt].
    + left. exists i, j, c1, i1, s1, c2, i2, s2. by repeat split.
    + rewrite Hi in Hj. by injection Hj as -> _ _.
    + right. rewrite clash_sym in Hcl.
      exists j, i, c2, i2, s2, c1, i1, s1. by repeat split.
Qed.

(** The lectures the loader returns are those of the selected courses,
    each running in all weeks. *)
Lemma load_lectures_selected rows selected_courses lec :
  lec ∈ load_lectures rows selected_courses →
  s_course lec ∈ selected_courses ∧ s_weeks lec = all_weeks.
Proof.
  unfold load_lectures.
  assert (∀ acc,
    (∀ l, l ∈ acc → s_course l ∈ selected_courses ∧ s_weeks l = all_weeks) →
    lec ∈ foldl (load_lecture_row selected_courses) acc rows →
    s_course lec ∈ selected_courses ∧ s_weeks lec = all_weeks) as Hgen.
  { induction rows as [|row rows IH]; intros acc Hacc; simpl; [apply Hacc|].
    apply IH. intros l. unfold load_lecture_row.
    case_bool_decide as Hc; [apply Hacc|].
    destruct (isna (lrow_start row) || isna (lrow_end row)); [apply Hacc|].
    destruct (day_to_index (lrow_day row)) as [day|]; simpl; [|apply Hacc].
    destruct (time_to_minutes (lrow_start row)) as [start|]; simpl; [|apply Hacc].
    destruct (time_to_minutes (lrow_end row)) as [end_|]; simpl; [|apply Hacc].
    intros [Hl | ->%list_elem_of_singleton]%elem_of_app; [by apply Hacc | done]. }
  apply Hgen. by intros l ?%elem_of_nil.
Qed.

(** C7. The built model holds a forbidding constraint [var == 0] for
    exactly the options one of whose sessions clashes (combined check) with
    one of the lectures handed to the builder (those of the selected
    courses, see [load_lectures_selected]), whichever course the lecture
    belongs to, the option's own course included; it holds a
    constraint [varA + varB <= 1] for exactly the pairs of options of
    different courses with a clashing pair of sessions; and it never holds
    one between two options of the same course. *)
Theorem conflict_constraints_exact (lectures : list Session)
    (index_map : IndexMap) (selected_courses : list string) :
  let cs := constraints (model (build_model lectures index_map selected_courses)) in
  (∀ c i, EqZero (Chosen c i) ∈ cs ↔
     ∃ sessions s lec, ((c, i), sessions) ∈ index_map ∧ s ∈ sessions
                       ∧ lec ∈ lectures ∧ clash s lec = true)
  ∧ (∀ c1 i1 c2 i2,
       SumLe1 (Chosen c1 i1) (Chosen c2 i2) ∈ cs
       ∨ SumLe1 (Chosen c2 i2) (Chosen c1 i1) ∈ cs ↔
       c1 ≠ c2 ∧ ∃ ss1 ss2 s1 s2,
         ((c1, i1), ss1) ∈ index_map ∧ ((c2, i2), ss2) ∈ index_map
         ∧ s1 ∈ ss1 ∧ s2 ∈ ss2 ∧ clash s1 s2 = true)
  ∧ (∀ c i1 i2, SumLe1 (Chosen c i1) (Chosen c i2) ∉ cs)
  ∧ ((∀ lec, lec ∈ lectures → s_course lec ∈ selected_courses) →
     ∀ c i, EqZero (Chosen c i) ∈ cs ↔
       ∃ sessions s lec, ((c, i), sessions) ∈ index_map ∧ s ∈ sessions
                         ∧ lec ∈ lectures ∧ s_course lec ∈ selected_courses
                         ∧ clash s lec = true).
Proof.
  intros cs. subst cs. split; [|split; [|split]]; [| | |intros Hsel c i].
  4: { rewrite elem_of_build_model_EqZero_Chosen. split.
       - intros (ss & s & lec & Hin & Hs & Hl & Hcl).
         exists ss, s, lec. split_and!; auto.
       - intros (ss & s & lec & Hin & Hs & Hl & _ & Hcl). by exists ss, s, lec. }
  - intros c i. apply elem_of_build_model_EqZero_Chosen.
  - intros c1 i1 c2 i2. apply elem_of_build_model_SumLe1_Chosen.
  - intros c i1 i2. rewrite elem_of_build_model_SumLe1, elem_of_index_pairs_sessions.
    intros (? & ? & ? & ? & ? & ? & ? & ? & _ & _ & _ & [= <- <- <- <-] & Hc & _).
    done.
Qed.

Lemma conflict_constraints_exact_witness :
  EqZero (Chosen "SC2079" "10201")
    ∈ constraints (model (build_model [own_lecture "SC2079"]
                                      (own_index_map "SC2079" "10201") ["SC2079"])).
Proof.
  apply (proj2 (proj2 (proj2 (conflict_constraints_exact [own_lecture "SC2079"]
           (own_index_map "SC2079" "10201") ["SC2079"])))).
  - intros lec ->%list_elem_of_singleton. left.
  - exists [own_tutorial "SC2079" "10201"], (own_tutorial "SC2079" "10201"),
      (own_lecture "SC2079").
    split_and!; [left | left | left | left | reflexivity].
Defined.

(** C2. In the built model a pair of sessions yields a constraint exactly
    when [strict_conflict] holds for it and the two week sets intersect:
    the model forbids an option exactly when one of its sessions and a
    lecture are such a pair, and it holds a mutual exclusion between two
    options exactly when they are of different courses and have such a
    pair of sessions.  In particular a pair that is not LAB/LAB and
    overlaps in time on one weekday is a [strict_conflict] whatever the
    weeks, but with disjoint week sets the combined check fails; and an
    option all of whose pairs have disjoint week sets is not forbidden,
    respectively not excluded against the other option. *)
Theorem clash_iff_conflict_and_weeks_meet (lectures : list Session)
    (index_map : IndexMap) (selected_courses : list string) :
  let cs := constraints (model (build_model lectures index_map selected_courses)) in
  (∀ a b, clash a b = true ↔
          strict_conflict a b = true ∧ s_weeks a ∩ s_weeks b ≠ ∅)
  ∧ (∀ c i, EqZero (Chosen c i) ∈ cs ↔
       ∃ sessions a b, ((c, i), sessions) ∈ index_map ∧ a ∈ sessions
         ∧ b ∈ lectures
         ∧ strict_conflict a b = true ∧ s_weeks a ∩ s_weeks b ≠ ∅)
  ∧ (∀ c1 i1 c2 i2,
       SumLe1 (Chosen c1 i1) (Chosen c2 i2) ∈ cs
       ∨ SumLe1 (Chosen c2 i2) (Chosen c1 i1) ∈ cs ↔
       c1 ≠ c2 ∧ ∃ ss1 ss2 a b,
         ((c1, i1), ss1) ∈ index_map ∧ ((c2, i2), ss2) ∈ index_map
         ∧ a ∈ ss1 ∧ b ∈ ss2
         ∧ strict_conflict a b = true ∧ s_weeks a ∩ s_weeks b ≠ ∅)
  ∧ (∀ a b, ¬ (s_type a = "LAB" ∧ s_type b = "LAB") →
       sessions_overlap a b = true →
       strict_conflict a b = true
       ∧ (s_weeks a ∩ s_weeks b = ∅ → clash a b = false))
  ∧ (∀ c i,
       (∀ sessions a b, ((c, i), sessions) ∈ index_map → a ∈ sessions →
          b ∈ lectures → s_weeks a ∩ s_weeks b = ∅) →
       EqZero (Chosen c i) ∉ cs)
  ∧ (∀ c1 i1 c2 i2,
       (∀ ss1 ss2 a b, ((c1, i1), ss1) ∈ index_map →
          ((c2, i2), ss2) ∈ index_map → a ∈ ss1 → b ∈ ss2 →
          s_weeks a ∩ s_weeks b = ∅) →
       (SumLe1 (Chosen c1 i1) (Chosen c2 i2) ∉ cs)
       ∧ (SumLe1 (Chosen c2 i2) (Chosen c1 i1) ∉ cs)).
Proof.
  intros cs. subst cs.
  assert (∀ c i, EqZero (Chosen c i)
            ∈ constraints (model (build_model lectures index_map selected_courses)) ↔
       ∃ sessions a b, ((c, i), sessions) ∈ index_map ∧ a ∈ sessions
         ∧ b ∈ lectures
         ∧ strict_conflict a b = true ∧ s_weeks a ∩ s_weeks b ≠ ∅) as Hzero.
  { intros c i. rewrite elem_of_build_model_EqZero_Chosen. split.
    - intros (ss & a & b & ? & ? & ? & [? ?]%clash_true). by exists ss, a, b.
    - intros (ss & a & b & ? & ? & ? & ? & ?). exists ss, a, b.
      split_and!; try done. by apply clash_true. }
  assert (∀ c1 i1 c2 i2,
       SumLe1 (Chosen c1 i1) (Chosen c2 i2)
         ∈ constraints (model (build_model lectures index_map selected_courses))
       ∨ SumLe1 (Chosen c2 i2) (Chosen c1 i1)
         ∈ constraints (model (build_model lectures index_map selected_courses)) ↔
       c1 ≠ c2 ∧ ∃ ss1 ss2 a b,
         ((c1, i1), ss1) ∈ index_map ∧ ((c2, i2), ss2) ∈ index_map
         ∧ a ∈ ss1 ∧ b ∈ ss2
         ∧ strict_conflict a b = true ∧ s_weeks a ∩ s_weeks b ≠ ∅) as Hpair.
  { intros c1 i1 c2 i2. rewrite elem_of_build_model_SumLe1_Chosen. split.
    - intros (Hc & ss1 & ss2 & a & b & ? & ? & ? & ? & [? ?]%clash_true).
      split; [done|]. by exists ss1, ss2, a, b.
    - intros (Hc & ss1 & ss2 & a & b & ? & ? & ? & ? & ? & ?).
      split; [done|]. exists ss1, ss2, a, b. split_and!; try done.
      by apply clash_true. }
  split_and!.
  - apply clash_true.
  - exact Hzero.
  - exact Hpair.
  - intros a b Hn Ho. rewrite (strict_conflict_other a b Hn). split; [done|].
    intros He. apply not_true_is_false. intros [_ Hw]%clash_true. done.
  - intros c i Hdisj (ss & a & b & Hin & Ha & Hb & _ & Hw)%Hzero.
    apply Hw. by eapply Hdisj.
  - intros c1 i1 c2 i2 Hdisj.
    assert (¬ (SumLe1 (Chosen c1 i1) (Chosen c2 i2)
                 ∈ constraints (model (build_model lectures index_map selected_courses))
               ∨ SumLe1 (Chosen c2 i2) (Chosen c1 i1)
                 ∈ constraints (model (build_model lectures index_map selected_courses))))
      as Hno.
    { intros (_ & ss1 & ss2 & a & b & H1 & H2 & Ha & Hb & _ & Hw)%Hpair.
      apply Hw. by eapply Hdisj. }
    tauto.
Qed.

Lemma clash_iff_conflict_and_weeks_meet_witness :
  strict_conflict tut_odd tut_even = true
  ∧ clash tut_odd tut_even = false
  ∧ SumLe1 (Chosen "SC2079" "10102") (Chosen "SC2104" "10202")
      ∉ constraints (model (build_model [] alternating_tutorials two_courses)).
Proof.
  destruct (clash_iff_conflict_and_weeks_meet [] alternating_tutorials two_courses)
    as (_ & _ & _ & Hpart & _ & Hpair).
  destruct (Hpart tut_odd tut_even) as [Hs Hc].
  - simpl. intros [H _]. discriminate H.
  - reflexivity.
  - split; [exact Hs|]. split; [apply Hc; reflexivity|].
    apply (Hpair "SC2079" "10102" "SC2104" "10202").
    intros ss1 ss2 a b H1 H2 Ha Hb.
    apply elem_of_cons in H1 as [H1 | H1];
      [|apply list_elem_of_singleton in H1; discriminate H1].
    apply elem_of_cons in H2 as [H2 | H2]; [discriminate H2|].
    apply list_elem_of_singleton in H2.
    injection H1 as ->. injection H2 as ->.
    apply list_elem_of_singleton in Ha, Hb. subst a b. reflexivity.
Defined.

(** ** Campus-day indicators *)

Lemma value_range v x : value v x = 0 ∨ value v x = 1.
Proof. unfold value. destruct (v x); auto. Qed.

Lemma max_values_range v xs : max_values v xs = 0 ∨ max_values v xs = 1.
Proof.
  induction xs as [|x xs IH]; simpl; [auto|].
  destruct (value_range v x), IH; lia.
Qed.

Lemma max_values_one v xs :
  max_values v xs = 1 ↔ ∃ x, x ∈ xs ∧ v x = true.
Proof.
  induction xs as [|x xs IH]; simpl.
  - split; [lia | intros (x & Hx & _)]. by apply elem_of_nil in Hx.
  - split.
    + intros H. destruct (v x) eqn:E.
      * exists x. split; [left | done].
      * unfold value in H. rewrite E in H.
        destruct (max_values_range v xs) as [H0 | H1]; [lia|].
        apply IH in H1 as (y & Hy & Hv). exists y. split; [by right | done].
    + intros (y & Hy & Hv). apply elem_of_cons in Hy as [-> | Hy].
      * unfold value. rewrite Hv. destruct (max_values_range v xs); lia.
      * assert (max_values v xs = 1) as -> by (apply IH; eauto).
        destruct (value_range v x); lia.
Qed.

Lemma satisfies_holds v m c :
  satisfies v m = true → c ∈ constraints m → holds v c = true.
Proof.
  unfold satisfies. rewrite forallb_forall. intros H Hc.
  by apply H, list_elem_of_In.
Qed.

Lemma filter_none {A} (P : A → Prop) `{∀ x, Decision (P x)} (l : list A) :
  (∀ x, x ∈ l → ¬ P x) → filter P l = [].
Proof.
  induction l as [|x l IH]; [done|]. intros Hl.
  rewrite filter_cons_False by (apply Hl; left).
  apply IH. intros y Hy. apply Hl. by right.
Qed.

Lemma filter_all {A} (P : A → Prop) `{∀ x, Decision (P x)} (l : list A) :
  (∀ x, x ∈ l → P x) → filter P l = l.
Proof.
  induction l as [|x l IH]; [done|]. intros Hl.
  rewrite filter_cons_True by (apply Hl; left).
  f_equal. apply IH. intros y Hy. apply Hl. by right.
Qed.

Lemma eligible_no_campus index_map course :
  existsb is_campus (eligible index_map course) = false.
Proof.
  apply not_true_is_false. rewrite existsb_exists.
  intros (x & Hx%list_elem_of_In%elem_of_eligible & Hc).
  by destruct Hx as (i & -> & _).
Qed.

(** C8. The model has exactly five campus-day indicators, Monday to
    Friday.  The constraints over them are the same whatever the lectures:
    one per weekday, tying the indicator to the maximum (logical OR) of
    the chosen-index variables of every option with a TUT or LAB session
    on that weekday, or to 0 when there is none.  The objective is the sum
    of the five indicators. *)
Theorem campus_day_indicators (lectures : list Session) (index_map : IndexMap)
    (selected_courses : list string) :
  let b := build_model lectures index_map selected_courses in
  campus_day b = [Campus 0; Campus 1; Campus 2; Campus 3; Campus 4]
  ∧ minimize (model b) = campus_day b
  ∧ (∀ v, objective v (model b) =
          value v (Campus 0) + value v (Campus 1) + value v (Campus 2)
          + value v (Campus 3) + value v (Campus 4))
  ∧ filter (λ c, mentions_campus c = true) (constraints (model b))
    = campus_step index_map <$> seqZ 0 5
  ∧ (∀ d, campus_step index_map d =
          match day_sessions index_map d with
          | [] => EqZero (Campus d)
          | x :: xs => MaxEquality (Campus d) (x :: xs)
          end)
  ∧ (∀ d x, x ∈ day_sessions index_map d ↔
            ∃ c i sessions s, x = Chosen c i ∧ ((c, i), sessions) ∈ index_map
              ∧ s ∈ sessions ∧ s_day s = d
              ∧ (s_type s = "TUT" ∨ s_type s = "LAB"))
  ∧ (∀ v, satisfies v (model b) = true → ∀ d, 0 ≤ d < 5 →
       (v (Campus d) = true ↔
        ∃ c i sessions s, ((c, i), sessions) ∈ index_map ∧ s ∈ sessions
          ∧ s_day s = d ∧ (s_type s = "TUT" ∨ s_type s = "LAB")
          ∧ v (Chosen c i) = true)).
Proof.
  intros b. subst b.
  split; [reflexivity|]. split; [reflexivity|].
  split.
  { intros v.
    change (objective v _)
      with (sum_values v [Campus 0; Campus 1; Campus 2; Campus 3; Campus 4]).
    unfold sum_values. cbn [foldr]. lia. }
  split; [|split; [|split]].
  - cbn [constraints model build_model]. rewrite !filter_app.
    rewrite (filter_none _ (flat_map fst _)), (filter_none _ (flat_map _ _)),
      (filter_none _ (index_pairs _)), (filter_all _ (_ <$> _)); [done|..].
    + intros x (d & _ & ->)%elem_of_campus_steps.
      by destruct (campus_step_vars index_map d) as [-> | [xs ->]].
    + intros x (? & ? & ? & ? & ? & ? & ? & ? & _ & _ & _ & -> & _)
               %elem_of_index_pairs_sessions. done.
    + intros x ([[c i] s] & _ & (-> & _)%elem_of_lecture_step)%elem_of_flat_map.
      done.
    + intros x (course & _ & _ & ->)%elem_of_exactly_one.
      unfold mentions_campus. simpl. by rewrite eligible_no_campus.
  - reflexivity.
  - apply elem_of_day_sessions.
  - intros v Hsat d Hd.
    assert (holds v (campus_step index_map d) = true) as Hh.
    { apply (satisfies_holds _ _ _ Hsat), elem_of_build_model.
      do 3 right. apply elem_of_campus_steps. eauto. }
    assert (value v (Campus d) = max_values v (day_sessions index_map d)) as Hv.
    { unfold campus_step in Hh. destruct (day_sessions index_map d) eqn:E.
      - simpl in Hh. apply Z.eqb_eq in Hh. by rewrite Hh.
      - simpl in Hh. by apply Z.eqb_eq in Hh. }
    assert (v (Campus d) = true ↔ max_values v (day_sessions index_map d) = 1)
      as ->.
    { rewrite <- Hv. unfold value. destruct (v (Campus d)); split; done. }
    rewrite max_values_one. split.
    + intros (x & (c & i & ss & s & -> & ?)%elem_of_day_sessions & Hx).
      exists c, i, ss, s. tauto.
    + intros (c & i & ss & s & Hin & Hs & Hday & Ht & Hx).
      exists (Chosen c i). split; [|done].
      apply elem_of_day_sessions. exists c, i, ss, s. tauto.
Qed.

Lemma campus_day_indicators_witness :
  filter (λ c, mentions_campus c = true)
         (constraints (model (build_model [lec_mon] two_options two_courses)))
  = [EqZero (Campus 0); MaxEquality (Campus 1) [Chosen "SC2079" "10101"];
     EqZero (Campus 2); MaxEquality (Campus 3) [Chosen "SC2104" "10201"];
     EqZero (Campus 4)].
Proof.
  rewrite (proj1 (proj2 (proj2 (proj2
             (campus_day_indicators [lec_mon] two_options two_courses))))).
  reflexivity.
Defined.

(** ** The reference backend is a faithful solver *)

Lemma sum_values_ext v1 v2 xs :
  (∀ x, x ∈ xs → v1 x = v2 x) → sum_values v1 xs = sum_values v2 xs.
Proof.
  induction xs as [|x xs IH]; intros H; simpl; [done|].
  unfold value. rewrite (H x) by left.
  rewrite IH; [done|]. intros y Hy. apply H. by right.
Qed.

Lemma max_values_ext v1 v2 xs :
  (∀ x, x ∈ xs → v1 x = v2 x) → max_values v1 xs = max_values v2 xs.
Proof.
  induction xs as [|x xs IH]; intros H; simpl; [done|].
  unfold value. rewrite (H x) by left.
  rewrite IH; [done|]. intros y Hy. apply H. by right.
Qed.

Lemma holds_ext v1 v2 c :
  (∀ x, x ∈ constraint_vars c → v1 x = v2 x) → holds v1 c = holds v2 c.
Proof.
  destruct c as [xs | x | x y | t xs]; simpl; intros H.
  - by rewrite (sum_values_ext v1 v2 xs).
  - unfold value. rewrite (H x); [done | left].
  - unfold value. rewrite (H x), (H y); [done | right; left | left].
  - unfold value. rewrite (H t) by left.
    rewrite (max_values_ext v1 v2 xs); [done|]. intros z Hz. apply H. by right.
Qed.

Lemma elem_of_model_vars m x :
  x ∈ model_vars m ↔
  (∃ c, c ∈ constraints m ∧ x ∈ constraint_vars c) ∨ x ∈ minimize m.
Proof.
  unfold model_vars. by rewrite elem_of_remove_dups, elem_of_app, elem_of_flat_map.
Qed.

Lemma satisfies_ext v1 v2 m :
  (∀ x, x ∈ model_vars m → v1 x = v2 x) → satisfies v1 m = satisfies v2 m.
Proof.
  intros H. unfold satisfies.
  assert (∀ cs, (∀ c, c ∈ cs → c ∈ constraints m) →
                forallb (holds v1) cs = forallb (holds v2) cs) as Hgen.
  { induction cs as [|c cs IH]; intros Hcs; simpl; [done|].
    rewrite (holds_ext v1 v2 c), IH; [done | |].
    - intros c' Hc'. apply Hcs. by right.
    - intros x Hx. apply H, elem_of_model_vars. left.
      exists c. split; [apply Hcs; left | done]. }
  by apply Hgen.
Qed.

Lemma objective_ext v1 v2 m :
  (∀ x, x ∈ model_vars m → v1 x = v2 x) → objective v1 m = objective v2 m.
Proof.
  intros H. apply sum_values_ext. intros x Hx.
  apply H, elem_of_model_vars. by right.
Qed.

Lemma filter_in_sublists {A} (P : A → Prop) `{∀ x, Decision (P x)} (l : list A) :
  filter P l ∈ sublists l.
Proof.
  induction l as [|x l IH]; simpl; [left|].
  rewrite filter_cons, elem_of_app. case_decide; [right | by left].
  apply list_elem_of_fmap. eauto.
Qed.

(** Every valuation agrees, on the variables of the model, with one of the
    candidates of the search. *)
Lemma valuation_of_restriction (v : Valuation) (xs : list BoolVar) x :
  x ∈ xs → valuation_of (filter (λ y, v y = true) xs) x = v x.
Proof.
  intros Hx. unfold valuation_of. destruct (v x) eqn:E.
  - apply bool_decide_eq_true. by apply list_elem_of_filter.
  - apply bool_decide_eq_false. intros [Hv _]%list_elem_of_filter. congruence.
Qed.

Lemma feasible_valuations_restriction m v :
  satisfies v m = true →
  filter (λ y, v y = true) (model_vars m) ∈ feasible_valuations m.
Proof.
  intros Hsat. apply list_elem_of_filter. split; [|apply filter_in_sublists].
  etrans; [|exact Hsat]. apply satisfies_ext. intros x Hx.
  by apply valuation_of_restriction.
Qed.

Lemma best_of_spec m first others :
  best_of m first others ∈ first :: others
  ∧ ∀ ones, ones ∈ first :: others →
      objective (valuation_of (best_of m first others)) m
      ≤ objective (valuation_of ones) m.
Proof.
  unfold best_of. revert first.
  induction others as [|o others IH]; intros first; simpl.
  - split; [left|]. by intros ones ->%list_elem_of_singleton.
  - destruct (objective (valuation_of o) m <? objective (valuation_of first) m)
      eqn:E; [apply Z.ltb_lt in E | apply Z.ltb_ge in E].
    + destruct (IH o) as [Hin Hmin]. split.
      * apply elem_of_cons in Hin as [-> | Hin]; [right; left | by do 2 right].
      * intros ones [-> | Hones]%elem_of_cons.
        -- specialize (Hmin o (list_elem_of_here _ _)). lia.
        -- by apply Hmin.
    + destruct (IH first) as [Hin Hmin]. split.
      * apply elem_of_cons in Hin as [-> | Hin]; [left | by do 2 right].
      * intros ones [-> | [-> | Hones]%elem_of_cons]%elem_of_cons.
        -- apply Hmin. left.
        -- specialize (Hmin first (list_elem_of_here _ _)). lia.
        -- apply Hmin. by right.
Qed.

(** The search reports a solution exactly when the model has one; the
    valuation it reports satisfies the model and no satisfying valuation
    has a smaller objective. *)
Lemma exhaustive_search_correct m :
  sound_response m (exhaustive_search m)
  ∧ ((∃ v, satisfies v m = true) ↔ status (exhaustive_search m) = OPTIMAL)
  ∧ (∀ v, satisfies v m = true →
          objective (Value (exhaustive_search m)) m ≤ objective v m).
Proof.
  unfold exhaustive_search, sound_response.
  destruct (feasible_valuations m) as [|first others] eqn:E; simpl.
  - split; [intros [? | ?]; discriminate|]. split.
    + split; [|discriminate]. intros [v Hv].
      apply feasible_valuations_restriction in Hv. rewrite E in Hv.
      by apply elem_of_nil in Hv.
    + intros v Hv. apply feasible_valuations_restriction in Hv.
      rewrite E in Hv. by apply elem_of_nil in Hv.
  - destruct (best_of_spec m first others) as [Hin Hmin].
    rewrite <- E in Hin, Hmin.
    pose proof Hin as [Hsat _]%list_elem_of_filter.
    split; [done|]. split; [split; eauto|].
    intros v Hv. etrans; [apply Hmin, feasible_valuations_restriction, Hv|].
    apply Z.eq_le_incl, objective_ext. intros x Hx.
    by apply valuation_of_restriction.
Qed.

Lemma exhaustive_stream_feasible m v :
  v ∈ exhaustive_stream m → satisfies v m = true.
Proof.
  intros (ones & -> & Hin)%list_elem_of_fmap.
  by apply list_elem_of_filter in Hin as [? _].
Qed.

(** ** The best-only driver *)

Lemma value_eqb_1 v x : (value v x =? 1) = v x.
Proof. unfold value. by destruct (v x). Qed.

Lemma sum_values_nonneg v xs : 0 ≤ sum_values v xs.
Proof.
  induction xs as [|x xs IH]; simpl; [lia|].
  destruct (value_range v x); lia.
Qed.

Lemma sum_values_pos v xs :
  1 ≤ sum_values v xs → ∃ x, x ∈ xs ∧ v x = true.
Proof.
  induction xs as [|x xs IH]; simpl; [lia|]. intros H.
  destruct (v x) eqn:E.
  - exists x. split; [left | done].
  - unfold value in H. rewrite E in H.
    destruct IH as (y & Hy & Hv); [lia|]. exists y. split; [by right | done].
Qed.

Lemma sum_values_elem v xs x :
  x ∈ xs → v x = true → 1 ≤ sum_values v xs.
Proof.
  induction xs as [|y xs IH]; [by intros ?%elem_of_nil|].
  intros [-> | Hx]%elem_of_cons Hv; simpl.
  - unfold value. rewrite Hv. pose proof (sum_values_nonneg v xs). lia.
  - specialize (IH Hx Hv). destruct (value_range v y); lia.
Qed.

Lemma sum_values_two v xs x y :
  x ∈ xs → y ∈ xs → x ≠ y → v x = true → v y = true → 2 ≤ sum_values v xs.
Proof.
  induction xs as [|z xs IH]; [by intros ?%elem_of_nil|].
  intros [-> | Hx]%elem_of_cons [-> | Hy]%elem_of_cons Hne Hvx Hvy; simpl.
  - done.
  - pose proof (sum_values_elem v xs y Hy Hvy). unfold value. rewrite Hvx. lia.
  - pose proof (sum_values_elem v xs x Hx Hvx). unfold value. rewrite Hvy. lia.
  - specialize (IH Hx Hy Hne Hvx Hvy). destruct (value_range v z); lia.
Qed.

Lemma elem_of_dict_get index_map k s :
  s ∈ dict_get index_map k → ∃ sessions, (k, sessions) ∈ index_map ∧ s ∈ sessions.
Proof.
  induction index_map as [|[k' ss] im IH]; simpl; [by intros ?%elem_of_nil|].
  case_bool_decide as Hk.
  - subst k'. intros Hs. exists ss. split; [left | done].
  - intros (ss' & Hin & Hs)%IH. exists ss'. split; [by right | done].
Qed.

Lemma clash_timetable_entry c1 s1 c2 s2 :
  clash (timetable_entry c1 s1) (timetable_entry c2 s2) = clash s1 s2.
Proof. reflexivity. Qed.

Section BestOnly.
Variable Solve : CpModel → Response.
Variables (lectures : list Session) (index_map : IndexMap)
  (selected_courses : list string).

Let b := build_model lectures index_map selected_courses.
Let v := Value (Solve (model b)).

Lemma solve_Success_inv indexes timetable campus_days :
  solve Solve lectures index_map selected_courses
    = Success indexes timetable campus_days →
  (status (Solve (model b)) = OPTIMAL ∨ status (Solve (model b)) = FEASIBLE)
  ∧ indexes = picked_indexes v (chosen b)
  ∧ timetable = picked_rows v index_map (chosen b) ++ lecture_rows lectures
  ∧ campus_days = sum_values v (campus_day b).
Proof.
  unfold solve. fold b. fold v.
  destruct (bool_decide _ && bool_decide _) eqn:E; [discriminate|].
  intros [= <- <- <-]. split; [|done].
  apply andb_false_iff in E as [E | E]; apply bool_decide_eq_false in E;
    apply dec_stable in E; auto.
Qed.

Lemma solve_Success_intro :
  status (Solve (model b)) = OPTIMAL ∨ status (Solve (model b)) = FEASIBLE →
  solve Solve lectures index_map selected_courses
    = Success (picked_indexes v (chosen b))
              (picked_rows v index_map (chosen b) ++ lecture_rows lectures)
              (sum_values v (campus_day b)).
Proof.
  intros Hs. unfold solve. fold b. fold v.
  destruct (bool_decide _ && bool_decide _) eqn:E; [|done].
  apply andb_true_iff in E as [E1%bool_decide_eq_true E2%bool_decide_eq_true].
  destruct Hs; contradiction.
Qed.

Lemma solve_Failure_intro :
  status (Solve (model b)) ≠ OPTIMAL → status (Solve (model b)) ≠ FEASIBLE →
  solve Solve lectures index_map selected_courses
    = Failure (analyze_infeasibility lectures index_map selected_courses).
Proof.
  intros H1 H2. unfold solve. fold b.
  by rewrite (bool_decide_eq_true_2 _ H1), (bool_decide_eq_true_2 _ H2).
Qed.

Lemma elem_of_picked_rows row :
  row ∈ picked_rows v index_map (chosen b) ↔
  ∃ c i s, (c, i) ∈ index_map.*1 ∧ v (Chosen c i) = true
           ∧ s ∈ dict_get index_map (c, i) ∧ row = timetable_entry c s.
Proof.
  unfold picked_rows. rewrite elem_of_flat_map. simpl chosen. split.
  - intros ([[c i] var] & Hin & Hrow).
    apply list_elem_of_fmap in Hin as ([c' i'] & [= -> -> ->] & Hk).
    simpl in Hrow. rewrite value_eqb_1 in Hrow.
    destruct (v (Chosen c' i')) eqn:E; [|by apply elem_of_nil in Hrow].
    apply list_elem_of_fmap in Hrow as (s & -> & Hs). by exists c', i', s.
  - intros (c & i & s & Hk & Hv & Hs & ->). exists ((c, i), Chosen c i).
    split; [apply list_elem_of_fmap; by exists (c, i)|].
    rewrite value_eqb_1, Hv. apply list_elem_of_fmap. eauto.
Qed.

Lemma picked_indexes_Some c i :
  picked_indexes v (chosen b) !! c = Some i →
  (c, i) ∈ index_map.*1 ∧ v (Chosen c i) = true.
Proof.
  unfold picked_indexes. simpl chosen.
  assert (∀ ks (acc : gmap string string),
    foldl (λ (acc : gmap string string) '((course, idx), var),
             if value v var =? 1 then <[course := idx]> acc else acc)
          acc ((λ k, (k, Chosen k.1 k.2)) <$> ks) !! c = Some i →
    acc !! c = Some i ∨ ((c, i) ∈ ks ∧ v (Chosen c i) = true)) as Hgen.
  { induction ks as [|[c' i'] ks IH]; intros acc; simpl; [auto|].
    rewrite value_eqb_1. intros [Hacc | [Hin Hv]]%IH.
    - destruct (v (Chosen c' i')) eqn:E; [|auto].
      rewrite lookup_insert in Hacc. case_decide as Hc.
      + injection Hacc as ->. subst c'. right. split; [left | done].
      + auto.
    - right. split; [by right | done]. }
  intros [Hempty | H]%Hgen; [|done]. by rewrite lookup_empty in Hempty.
Qed.

Lemma picked_indexes_is_Some c i :
  (c, i) ∈ index_map.*1 → v (Chosen c i) = true →
  is_Some (picked_indexes v (chosen b) !! c).
Proof.
  unfold picked_indexes. simpl chosen. intros Hin Hv.
  assert (∀ ks (acc : gmap string string),
    is_Some (acc !! c) ∨ (c, i) ∈ ks →
    is_Some (foldl (λ (acc : gmap string string) '((course, idx), var),
                      if value v var =? 1 then <[course := idx]> acc else acc)
                   acc ((λ k, (k, Chosen k.1 k.2)) <$> ks) !! c)) as Hgen.
  { induction ks as [|[c' i'] ks IH]; intros acc; simpl.
    - intros [? | ?%elem_of_nil]; done.
    - rewrite value_eqb_1. intros [Hacc | [Heq | Hk]%elem_of_cons];
        apply IH; [| |by right].
      + left. destruct (v (Chosen c' i')); [|done].
        rewrite lookup_insert. by case_decide.
      + injection Heq as <- <-. left. rewrite Hv, lookup_insert.
        by rewrite decide_True.
  }
  apply Hgen. by right.
Qed.

Hypothesis Hsound : sound_response (model b) (Solve (model b)).

Lemma picked_unique c i1 i2 :
  c ∈ selected_courses →
  status (Solve (model b)) = OPTIMAL ∨ status (Solve (model b)) = FEASIBLE →
  (c, i1) ∈ index_map.*1 → v (Chosen c i1) = true →
  (c, i2) ∈ index_map.*1 → v (Chosen c i2) = true → i1 = i2.
Proof.
  intros Hc Hst H1 Hv1 H2 Hv2. apply Hsound in Hst.
  assert (Chosen c i1 ∈ eligible index_map c) as He1
    by (apply elem_of_eligible; eauto).
  assert (Chosen c i2 ∈ eligible index_map c) as He2
    by (apply elem_of_eligible; eauto).
  assert (holds v (SumEq1 (eligible index_map c)) = true) as Hh.
  { apply (satisfies_holds _ _ _ Hst), elem_of_build_model. left.
    apply elem_of_exactly_one. exists c. repeat split; [done|].
    intros Hnil. rewrite Hnil in He1. by apply elem_of_nil in He1. }
  simpl in Hh. apply Z.eqb_eq in Hh.
  destruct (decide (i1 = i2)) as [|Hne]; [done|].
  pose proof (sum_values_two v _ _ _ He1 He2) as Htwo.
  fold v in Hh. rewrite Hh in Htwo.
  assert (2 ≤ 1); [|lia]. apply Htwo; [congruence | done..].
Qed.

Lemma picked_exists c :
  c ∈ selected_courses →
  status (Solve (model b)) = OPTIMAL ∨ status (Solve (model b)) = FEASIBLE →
  (∃ i, (c, i) ∈ index_map.*1) →
  ∃ i, (c, i) ∈ index_map.*1 ∧ v (Chosen c i) = true.
Proof.
  intros Hc Hst [i0 Hi0]. apply Hsound in Hst.
  assert (holds v (SumEq1 (eligible index_map c)) = true) as Hh.
  { apply (satisfies_holds _ _ _ Hst), elem_of_build_model. left.
    apply elem_of_exactly_one. exists c. repeat split; [done|].
    intros Hnil.
    assert (Chosen c i0 ∈ eligible index_map c) as He
      by (apply elem_of_eligible; eauto).
    rewrite Hnil in He. by apply elem_of_nil in He. }
  simpl in Hh. apply Z.eqb_eq in Hh.
  destruct (sum_values_pos v (eligible index_map c)) as (x & Hx & Hv);
    [fold v in Hh; lia|].
  apply elem_of_eligible in Hx as (i & -> & Hi). eauto.
Qed.

Lemma picked_no_lecture_clash c i s lec :
  status (Solve (model b)) = OPTIMAL ∨ status (Solve (model b)) = FEASIBLE →
  v (Chosen c i) = true → s ∈ dict_get index_map (c, i) → lec ∈ lectures →
  clash s lec = false.
Proof.
  intros Hst Hv (ss & Hin & Hs)%elem_of_dict_get Hl. apply Hsound in Hst.
  apply not_true_is_false. intros Hcl.
  assert (holds v (EqZero (Chosen c i)) = true) as Hh.
  { apply (satisfies_holds _ _ _ Hst), elem_of_build_model_EqZero_Chosen.
    by exists ss, s, lec. }
  simpl in Hh. unfold value in Hh. by rewrite Hv in Hh.
Qed.

Lemma picked_no_index_clash c1 i1 s1 c2 i2 s2 :
  status (Solve (model b)) = OPTIMAL ∨ status (Solve (model b)) = FEASIBLE →
  v (Chosen c1 i1) = true → s1 ∈ dict_get index_map (c1, i1) →
  v (Chosen c2 i2) = true → s2 ∈ dict_get index_map (c2, i2) →
  c1 ≠ c2 → clash s1 s2 = false.
Proof.
  intros Hst Hv1 (ss1 & Hin1 & Hs1)%elem_of_dict_get
         Hv2 (ss2 & Hin2 & Hs2)%elem_of_dict_get Hc.
  apply Hsound in Hst. apply not_true_is_false. intros Hcl.
  destruct (proj2 (elem_of_build_model_SumLe1_Chosen lectures index_map
                     selected_courses c1 i1 c2 i2)) as [Hin | Hin].
  { split; [done|]. by exists ss1, ss2, s1, s2. }
  all: apply (satisfies_holds v (model b) _ Hst) in Hin;
    cbn [holds] in Hin; unfold value in Hin; by rewrite Hv1, Hv2 in Hin.
Qed.
End BestOnly.

(** C1 (as amended). When [solve] returns a success, every selected course
    that has at least one option is mapped to exactly one of them, the
    timetable holds the sessions of that option for the course, and no
    session of a chosen option clashes (combined check) with a lecture or
    with a session of a chosen option of another course.  A selected
    course without options is left out of the assignment, and two lectures
    are never compared with each other. *)
Theorem solve_success_resolved_schedule (Solve : CpModel → Response)
    (lectures : list Session) (index_map : IndexMap)
    (selected_courses : list string) (indexes : gmap string string)
    (timetable : list Session) (campus_days : Z) :
  sound_response (model (build_model lectures index_map selected_courses))
    (Solve (model (build_model lectures index_map selected_courses))) →
  solve Solve lectures index_map selected_courses
    = Success indexes timetable campus_days →
  resolved_schedule lectures index_map selected_courses indexes timetable.
Proof.
  intros Hsound (Hst & -> & -> & _)%solve_Success_inv.
  eexists. split; [reflexivity|]. split; [|split].
  - intros c Hc Hopt.
    destruct (picked_exists Solve lectures index_map selected_courses
                Hsound c Hc Hst Hopt) as (i0 & Hi0 & Hv0).
    destruct (picked_indexes_is_Some Solve lectures index_map selected_courses
                c i0 Hi0 Hv0) as [i Hi].
    exists i. split; [done|].
    destruct (picked_indexes_Some _ _ _ _ _ _ Hi) as [Hk Hv].
    split; [done|]. intros row. rewrite elem_of_picked_rows. split.
    + intros [(c' & i' & s & Hk' & Hv' & Hs & ->) Hrow]. simpl in Hrow. subst c'.
      assert (i' = i) as ->
        by exact (picked_unique Solve lectures index_map selected_courses
                    Hsound c i' i Hc Hst Hk' Hv' Hk Hv).
      eauto.
    + intros (s & Hs & ->). split; [|done]. by exists c, i, s.
  - intros p l (c & i & s & Hk & Hv & Hs & ->)%elem_of_picked_rows
           (lec & -> & Hl)%list_elem_of_fmap.
    rewrite clash_timetable_entry.
    exact (picked_no_lecture_clash Solve lectures index_map selected_courses
             Hsound c i s lec Hst Hv Hs Hl).
  - intros p q (c1 & i1 & s1 & Hk1 & Hv1 & Hs1 & ->)%elem_of_picked_rows
           (c2 & i2 & s2 & Hk2 & Hv2 & Hs2 & ->)%elem_of_picked_rows Hc.
    rewrite clash_timetable_entry. simpl in Hc.
    exact (picked_no_index_clash Solve lectures index_map selected_courses
             Hsound c1 i1 s1 c2 i2 s2 Hst Hv1 Hs1 Hv2 Hs2 Hc).
Qed.

Lemma solve_success_resolved_schedule_witness :
  ∃ indexes timetable campus_days,
    solve exhaustive_search [lec_mon] two_options two_courses
      = Success indexes timetable campus_days
    ∧ resolved_schedule [lec_mon] two_options two_courses indexes timetable.
Proof.
  eexists _, _, _. split; [vm_compute; reflexivity|].
  eapply (solve_success_resolved_schedule exhaustive_search [lec_mon]
            two_options two_courses).
  - intros _. vm_compute. reflexivity.
  - vm_compute. reflexivity.
Defined.

(** C1, as stated, fails: with two selected courses whose lectures sit at
    the same time and only one of which has an option, [solve] succeeds,
    yet the second course has no index and the two lectures clash. *)
Lemma solve_success_unassigned_course_and_clashing_lectures :
  ∃ indexes timetable campus_days,
    sound_response (model (build_model two_lectures one_option two_courses))
      (exhaustive_search (model (build_model two_lectures one_option two_courses)))
    ∧ solve exhaustive_search two_lectures one_option two_courses
      = Success indexes timetable campus_days
    ∧ ¬ every_course_assigned two_courses one_option indexes
    ∧ ¬ clash_free timetable.
Proof.
  eexists _, _, _. split; [intros _; vm_compute; reflexivity|].
  split; [vm_compute; reflexivity|]. split.
  - intros H. destruct (H "SC2104") as (i & Hi & _).
    + unfold two_courses. rewrite !elem_of_cons. auto.
    + vm_compute in Hi. discriminate Hi.
  - intros H.
    specialize
      (H (timetable_entry "SC2079"
            (session "SC2079" None "LEC" 0 540 600 all_weeks))
         (timetable_entry "SC2104"
            (session "SC2104" None "LEC" 0 540 600 all_weeks))).
    assert (true = false) as Habs; [|discriminate Habs].
    apply H.
    + rewrite !elem_of_cons. right. left. reflexivity.
    + rewrite !elem_of_cons. right. right. left. reflexivity.
    + simpl. discriminate.
Qed.

(** ** Courses without options *)

Lemma constraint_vars_keys lectures index_map selected_courses x c i :
  x ∈ constraints (model (build_model lectures index_map selected_courses)) →
  Chosen c i ∈ constraint_vars x → (c, i) ∈ index_map.*1.
Proof.
  assert (∀ c i s, (c, i, s) ∈ all_index_sessions index_map →
                   (c, i) ∈ index_map.*1) as Hkey.
  { intros c' i' s (ss & Hin & _)%elem_of_all_index_sessions.
    apply list_elem_of_fmap. by exists ((c', i'), ss). }
  intros [H | [H | [H | H]]]%elem_of_build_model Hv.
  - apply elem_of_exactly_one in H as (c' & _ & _ & ->). simpl in Hv.
    apply elem_of_eligible in Hv as (i' & [= -> ->] & Hk). done.
  - apply elem_of_flat_map in H as ([[c' i'] s] & He & Hx).
    apply elem_of_lecture_step in Hx as (-> & _). simpl in Hv.
    apply list_elem_of_singleton in Hv as [= -> ->]. eauto.
  - apply elem_of_index_pairs_sessions in H
      as (n1 & n2 & c1 & i1 & s1 & c2 & i2 & s2 & _ & H1 & H2 & -> & _).
    simpl in Hv. apply list_elem_of_lookup_2 in H1, H2.
    rewrite !elem_of_cons, elem_of_nil in Hv.
    destruct Hv as [[= -> ->] | [[= -> ->] | []]]; eauto.
  - apply elem_of_campus_steps in H as (d & _ & ->). unfold campus_step in Hv.
    destruct (day_sessions index_map d) as [|y ys] eqn:E; simpl in Hv.
    + by apply list_elem_of_singleton in Hv.
    + apply elem_of_cons in Hv as [[=] | Hv]. rewrite <- E in Hv.
      apply elem_of_day_sessions in Hv as (c' & i' & ss & s & [= -> ->] & Hin & _).
      apply list_elem_of_fmap. by exists ((c', i'), ss).
Qed.

(** C5 (as amended). For a selected course with no entry in the index map,
    model building does not fail: it prints a warning naming the course,
    puts no constraint on any variable of that course, and the model goes
    to the solver; whenever the solver reports a solution, [solve] returns
    a success whose assignment has no entry for that course. *)
Theorem course_without_options_is_skipped (Solve : CpModel → Response)
    (lectures : list Session) (index_map : IndexMap)
    (selected_courses : list string) (c : string) :
  c ∈ selected_courses → (∀ i, (c, i) ∉ index_map.*1) →
  let b := build_model lectures index_map selected_courses in
  ("Warning: No indexes found for course " +:+ c) ∈ printed b
  ∧ (∀ x i, x ∈ constraints (model b) → Chosen c i ∉ constraint_vars x)
  ∧ (status (Solve (model b)) = OPTIMAL ∨ status (Solve (model b)) = FEASIBLE →
     ∃ indexes timetable campus_days,
       solve Solve lectures index_map selected_courses
         = Success indexes timetable campus_days
       ∧ indexes !! c = None).
Proof.
  intros Hc Hnone b. split; [|split].
  - apply elem_of_printed. exists c. repeat split; [done|].
    destruct (eligible index_map c) as [|x xs] eqn:E; [done|].
    assert (x ∈ eligible index_map c) as Hx by (rewrite E; left).
    apply elem_of_eligible in Hx as (i & _ & Hi). by apply Hnone in Hi.
  - intros x i Hx Hv. eapply Hnone, constraint_vars_keys; eauto.
  - intros Hst. eexists _, _, _. split.
    + by apply solve_Success_intro.
    + apply eq_None_not_Some. intros [i Hi].
      apply picked_indexes_Some in Hi as [Hk _]. by apply Hnone in Hk.
Qed.

Lemma course_without_options_is_skipped_witness :
  ("Warning: No indexes found for course SC2104")
    ∈ printed (build_model two_lectures one_option two_courses)
  ∧ ∃ indexes timetable campus_days,
      solve exhaustive_search two_lectures one_option two_courses
        = Success indexes timetable campus_days
      ∧ indexes !! "SC2104" = None.
Proof.
  destruct (course_without_options_is_skipped exhaustive_search two_lectures
              one_option two_courses "SC2104") as (Hp & _ & Hs).
  - unfold two_courses. rewrite !elem_of_cons. auto.
  - intros i Hi. vm_compute in Hi.
    apply list_elem_of_singleton in Hi. discriminate Hi.
  - split; [exact Hp|]. apply Hs. left. vm_compute. reflexivity.
Defined.

(** C5, as stated, fails: for a single selected course without any option,
    [build_model] returns a model (with only the five campus-day
    constraints) after printing a warning, and [solve], having called the
    solver, returns a success with an empty assignment. *)
Lemma build_model_accepts_course_without_options :
  printed (build_model [] [] ["SC1003"])
    = ["Warning: No indexes found for course SC1003"]
  ∧ constraints (model (build_model [] [] ["SC1003"]))
    = [EqZero (Campus 0); EqZero (Campus 1); EqZero (Campus 2);
       EqZero (Campus 3); EqZero (Campus 4)]
  ∧ solve exhaustive_search [] [] ["SC1003"] = Success ∅ [] 0
  ∧ solve (λ _, {| status := INFEASIBLE; Value := λ _, false |}) [] [] ["SC1003"]
    = Failure no_schedule_msg.
Proof. repeat split; vm_compute; reflexivity. Qed.

(** ** Infeasibility diagnosis *)

Lemma first_some_None {A B} (f : A → option B) (l : list A) :
  (∀ x, x ∈ l → f x = None) → first_some f l = None.
Proof.
  induction l as [|x l IH]; [done|]. intros Hl. simpl.
  rewrite (Hl x) by left. apply IH. intros y Hy. apply Hl. by right.
Qed.

(** With a single selected course there is no other course to scan and no
    pair of courses: the analyser falls through to its generic message. *)
Lemma analyze_infeasibility_single_course lectures index_map course :
  analyze_infeasibility lectures index_map [course] = no_schedule_msg.
Proof.
  unfold analyze_infeasibility. simpl.
  rewrite (filter_cons_False (λ c, c ≠ course)) by (intros H; by apply H).
  rewrite filter_nil. setoid_rewrite first_some_None; done.
Qed.

Lemma own_clash_infeasible course idx v :
  satisfies v (model (build_model [own_lecture course]
                                  (own_index_map course idx) [course])) = false.
Proof.
  apply not_true_is_false. intros Hsat.
  assert (holds v (EqZero (Chosen course idx)) = true) as H0.
  { apply (satisfies_holds _ _ _ Hsat), elem_of_build_model_EqZero_Chosen.
    exists [own_tutorial course idx], (own_tutorial course idx), (own_lecture course).
    split_and!; [left | left | left | reflexivity]. }
  assert (holds v (SumEq1 [Chosen course idx]) = true) as H1.
  { apply (satisfies_holds _ _ _ Hsat), elem_of_build_model. left.
    apply elem_of_exactly_one. exists course.
    assert (eligible (own_index_map course idx) course = [Chosen course idx])
      as ->; [|repeat split; [left | done]].
    unfold eligible, own_index_map. simpl. by rewrite filter_cons_True. }
  simpl in H0, H1. apply Z.eqb_eq in H0, H1. lia.
Qed.

(** C6 (as amended). For one selected course whose lecture (Mon
    09:00-10:00, all weeks) coincides with its only tutorial option,
    [solve] returns a failure, and the diagnostic is the analyser's
    generic message: the analyser compares a lecture only with the
    options of the other selected courses. *)
Theorem own_lecture_clash_fails_with_generic_message
    (Solve : CpModel → Response) (course idx : string) :
  sound_response
    (model (build_model [own_lecture course] (own_index_map course idx) [course]))
    (Solve (model (build_model [own_lecture course]
                               (own_index_map course idx) [course]))) →
  solve Solve [own_lecture course] (own_index_map course idx) [course]
    = Failure no_schedule_msg.
Proof.
  intros Hsound. rewrite solve_Failure_intro.
  - by rewrite analyze_infeasibility_single_course.
  - intros Hst. specialize (Hsound (or_introl Hst)).
    by rewrite own_clash_infeasible in Hsound.
  - intros Hst. specialize (Hsound (or_intror Hst)).
    by rewrite own_clash_infeasible in Hsound.
Qed.

Lemma own_lecture_clash_fails_with_generic_message_witness :
  solve exhaustive_search [own_lecture "SC2079"] (own_index_map "SC2079" "10201")
        ["SC2079"]
    = Failure no_schedule_msg.
Proof.
  apply (own_lecture_clash_fails_with_generic_message exhaustive_search
           "SC2079" "10201").
  intros [H | H]; vm_compute in H; discriminate H.
Defined.

(** C6, as stated, fails: on that input the diagnostic names neither the
    course nor its index, and mentions no lecture. *)
Lemma own_lecture_clash_is_not_named :
  ∃ msg,
    solve exhaustive_search [own_lecture "SC2079"]
          (own_index_map "SC2079" "10201") ["SC2079"] = Failure msg
    ∧ Py.contains "SC2079" msg = false
    ∧ Py.contains "10201" msg = false
    ∧ Py.contains "lecture" msg = false
    ∧ msg ≠ "Conflict: SC2079 lecture clashes with SC2079 TUT (Index 10201)".
Proof.
  eexists. split; [vm_compute; reflexivity|].
  repeat split; try (vm_compute; reflexivity). discriminate.
Qed.

(** ** Ranked enumeration *)

Lemma insert_by_perm {A} (key : A → Z) x l : Py.insert_by key x l ≡ₚ x :: l.
Proof.
  induction l as [|y l IH]; simpl; [done|].
  destruct (key x <=? key y); [done|]. by rewrite IH, Permutation_swap.
Qed.

Lemma sort_by_perm {A} (key : A → Z) l : Py.sort_by key l ≡ₚ l.
Proof.
  induction l as [|x l IH]; simpl; [done|].
  fold (Py.sort_by key l). by rewrite insert_by_perm, IH.
Qed.

Lemma insert_by_sorted {A} (key : A → Z) x l :
  StronglySorted (λ a b, key a ≤ key b) l →
  StronglySorted (λ a b, key a ≤ key b) (Py.insert_by key x l).
Proof.
  induction 1 as [|y l Hl IH Hy]; simpl.
  - repeat constructor.
  - destruct (key x <=? key y) eqn:E.
    + apply Z.leb_le in E. constructor; [by constructor|].
      constructor; [done|]. eapply Forall_impl; [exact Hy|]. simpl. lia.
    + apply Z.leb_gt in E. constructor; [done|].
      rewrite (insert_by_perm key x l). constructor; [lia | done].
Qed.

Lemma sort_by_sorted {A} (key : A → Z) l :
  StronglySorted (λ a b, key a ≤ key b) (Py.sort_by key l).
Proof.
  induction l as [|x l IH]; simpl; [constructor|].
  by apply insert_by_sorted.
Qed.

Lemma insert_by_stable {A} (key : A → Z) x l k :
  filter (λ a, key a = k) (Py.insert_by key x l) = filter (λ a, key a = k) (x :: l).
Proof.
  induction l as [|y l IH]; simpl; [done|].
  destruct (key x <=? key y) eqn:E; [done|]. apply Z.leb_gt in E.
  rewrite (filter_cons _ y), IH, !(filter_cons _ x), (filter_cons _ y).
  repeat case_decide; try done. lia.
Qed.

(** Stability: the solutions with a given campus-day count keep the order
    in which they were collected. *)
Lemma sort_by_stable {A} (key : A → Z) l k :
  filter (λ a, key a = k) (Py.sort_by key l) = filter (λ a, key a = k) l.
Proof.
  induction l as [|x l IH]; simpl; [done|]. fold (Py.sort_by key l).
  by rewrite insert_by_stable, !(filter_cons _ x), IH.
Qed.

Lemma slice_to_all {A} (n : Z) (l : list A) :
  (length l ≤ Z.to_nat n)%nat → l ≠ [] → Py.slice_to n l = l.
Proof.
  intros Hlen Hne. unfold Py.slice_to.
  destruct (0 <=? n) eqn:E; [by apply take_ge|].
  apply Z.leb_gt in E. destruct l; [done|]. simpl in Hlen. lia.
Qed.

Lemma run_search_solutions b n sols count found :
  Planner.solutions
    (Planner.run_search b
       {| Planner.solutions := sols; Planner.max_solutions := n;
          Planner.solution_count := count; Planner.stop_requested := false |}
       found)
  = sols ++ (Planner.solution_of b <$> take (Z.to_nat (n - count)) found).
Proof.
  revert sols count. induction found as [|v rest IH]; intros sols count; simpl.
  - by rewrite take_nil, app_nil_r.
  - unfold Planner.on_solution_callback. simpl.
    destruct (count >=? n) eqn:E; simpl.
    + apply Z.geb_le in E.
      replace (Z.to_nat (n - count)) with 0%nat by lia.
      by rewrite take_0, app_nil_r.
    + rewrite Z.geb_leb in E. apply Z.leb_gt in E. rewrite IH.
      replace (Z.to_nat (n - count)) with (S (Z.to_nat (n - (count + 1)))) by lia.
      simpl. by rewrite <- app_assoc.
Qed.

Lemma solution_of_fields lectures index_map selected_courses v :
  Planner.solution_of (build_model lectures index_map selected_courses) v
  = {| Planner.sol_chosen :=
         (λ k, (k, value v (Chosen k.1 k.2))) <$> index_map.*1;
       Planner.sol_campus_days := sum_values v (Campus <$> seqZ 0 5) |}.
Proof.
  unfold Planner.solution_of. simpl. f_equal.
  rewrite <- list_fmap_compose. by apply list_fmap_ext.
Qed.

Lemma planner_solve_unfold Enumerate lectures index_map selected_courses n :
  let b := build_model lectures index_map selected_courses in
  Planner.solve Enumerate lectures index_map selected_courses n
  = match Planner.solution_of b <$> take (Z.to_nat n) (Enumerate (model b)) with
    | [] => None
    | s :: ss => Some (Py.sort_by Planner.sol_campus_days (s :: ss))
    end.
Proof.
  intros b. unfold Planner.solve, Planner.new_collector. fold b.
  rewrite run_search_solutions, Z.sub_0_r. cbn [app].
  destruct (Planner.solution_of b <$> take (Z.to_nat n) (Enumerate (model b)))
    as [|s ss] eqn:E; [done|].
  f_equal. apply slice_to_all.
  - rewrite (Permutation_length (sort_by_perm _ _)), <- E.
    rewrite length_fmap, length_take. lia.
  - intros Hnil. pose proof (sort_by_perm Planner.sol_campus_days (s :: ss)) as Hp.
    rewrite Hnil in Hp. by apply Permutation_nil_l in Hp.
Qed.

(** The record stored for a solution depends on the valuation through the
    created variables only. *)
Lemma solution_of_agree lectures index_map selected_courses v w :
  agree_on (created_vars (build_model lectures index_map selected_courses)) v w →
  Planner.solution_of (build_model lectures index_map selected_courses) v
  = Planner.solution_of (build_model lectures index_map selected_courses) w.
Proof.
  intros Hag. rewrite !solution_of_fields. f_equal.
  - apply list_fmap_ext. intros _ k Hk%list_elem_of_lookup_2.
    unfold value. rewrite (Hag (Chosen k.1 k.2)); [done|].
    apply elem_of_app. left. simpl. rewrite <- list_fmap_compose.
    apply list_elem_of_fmap. by exists k.
  - apply sum_values_ext. intros x Hx. apply Hag, elem_of_app. by right.
Qed.

(** With a single feasible assignment, a sound stream without repetition
    reports at most one solution. *)
Lemma single_feasible_stream m xs found v0 :
  sound_stream m found → distinct_stream xs found →
  (∀ v, satisfies v m = true → agree_on xs v v0) →
  found = [] ∨ ∃ v, found = [v] ∧ agree_on xs v v0.
Proof.
  intros Hsound Hdist Huniq. destruct found as [|v [|w rest]]; [by left | |].
  - right. exists v. split; [done|]. apply Huniq, Hsound. left.
  - exfalso. apply (Hdist 0%nat 1%nat v w); [lia | done | done |].
    intros x Hx.
    rewrite (Huniq v (Hsound v ltac:(left)) x Hx).
    symmetry. apply (Huniq w); [|done]. apply Hsound. right. left.
Qed.

(** C9. Ranked enumeration collects, through the callback, the first [N]
    solutions the solver reports (all of them if it reports fewer; [N] is
    3 by default), storing for each the value of every option variable by
    key and the sum of the five campus-day indicators; it sorts them by
    ascending campus-day count, solutions of equal count staying in
    discovery order, and returns the whole sorted list, which has at most
    [N] elements.  The solver handing over only solutions of the model,
    every element returned is the record of a feasible assignment.  The
    solver moreover handing no assignment over twice, on a problem with
    only one feasible assignment the list returned has that assignment's
    record as its single element, for the default [N] as for any positive
    one. *)
Theorem ranked_enumeration (Enumerate : CpModel → list Valuation)
    (lectures : list Session) (index_map : IndexMap)
    (selected_courses : list string) (num_solutions : Z) :
  let b := build_model lectures index_map selected_courses in
  let found := Enumerate (model b) in
  let record := λ v : Valuation,
    {| Planner.sol_chosen :=
         (λ k, (k, value v (Chosen k.1 k.2))) <$> index_map.*1;
       Planner.sol_campus_days := sum_values v (Campus <$> seqZ 0 5) |} in
  let collected := record <$> take (Z.to_nat num_solutions) found in
  let ranked := Py.sort_by Planner.sol_campus_days collected in
  Planner.solve Enumerate lectures index_map selected_courses num_solutions
    = match collected with [] => None | _ :: _ => Some ranked end
  ∧ length ranked = (Z.to_nat num_solutions `min` length found)%nat
  ∧ ranked ≡ₚ collected
  ∧ StronglySorted
      (λ s1 s2, Planner.sol_campus_days s1 ≤ Planner.sol_campus_days s2) ranked
  ∧ (∀ k, filter (λ s, Planner.sol_campus_days s = k) ranked
          = filter (λ s, Planner.sol_campus_days s = k) collected)
  ∧ Planner.solve_default Enumerate lectures index_map selected_courses
    = Planner.solve Enumerate lectures index_map selected_courses 3
  ∧ (sound_stream (model b) found →
     ∀ sol, sol ∈ ranked →
       ∃ v, v ∈ found ∧ satisfies v (model b) = true ∧ sol = record v)
  ∧ (sound_stream (model b) found →
     distinct_stream (created_vars b) found →
     ∀ v0, (∀ v, satisfies v (model b) = true →
                 agree_on (created_vars b) v v0) →
       (0 < num_solutions →
        Planner.solve Enumerate lectures index_map selected_courses num_solutions
        = match found with [] => None | _ :: _ => Some [record v0] end)
       ∧ Planner.solve_default Enumerate lectures index_map selected_courses
         = match found with [] => None | _ :: _ => Some [record v0] end).
Proof.
  intros b found record collected ranked.
  assert (∀ v, Planner.solution_of b v = record v) as Hrec
    by (intros v; apply solution_of_fields).
  assert (∀ n, Planner.solution_of b <$> take (Z.to_nat n) found
               = record <$> take (Z.to_nat n) found) as Hmap
    by (intros n; apply list_fmap_ext; auto).
  assert (length collected = (Z.to_nat num_solutions `min` length found)%nat)
    as Hlen by (unfold collected; by rewrite length_fmap, length_take).
  assert (∀ n, Planner.solve Enumerate lectures index_map selected_courses n
    = match record <$> take (Z.to_nat n) found with
      | [] => None
      | s :: ss => Some (Py.sort_by Planner.sol_campus_days (s :: ss))
      end) as Hsolve.
  { intros n. rewrite planner_solve_unfold. fold b found. by rewrite Hmap. }
  assert (∀ n v0, 0 < n →
    (found = [] ∨ ∃ v, found = [v] ∧ agree_on (created_vars b) v v0) →
    Planner.solve Enumerate lectures index_map selected_courses n
    = match found with [] => None | _ :: _ => Some [record v0] end) as Hone.
  { intros n v0 Hn [Hf | (v & Hf & Hag)]; rewrite Hsolve, Hf.
    - by rewrite take_nil.
    - destruct (Z.to_nat n) as [|k] eqn:Ek; [lia|]. simpl. rewrite take_nil.
      simpl. do 2 f_equal. rewrite <- !Hrec. by apply solution_of_agree. }
  split_and!.
  - rewrite Hsolve. fold collected. by destruct collected.
  - unfold ranked. by rewrite (Permutation_length (sort_by_perm _ _)).
  - apply sort_by_perm.
  - apply sort_by_sorted.
  - intros k. apply sort_by_stable.
  - reflexivity.
  - intros Hsound sol Hsol. unfold ranked in Hsol. rewrite sort_by_perm in Hsol.
    apply list_elem_of_fmap in Hsol as (v & -> & Hv).
    assert (v ∈ found) as Hin.
    { apply elem_of_take in Hv as (j & Hj & _). by eapply list_elem_of_lookup_2. }
    exists v. split; [done|]. split; [by apply Hsound | done].
  - intros Hsound Hdist v0 Huniq.
    pose proof (single_feasible_stream _ _ _ _ Hsound Hdist Huniq) as Hcase.
    split.
    + intros Hn. by apply Hone.
    + unfold Planner.solve_default. by apply Hone.
Qed.

Lemma ranked_enumeration_witness :
  Planner.solve_default exhaustive_stream [] two_options two_courses
  = Some [{| Planner.sol_chosen :=
               [(("SC2079", "10101"), 1); (("SC2104", "10201"), 1)];
             Planner.sol_campus_days := 2 |}].
Proof.
  pose proof (proj2 (proj2 (proj2 (proj2 (proj2 (proj2 (proj2
    (ranked_enumeration exhaustive_stream [] two_options two_courses 3))))))))
    as H.
  cbv zeta in H.
  destruct (H (exhaustive_stream_feasible _))
    with (v0 := valuation_of [Chosen "SC2079" "10101"; Chosen "SC2104" "10201";
                              Campus 1; Campus 3]) as [_ Hdef].
  - intros i j v w Hij Hi Hj. exfalso.
    assert (length (exhaustive_stream
                      (model (build_model [] two_options two_courses))) = 1%nat)
      as Hlen by (vm_compute; reflexivity).
    apply lookup_lt_Some in Hj. lia.
  - intros v Hsat x Hx.
    pose proof (feasible_valuations_restriction _ _ Hsat) as Hin.
    assert (feasible_valuations (model (build_model [] two_options two_courses))
            = [[Chosen "SC2079" "10101"; Chosen "SC2104" "10201";
                Campus 1; Campus 3]]) as Hfv by (vm_compute; reflexivity).
    rewrite Hfv in Hin. apply list_elem_of_singleton in Hin.
    rewrite <- (valuation_of_restriction v
                  (model_vars (model (build_model [] two_options two_courses))) x).
    + by rewrite Hin.
    + assert (Forall
                (λ y, y ∈ model_vars (model (build_model [] two_options two_courses)))
                (created_vars (build_model [] two_options two_courses)))
        as Hall by compute_done.
      by apply (proj1 (Forall_forall _ _) Hall).
  - rewrite Hdef. vm_compute. reflexivity.
Defined.

Lemma elem_of_all_weeks w : w ∈ all_weeks ↔ 1 ≤ w ≤ 13.
Proof.
  unfold all_weeks. rewrite elem_of_list_to_set, elem_of_seqZ. lia.
Qed.

(** C10. [parse_weeks] returns the default set of the pattern (weeks 1-13,
    the even weeks or the odd weeks) when the remark is not a string, is
    blank, or does not parse.  When it parses to a set of integers, the
    result is that set intersected with the parity subset under "even" or
    "odd", which may be empty, and the set itself under any other pattern,
    whatever integers it holds.  So a loaded session may have an empty week
    set, or weeks outside 1-13. *)
Theorem parse_weeks_cases (remark : PyVal) (week_pattern : string) :
  ((∀ w, w ∈ default_weeks "all" ↔ 1 ≤ w ≤ 13)
   ∧ default_weeks "even" = {[2; 4; 6; 8; 10; 12]}
   ∧ default_weeks "odd" = {[1; 3; 5; 7; 9; 11; 13]})
  ∧ ((∀ s, remark ≠ PyStr s) →
     parse_weeks remark week_pattern = default_weeks week_pattern)
  ∧ (∀ s, remark = PyStr s → Py.strip s = "" ∨ parsed_weeks s = None →
     parse_weeks remark week_pattern = default_weeks week_pattern)
  ∧ (∀ s parsed, remark = PyStr s → Py.strip s ≠ "" →
     parsed_weeks s = Some parsed →
     parse_weeks remark week_pattern =
       if bool_decide (week_pattern = "even") then parsed ∩ even_weeks
       else if bool_decide (week_pattern = "odd") then parsed ∩ odd_weeks
       else parsed)
  ∧ parse_weeks (PyStr "1,3") "even" = ∅
  ∧ parse_weeks (PyStr "Teaching Wk14,20") "all" = {[14; 20]}
  ∧ load_indexes [row_odd_remark] ["SC2079"] "even"
    = [(("SC2079", "10101"),
        [session "SC2079" (Some "10101") "LAB" 0 570 690 ∅])]
  ∧ load_indexes [row_late_remark] ["SC2079"] "all"
    = [(("SC2079", "10102"),
        [session "SC2079" (Some "10102") "TUT" 1 840 900 {[14; 20]}])].
Proof.
  split; [|split; [|split; [|split]]].
  - split; [apply elem_of_all_weeks|]. split; vm_compute; reflexivity.
  - intros Hn. destruct remark as [s| | | |]; try reflexivity. by destruct (Hn s).
  - intros s -> [Hs | Hp]; simpl.
    + by rewrite (bool_decide_eq_true_2 _ Hs).
    + rewrite Hp. by case_bool_decide.
  - intros s parsed -> Hs Hp. simpl.
    by rewrite (bool_decide_eq_false_2 _ Hs), Hp.
  - repeat split; vm_compute; reflexivity.
Qed.

Lemma parse_weeks_cases_witness :
  parse_weeks (PyStr "Teaching Wk2,3,4") "even" = {[2; 4]}
  ∧ parse_weeks (PyStr "Teaching Wk") "odd" = odd_weeks
  ∧ parse_weeks PyNaN "all" = all_weeks.
Proof.
  split; [|split].
  - destruct (parse_weeks_cases (PyStr "Teaching Wk2,3,4") "even")
      as (_ & _ & _ & H & _).
    rewrite (H "Teaching Wk2,3,4" {[2; 3; 4]}).
    + vm_compute. reflexivity.
    + reflexivity.
    + vm_compute. discriminate.
    + vm_compute. reflexivity.
  - destruct (parse_weeks_cases (PyStr "Teaching Wk") "odd")
      as (_ & _ & H & _).
    rewrite (H "Teaching Wk"); [reflexivity | reflexivity |].
    right. vm_compute. reflexivity.
  - destruct (parse_weeks_cases PyNaN "all") as (_ & H & _).
    rewrite H; [reflexivity | discriminate].
Defined.


(** * Further properties of the code *)

(** ** Conflict evaluator *)

(** X1. The three overlap predicates and the combined check do not depend
    on the order of their arguments. *)
Theorem conflict_predicates_symmetric (a b : Session) :
  sessions_overlap a b = sessions_overlap b a
  ∧ labs_conflict a b = labs_conflict b a
  ∧ strict_conflict a b = strict_conflict b a
  ∧ clash a b = clash b a.
Proof.
  split; [apply sessions_overlap_sym|]. split; [|split].
  - unfold labs_conflict.
    by rewrite (sessions_overlap_sym b a), (comm_L (∩) (s_weeks b)).
  - apply strict_conflict_sym.
  - apply clash_sym.
Qed.

(** A session with no active week clashes with nothing. *)
Lemma clash_empty_weeks a b :
  s_weeks a = ∅ → clash a b = false ∧ clash b a = false.
Proof.
  intros Ha. unfold clash. rewrite Ha.
  rewrite intersection_empty_l_L, intersection_empty_r_L.
  rewrite (proj2 (set_truthy_false ∅)) by done.
  by rewrite !andb_false_r.
Qed.

(** ** Loading the index sheet *)

Lemma load_index_row_unfold selected_courses week_pattern index_map row :
  load_index_row selected_courses week_pattern index_map row =
  if bool_decide (row_course row ∉ selected_courses) then index_map
  else match index_row_session week_pattern row with
       | Some s => dict_append (dict_setdefault index_map (row_key row))
                               (row_key row) s
       | None => dict_setdefault index_map (row_key row)
       end.
Proof.
  unfold load_index_row, index_row_session, row_key.
  case_bool_decide; [done|].
  destruct (day_to_index (row_day row)); simpl; [|done].
  destruct (time_to_minutes (row_start row)); simpl; [|done].
  by destruct (time_to_minutes (row_end row)).
Qed.

Lemma dict_append_keys index_map k s : (dict_append index_map k s).*1 = index_map.*1.
Proof.
  induction index_map as [|[k' ss] im IH]; csimpl; [done|].
  case_bool_decide; csimpl; [done|]. by rewrite IH.
Qed.

Lemma dict_get_app_fresh index_map k k' :
  dict_get (index_map ++ [(k, [])]) k' = dict_get index_map k'.
Proof.
  induction index_map as [|[k0 ss] im IH]; simpl.
  - by case_bool_decide.
  - by case_bool_decide.
Qed.

Lemma dict_get_setdefault index_map k k' :
  dict_get (dict_setdefault index_map k) k' = dict_get index_map k'.
Proof.
  unfold dict_setdefault. case_bool_decide; [done|]. apply dict_get_app_fresh.
Qed.

Lemma dict_setdefault_keys index_map k k' :
  k' ∈ (dict_setdefault index_map k).*1 ↔ k' = k ∨ k' ∈ index_map.*1.
Proof.
  unfold dict_setdefault. case_bool_decide as Hk.
  - split; [auto|]. by intros [-> | ?].
  - rewrite fmap_app, elem_of_app. simpl. rewrite list_elem_of_singleton. tauto.
Qed.

Lemma dict_setdefault_NoDup index_map k :
  NoDup (index_map.*1) → NoDup ((dict_setdefault index_map k).*1).
Proof.
  intros Hnd. unfold dict_setdefault. case_bool_decide as Hk; [done|].
  rewrite fmap_app. apply NoDup_app. split; [done|]. split.
  - intros x Hx ->%list_elem_of_singleton. done.
  - apply NoDup_singleton.
Qed.

Lemma dict_get_append index_map k s k' :
  k ∈ index_map.*1 →
  dict_get (dict_append index_map k s) k'
  = if decide (k = k') then dict_get index_map k' ++ [s]
    else dict_get index_map k'.
Proof.
  induction index_map as [|[k0 ss] im IH]; simpl; [by intros ?%elem_of_nil|].
  intros Hk. destruct (decide (k0 = k)) as [-> | Hne].
  - rewrite (bool_decide_eq_true_2 (k = k)) by done. simpl.
    case_decide as Hk'.
    + subst k'. by rewrite (bool_decide_eq_true_2 (k = k)).
    + by rewrite !(bool_decide_eq_false_2 (k = k')).
  - rewrite (bool_decide_eq_false_2 (k0 = k)) by done. simpl.
    apply elem_of_cons in Hk as [-> | Hk]; [done|].
    case_bool_decide as Hk0; [|by apply IH].
    subst k'. by rewrite decide_False by congruence.
Qed.

Lemma dict_get_missing index_map k : k ∉ index_map.*1 → dict_get index_map k = [].
Proof.
  induction index_map as [|[k0 ss] im IH]; simpl; [done|].
  intros Hk. apply not_elem_of_cons in Hk as [Hne Hk].
  rewrite bool_decide_eq_false_2 by congruence. by apply IH.
Qed.

Lemma dict_get_entry index_map k ss :
  NoDup (index_map.*1) → (k, ss) ∈ index_map → dict_get index_map k = ss.
Proof.
  induction index_map as [|[k0 ss0] im IH]; simpl; [by intros _ ?%elem_of_nil|].
  intros [Hk0 Hnd]%NoDup_cons [[= -> ->] | Hin]%elem_of_cons.
  - by rewrite bool_decide_eq_true_2.
  - rewrite bool_decide_eq_false_2; [by apply IH|].
    intros ->. apply Hk0. apply list_elem_of_fmap. by exists (k, ss).
Qed.

Lemma load_indexes_dict rows selected_courses week_pattern :
  NoDup ((load_indexes rows selected_courses week_pattern).*1)
  ∧ (∀ k, k ∈ (load_indexes rows selected_courses week_pattern).*1 ↔
          k.1 ∈ selected_courses ∧ ∃ row, row ∈ rows ∧ row_key row = k)
  ∧ (∀ k, dict_get (load_indexes rows selected_courses week_pattern) k =
          if decide (k.1 ∈ selected_courses)
          then omap (index_row_session week_pattern)
                    (filter (λ row, row_key row = k) rows)
          else []).
Proof.
  induction rows as [|row rows IH] using rev_ind.
  { split; [constructor|]. split.
    - intros k. simpl. rewrite elem_of_nil. split; [done|].
      intros (_ & row & Hrow & _). by apply elem_of_nil in Hrow.
    - intros k. simpl. by case_decide. }
  destruct IH as (Hnd & Hkeys & Hget).
  unfold load_indexes in *. rewrite foldl_app. simpl.
  set (im := foldl (load_index_row selected_courses week_pattern) [] rows) in *.
  rewrite load_index_row_unfold. case_bool_decide as Hsel.
  { (* the row's course is not selected *)
    split; [done|]. split.
    - intros k. rewrite Hkeys. split.
      + intros (Hk & r & Hr & Hrk). split; [done|]. exists r.
        split; [|done]. apply elem_of_app. by left.
      + intros (Hk & r & [Hr | ->%list_elem_of_singleton]%elem_of_app & Hrk).
        * split; [done|]. by exists r.
        * subst k. done.
    - intros k. rewrite Hget, filter_app, omap_app.
      case_decide as Hk; [|done].
      rewrite (filter_cons_False _ row), filter_nil; [by rewrite app_nil_r|].
      intros <-. done. }
  assert (NoDup ((dict_setdefault im (row_key row)).*1)) as Hnd'
    by by apply dict_setdefault_NoDup.
  assert (∀ k, k ∈ (dict_setdefault im (row_key row)).*1 ↔
           k.1 ∈ selected_courses ∧ ∃ r, r ∈ rows ++ [row] ∧ row_key r = k)
    as Hkeys'.
  { intros k. rewrite dict_setdefault_keys, Hkeys. split.
    - intros [-> | (Hk & r & Hr & Hrk)].
      + split; [done|]. exists row. split; [|done].
        apply elem_of_app. right. by apply list_elem_of_singleton.
      + split; [done|]. exists r. split; [|done]. apply elem_of_app. by left.
    - intros (Hk & r & [Hr | ->%list_elem_of_singleton]%elem_of_app & Hrk).
      + right. split; [done|]. by exists r.
      + by left. }
  assert (row_key row ∈ (dict_setdefault im (row_key row)).*1) as Hin
    by (apply dict_setdefault_keys; by left).
  destruct (index_row_session week_pattern row) as [s|] eqn:Hs.
  - rewrite dict_append_keys. split; [done|]. split; [done|].
    intros k. rewrite dict_get_append by done.
    rewrite dict_get_setdefault, Hget, filter_app, omap_app.
    destruct (decide (row_key row = k)) as [<- | Hne].
    + rewrite (decide_True (P := (row_key row).1 ∈ selected_courses)) by done.
      rewrite (filter_cons_True _ row) by done. simpl. rewrite Hs.
      by rewrite decide_True.
    + case_decide; [|done].
      by rewrite (filter_cons_False _ row), filter_nil, app_nil_r.
  - split; [done|]. split; [done|].
    intros k. rewrite dict_get_setdefault, Hget, filter_app, omap_app.
    case_decide; [|done]. destruct (decide (row_key row = k)) as [<- | Hne].
    + rewrite (filter_cons_True _ row) by done. simpl.
      by rewrite Hs, app_nil_r.
    + by rewrite (filter_cons_False _ row), filter_nil, app_nil_r.
Qed.

(** X2. The dictionary [load_indexes] returns has one entry per (course,
    index) pair that occurs in a row of a selected course, whether or not
    the row could be read; looking a pair up gives the sessions of its
    readable rows, in row order. *)
Theorem load_indexes_lookup (rows : list IndexRow)
    (selected_courses : list string) (week_pattern : string) :
  let index_map := load_indexes rows selected_courses week_pattern in
  NoDup (index_map.*1)
  ∧ (∀ k, k ∈ index_map.*1 ↔
          k.1 ∈ selected_courses ∧ ∃ row, row ∈ rows ∧ row_key row = k)
  ∧ (∀ k, dict_get index_map k =
          if decide (k.1 ∈ selected_courses)
          then omap (index_row_session week_pattern)
                    (filter (λ row, row_key row = k) rows)
          else [])
  ∧ (∀ k sessions, (k, sessions) ∈ index_map → dict_get index_map k = sessions).
Proof.
  intros index_map.
  destruct (load_indexes_dict rows selected_courses week_pattern)
    as (Hnd & Hkeys & Hget).
  split; [done|]. split; [done|]. split; [done|].
  intros k ss. by apply dict_get_entry.
Qed.

Lemma elem_of_dict_setdefault index_map k0 k ss :
  (k, ss) ∈ dict_setdefault index_map k0 →
  (k, ss) ∈ index_map ∨ (k = k0 ∧ ss = []).
Proof.
  unfold dict_setdefault. case_bool_decide; [auto|].
  intros [? | [= -> ->]%list_elem_of_singleton]%elem_of_app; auto.
Qed.

Lemma elem_of_dict_append index_map k0 s0 k ss :
  (k, ss) ∈ dict_append index_map k0 s0 →
  (k, ss) ∈ index_map
  ∨ (k = k0 ∧ ∃ ss0, (k0, ss0) ∈ index_map ∧ ss = ss0 ++ [s0]).
Proof.
  induction index_map as [|[k' ss'] im IH]; simpl; [auto|].
  case_bool_decide as Hk.
  - subst k'. intros [[= -> ->] | Hin]%elem_of_cons.
    + right. split; [done|]. exists ss'. split; [left | done].
    + left. by right.
  - intros [[= -> ->] | Hin]%elem_of_cons; [left; left|].
    destruct (IH Hin) as [? | (-> & ss0 & ? & ->)].
    + left. by right.
    + right. split; [done|]. exists ss0. split; [by right | done].
Qed.

(** Every stored session comes from a readable row filed under its key. *)
Lemma load_indexes_session_row rows selected_courses week_pattern k ss s :
  (k, ss) ∈ load_indexes rows selected_courses week_pattern → s ∈ ss →
  k.1 ∈ selected_courses
  ∧ ∃ row, row ∈ rows ∧ row_key row = k
           ∧ index_row_session week_pattern row = Some s.
Proof.
  revert k ss s. induction rows as [|row rows IH] using rev_ind;
    intros k ss s; [by intros ?%elem_of_nil|].
  unfold load_indexes in *. rewrite foldl_app. simpl.
  set (im := foldl (load_index_row selected_courses week_pattern) [] rows) in *.
  assert (∀ k ss s, (k, ss) ∈ im → s ∈ ss →
            k.1 ∈ selected_courses
            ∧ ∃ r, r ∈ rows ++ [row] ∧ row_key r = k
                   ∧ index_row_session week_pattern r = Some s) as IH'.
  { intros k' ss' s' Hin Hs. destruct (IH k' ss' s' Hin Hs) as (? & r & ? & ?).
    split; [done|]. exists r. split; [|done]. apply elem_of_app. by left. }
  rewrite load_index_row_unfold. case_bool_decide as Hsel; [by apply IH'|].
  assert (∀ k ss s, (k, ss) ∈ dict_setdefault im (row_key row) → s ∈ ss →
            k.1 ∈ selected_courses
            ∧ ∃ r, r ∈ rows ++ [row] ∧ row_key r = k
                   ∧ index_row_session week_pattern r = Some s) as Hdef.
  { intros k' ss' s' [Hin | [-> ->]]%elem_of_dict_setdefault Hs;
      [by eapply IH' | by apply elem_of_nil in Hs]. }
  destruct (index_row_session week_pattern row) as [s0|] eqn:E;
    [|by apply Hdef].
  intros [Hin | (-> & ss0 & Hin & ->)]%elem_of_dict_append Hs;
    [by eapply Hdef|].
  apply elem_of_app in Hs as [Hs | ->%list_elem_of_singleton];
    [by eapply Hdef|].
  split; [done|]. exists row. split; [|done].
  apply elem_of_app. right. by apply list_elem_of_singleton.
Qed.

Lemma day_to_index_range day n : day_to_index day = Some n → 0 ≤ n ≤ 4.
Proof.
  destruct day as [s| | | |]; try discriminate. simpl.
  repeat (destruct (_ || _); [intros [= <-]; lia|]). discriminate.
Qed.

Lemma index_row_session_Some week_pattern row s :
  index_row_session week_pattern row = Some s →
  s_course s = row_course row ∧ s_index s = Some (row_index row)
  ∧ s_type s = row_type row
  ∧ day_to_index (row_day row) = Some (s_day s)
  ∧ time_to_minutes (row_start row) = Some (s_start s)
  ∧ time_to_minutes (row_end row) = Some (s_end s)
  ∧ s_weeks s = parse_weeks (row_remark row) week_pattern.
Proof.
  unfold index_row_session.
  destruct (day_to_index (row_day row)) as [d|]; simpl; [|discriminate].
  destruct (time_to_minutes (row_start row)) as [a|]; simpl; [|discriminate].
  destruct (time_to_minutes (row_end row)) as [b|]; simpl; [|discriminate].
  by intros [= <-].
Qed.

(** X3. Every session [load_indexes] stores under a (course, index) pair
    belongs to a selected course, carries that course and that index, has
    the type of the row it was read from, a weekday between 0 and 4, and
    the start and end [time_to_minutes] gives for the row. *)
Theorem load_indexes_sessions (rows : list IndexRow)
    (selected_courses : list string) (week_pattern : string)
    (c i : string) (sessions : list Session) (s : Session) :
  ((c, i), sessions) ∈ load_indexes rows selected_courses week_pattern →
  s ∈ sessions →
  c ∈ selected_courses ∧ s_course s = c ∧ s_index s = Some i
  ∧ 0 ≤ s_day s ≤ 4
  ∧ ∃ row, row ∈ rows ∧ row_course row = c ∧ row_index row = i
           ∧ s_type s = row_type row
           ∧ day_to_index (row_day row) = Some (s_day s)
           ∧ time_to_minutes (row_start row) = Some (s_start s)
           ∧ time_to_minutes (row_end row) = Some (s_end s).
Proof.
  intros Hin Hs.
  destruct (load_indexes_session_row _ _ _ _ _ _ Hin Hs)
    as (Hsel & row & Hrow & [= Hc Hi] & Hsess).
  apply index_row_session_Some in Hsess
    as (Hcourse & Hindex & Htype & Hday & Hstart & Hend & _).
  split; [done|]. split; [congruence|]. split; [congruence|].
  split; [by eapply day_to_index_range|]. by exists row.
Qed.

Lemma load_indexes_sessions_witness :
  let s := session "SC2079" (Some "10102") "TUT" 1 840 900 {[14; 20]} in
  s_course s = "SC2079" ∧ s_index s = Some "10102" ∧ 0 ≤ s_day s ≤ 4.
Proof.
  intros s.
  destruct (load_indexes_sessions [row_late_remark] ["SC2079"] "all"
              "SC2079" "10102" [s] s) as (_ & Hc & Hi & Hd & _).
  - vm_compute. left.
  - left.
  - by repeat split.
Defined.

Lemma parse_weeks_parity remark :
  parse_weeks remark "even" ⊆ even_weeks ∧ parse_weeks remark "odd" ⊆ odd_weeks.
Proof.
  unfold parse_weeks. destruct remark as [r| | | |]; try done.
  case_bool_decide; [done|].
  destruct (parsed_weeks r); [|done]. simpl.
  split; apply intersection_subseteq_r.
Qed.

(** X4. Under the week pattern "even" every session [load_indexes] stores
    runs in even weeks only, and under "odd" in odd weeks only; in both
    cases its weeks lie between 1 and 13. *)
Theorem load_indexes_parity_weeks (rows : list IndexRow)
    (selected_courses : list string) (week_pattern : string)
    (k : string * string) (sessions : list Session) (s : Session) :
  (k, sessions) ∈ load_indexes rows selected_courses week_pattern →
  s ∈ sessions →
  (week_pattern = "even" → s_weeks s ⊆ even_weeks)
  ∧ (week_pattern = "odd" → s_weeks s ⊆ odd_weeks)
  ∧ (week_pattern = "even" ∨ week_pattern = "odd" →
     ∀ w, w ∈ s_weeks s → 1 ≤ w ≤ 13).
Proof.
  intros Hin Hs.
  destruct (load_indexes_session_row _ _ _ _ _ _ Hin Hs)
    as (_ & row & _ & _ & Hsess).
  apply index_row_session_Some in Hsess as (_ & _ & _ & _ & _ & _ & Hw).
  destruct (parse_weeks_parity (row_remark row)) as [He Ho].
  assert (∀ w, w ∈ even_weeks ∨ w ∈ odd_weeks → 1 ≤ w ≤ 13) as Hrange.
  { intros w. unfold even_weeks, odd_weeks.
    rewrite !elem_of_list_to_set, !elem_of_cons, !elem_of_nil. lia. }
  rewrite Hw. split; [by intros ->|]. split; [by intros ->|].
  intros [-> | ->] w Hwin; apply Hrange; [left; by apply He | right; by apply Ho].
Qed.

Lemma load_indexes_parity_weeks_witness :
  s_weeks (session "SC2079" (Some "10103") "LAB" 2 940 690 {[2]}) ⊆ even_weeks.
Proof.
  apply (load_indexes_parity_weeks [row_odd_remark; row_mixed_remark]
           ["SC2079"] "even" ("SC2079", "10103")
           [session "SC2079" (Some "10103") "LAB" 2 940 690 {[2]}]).
  - vm_compute. right. left.
  - left.
  - reflexivity.
Defined.

(** ** Loading the lecture sheet *)

Lemma load_lectures_elem (rows : list LectureRow)
    (selected_courses : list string) :
  (length (load_lectures rows selected_courses) ≤ length rows)%nat
  ∧ ∀ lec, lec ∈ load_lectures rows selected_courses →
      s_course lec ∈ selected_courses ∧ s_index lec = None
      ∧ s_weeks lec = all_weeks ∧ 0 ≤ s_day lec ≤ 4
      ∧ ∃ row, row ∈ rows ∧ lrow_course row = s_course lec
               ∧ lrow_type row = s_type lec
               ∧ isna (lrow_start row) = false ∧ isna (lrow_end row) = false
               ∧ day_to_index (lrow_day row) = Some (s_day lec)
               ∧ time_to_minutes (lrow_start row) = Some (s_start lec)
               ∧ time_to_minutes (lrow_end row) = Some (s_end lec).
Proof.
  induction rows as [|row rows [IHlen IH]] using rev_ind.
  { split; [done|]. by intros lec ?%elem_of_nil. }
  unfold load_lectures in *. rewrite foldl_app, length_app. simpl.
  set (acc := foldl (load_lecture_row selected_courses) [] rows) in *.
  assert (∀ lec, lec ∈ acc →
    s_course lec ∈ selected_courses ∧ s_index lec = None
    ∧ s_weeks lec = all_weeks ∧ 0 ≤ s_day lec ≤ 4
    ∧ ∃ r, r ∈ rows ++ [row] ∧ lrow_course r = s_course lec
           ∧ lrow_type r = s_type lec
           ∧ isna (lrow_start r) = false ∧ isna (lrow_end r) = false
           ∧ day_to_index (lrow_day r) = Some (s_day lec)
           ∧ time_to_minutes (lrow_start r) = Some (s_start lec)
           ∧ time_to_minutes (lrow_end r) = Some (s_end lec)) as IH'.
  { intros lec Hlec.
    destruct (IH lec Hlec) as (? & ? & ? & [? ?] & r & ? & ?).
    split_and!; try done. exists r. split; [|done]. apply elem_of_app. by left. }
  unfold load_lecture_row. case_bool_decide as Hsel; [split; [lia | done]|].
  destruct (isna (lrow_start row)) eqn:Hs; simpl; [split; [lia | done]|].
  destruct (isna (lrow_end row)) eqn:He; simpl; [split; [lia | done]|].
  destruct (day_to_index (lrow_day row)) as [d|] eqn:Hd; simpl;
    [|split; [lia | done]].
  destruct (time_to_minutes (lrow_start row)) as [a|] eqn:Ha; simpl;
    [|split; [lia | done]].
  destruct (time_to_minutes (lrow_end row)) as [b|] eqn:Hb; simpl;
    [|split; [lia | done]].
  split; [rewrite length_app; simpl; lia|].
  intros lec [Hlec | ->%list_elem_of_singleton]%elem_of_app; [by apply IH'|].
  simpl. split_and!; try done; [by eapply day_to_index_range..|].
  exists row. split_and!; try done.
  apply elem_of_app. right. by apply list_elem_of_singleton.
Qed.

(** ** Options the builder leaves unconstrained *)

(** X6. An option all of whose sessions have an empty week set (an option
    without sessions is one) is never forbidden and never excluded
    against another option, whatever its times; it still makes a weekday
    a campus day as soon as it has a TUT or LAB session on it. *)
Theorem weekless_option_unconstrained (lectures : list Session)
    (index_map : IndexMap) (selected_courses : list string) (c i : string) :
  (∀ sessions s, ((c, i), sessions) ∈ index_map → s ∈ sessions →
                 s_weeks s = ∅) →
  let cs := constraints (model (build_model lectures index_map selected_courses)) in
  (EqZero (Chosen c i) ∉ cs)
  ∧ (∀ x, (SumLe1 (Chosen c i) x ∉ cs) ∧ (SumLe1 x (Chosen c i) ∉ cs))
  ∧ (∀ d, Chosen c i ∈ day_sessions index_map d ↔
          ∃ sessions s, ((c, i), sessions) ∈ index_map ∧ s ∈ sessions
            ∧ s_day s = d ∧ (s_type s = "TUT" ∨ s_type s = "LAB")).
Proof.
  intros Hweeks cs. subst cs. split; [|split].
  - intros (ss & s & lec & Hin & Hs & _ & Hcl)%elem_of_build_model_EqZero_Chosen.
    destruct (clash_empty_weeks s lec (Hweeks ss s Hin Hs)). congruence.
  - intros x. rewrite !elem_of_build_model_SumLe1, !elem_of_index_pairs_sessions.
    split.
    + intros (n1 & n2 & c1 & i1 & s1 & c2 & i2 & s2 & _ & H1 & _
              & [= <- <- _] & _ & Hcl).
      apply list_elem_of_lookup_2, elem_of_all_index_sessions in H1
        as (ss & Hin & Hs).
      destruct (clash_empty_weeks s1 s2 (Hweeks ss s1 Hin Hs)). congruence.
    + intros (n1 & n2 & c1 & i1 & s1 & c2 & i2 & s2 & _ & _ & H2
              & [= _ <- <-] & _ & Hcl).
      apply list_elem_of_lookup_2, elem_of_all_index_sessions in H2
        as (ss & Hin & Hs).
      destruct (clash_empty_weeks s2 s1 (Hweeks ss s2 Hin Hs)). congruence.
  - intros d. rewrite elem_of_day_sessions. split.
    + intros (c' & i' & ss & s & [= <- <-] & ?). by exists ss, s.
    + intros (ss & s & ?). by exists c, i, ss, s.
Qed.

Lemma weekless_option_unconstrained_witness :
  let index_map := load_indexes [row_odd_remark] ["SC2079"] "even" in
  clash lec_mon (session "SC2079" (Some "10101") "LAB" 0 570 690 all_weeks) = true
  ∧ (EqZero (Chosen "SC2079" "10101")
       ∉ constraints (model (build_model [lec_mon] index_map ["SC2079"])))
  ∧ Chosen "SC2079" "10101" ∈ day_sessions index_map 0.
Proof.
  intros index_map. split; [reflexivity|].
  destruct (weekless_option_unconstrained [lec_mon] index_map ["SC2079"]
              "SC2079" "10101") as (H0 & _ & Hday).
  - intros ss s Hin Hs. vm_compute in Hin.
    apply list_elem_of_singleton in Hin. injection Hin as ->.
    apply list_elem_of_singleton in Hs. by subst s.
  - split; [exact H0|]. apply Hday.
    exists [session "SC2079" (Some "10101") "LAB" 0 570 690 ∅],
      (session "SC2079" (Some "10101") "LAB" 0 570 690 ∅).
    split_and!; [vm_compute; left | left | reflexivity | by right].
Defined.

(** X5. Every lecture [load_lectures] returns belongs to a selected
    course, has no index, runs in all thirteen weeks on a weekday between
    0 and 4, and was read from a row whose two time cells are filled; no
    row yields more than one lecture. *)
Theorem load_lectures_sessions (rows : list LectureRow)
    (selected_courses : list string) :
  (length (load_lectures rows selected_courses) ≤ length rows)%nat
  ∧ ∀ lec, lec ∈ load_lectures rows selected_courses →
      s_course lec ∈ selected_courses ∧ s_index lec = None
      ∧ s_weeks lec = all_weeks ∧ 0 ≤ s_day lec ≤ 4
      ∧ ∃ row, row ∈ rows ∧ lrow_course row = s_course lec
               ∧ lrow_type row = s_type lec
               ∧ isna (lrow_start row) = false ∧ isna (lrow_end row) = false
               ∧ day_to_index (lrow_day row) = Some (s_day lec)
               ∧ time_to_minutes (lrow_start row) = Some (s_start lec)
               ∧ time_to_minutes (lrow_end row) = Some (s_end lec).
Proof.
  split.
  - induction rows as [|row rows IH] using rev_ind; [done|].
    unfold load_lectures in *. rewrite foldl_app, length_app. simpl.
    set (acc := foldl (load_lecture_row selected_courses) [] rows) in *.
    unfold load_lecture_row. case_bool_decide; [lia|].
    destruct (isna (lrow_start row) || isna (lrow_end row)); [lia|].
    destruct (day_to_index (lrow_day row)); simpl; [|lia].
    destruct (time_to_minutes (lrow_start row)); simpl; [|lia].
    destruct (time_to_minutes (lrow_end row)); simpl; [|lia].
    rewrite length_app. simpl. lia.
  - apply load_lectures_elem.
Qed.

Lemma load_lectures_sessions_witness :
  (length (load_lectures [lecture_row_mon; lecture_row_untimed] two_courses)
   ≤ 2)%nat
  ∧ s_weeks (session "SC2079" None "LEC" 0 570 630 all_weeks) = all_weeks.
Proof.
  destruct (load_lectures_sessions [lecture_row_mon; lecture_row_untimed]
              two_courses) as [Hlen Hall].
  split; [exact Hlen|].
  destruct (Hall (session "SC2079" None "LEC" 0 570 630 all_weeks))
    as (_ & _ & Hw & _); [vm_compute; left | exact Hw].
Defined.

(** ** The model admits every conflict-free choice *)

Lemma sum_values_exactly_one v xs x :
  NoDup xs → x ∈ xs → v x = true →
  (∀ y, y ∈ xs → v y = true → y = x) → sum_values v xs = 1.
Proof.
  induction xs as [|z xs IH]; [by intros _ ?%elem_of_nil|].
  intros [Hz Hnd]%NoDup_cons [-> | Hx]%elem_of_cons Hv Huniq; simpl.
  - unfold value. rewrite Hv.
    assert (sum_values v xs = 0) as ->; [|done].
    destruct (Z.eq_dec (sum_values v xs) 0) as [|Hne]; [done|].
    pose proof (sum_values_nonneg v xs).
    destruct (sum_values_pos v xs) as (y & Hy & Hvy); [lia|].
    assert (y = z) as -> by (apply Huniq; [by right | done]). done.
  - rewrite IH; [|done..|].
    + unfold value. destruct (v z) eqn:E; [|done].
      assert (z = x) as -> by (apply Huniq; [left | done]). done.
    + intros y Hy. apply Huniq. by right.
Qed.

Lemma eligible_NoDup index_map c :
  NoDup (index_map.*1) → NoDup (eligible index_map c).
Proof.
  intros Hnd. unfold eligible. apply NoDup_fmap_2.
  - intros [c1 i1] [c2 i2] [= -> ->]. done.
  - by apply NoDup_filter.
Qed.

Lemma valuation_of_choice_campus index_map pick d :
  value (valuation_of_choice index_map pick) (Campus d)
  = max_values (valuation_of_choice index_map pick) (day_sessions index_map d).
Proof.
  set (v := valuation_of_choice index_map pick).
  destruct (max_values_range v (day_sessions index_map d)) as [H0 | H1].
  - rewrite H0. unfold value.
    destruct (v (Campus d)) eqn:E; [|done]. exfalso.
    unfold v, valuation_of_choice in E. apply existsb_exists in E as (y & Hy & Hv).
    assert (max_values v (day_sessions index_map d) = 1); [|lia].
    apply max_values_one. exists y. split; [by apply list_elem_of_In|].
    by destruct y.
  - rewrite H1. apply max_values_one in H1 as (y & Hy & Hv).
    unfold value.
    assert (v (Campus d) = true) as ->; [|done].
    unfold v at 1, valuation_of_choice. apply existsb_exists.
    exists y. split; [by apply list_elem_of_In|].
    apply elem_of_day_sessions in Hy as (c & i & _ & _ & -> & _). exact Hv.
Qed.

(** X7. Let the index map be a dictionary and let a choice of options
    contain, for every selected course that has options, exactly one of
    them, with no chosen session clashing with a lecture and no two
    chosen sessions of different courses clashing.  Then the valuation of
    that choice satisfies the built model; so a backend that reports a
    solution whenever the model has one makes [solve] return a success. *)
Theorem conflict_free_choice_is_feasible (lectures : list Session)
    (index_map : IndexMap) (selected_courses : list string)
    (pick : list (string * string)) :
  NoDup (index_map.*1) →
  (∀ c, c ∈ selected_courses → (∃ i, (c, i) ∈ index_map.*1) →
     ∃ i, (c, i) ∈ index_map.*1 ∧ (c, i) ∈ pick
          ∧ ∀ i', (c, i') ∈ index_map.*1 → (c, i') ∈ pick → i' = i) →
  (∀ c i sessions s lec,
     (c, i) ∈ pick → ((c, i), sessions) ∈ index_map → s ∈ sessions →
     lec ∈ lectures → clash s lec = false) →
  (∀ c1 i1 c2 i2 ss1 ss2 s1 s2,
     (c1, i1) ∈ pick → (c2, i2) ∈ pick → c1 ≠ c2 →
     ((c1, i1), ss1) ∈ index_map → ((c2, i2), ss2) ∈ index_map →
     s1 ∈ ss1 → s2 ∈ ss2 → clash s1 s2 = false) →
  let m := model (build_model lectures index_map selected_courses) in
  satisfies (valuation_of_choice index_map pick) m = true
  ∧ ∀ Solve : CpModel → Response,
      ((∃ v, satisfies v m = true) →
       status (Solve m) = OPTIMAL ∨ status (Solve m) = FEASIBLE) →
      ∃ indexes timetable campus_days,
        solve Solve lectures index_map selected_courses
          = Success indexes timetable campus_days.
Proof.
  intros Hnd Hone Hlec Hpair m.
  set (v := valuation_of_choice index_map pick).
  assert (satisfies v m = true) as Hsat.
  { unfold satisfies. apply forallb_forall. intros x Hx%list_elem_of_In.
    apply elem_of_build_model in Hx as [Hx | [Hx | [Hx | Hx]]].
    - apply elem_of_exactly_one in Hx as (c & Hc & Hne & ->). simpl.
      apply Z.eqb_eq.
      destruct (Hone c Hc) as (i & Hk & Hp & Huniq).
      { destruct (eligible index_map c) as [|y ys] eqn:E; [done|].
        assert (y ∈ eligible index_map c) as Hy by (rewrite E; left).
        apply elem_of_eligible in Hy as (i & _ & Hi). eauto. }
      apply (sum_values_exactly_one v _ (Chosen c i)).
      + by apply eligible_NoDup.
      + apply elem_of_eligible. eauto.
      + simpl. by apply bool_decide_eq_true.
      + intros y (i' & -> & Hk')%elem_of_eligible Hv. simpl in Hv.
        apply bool_decide_eq_true in Hv. by rewrite (Huniq i' Hk' Hv).
    - apply elem_of_flat_map in Hx as ([[c i] s] & He & Hx).
      apply elem_of_lecture_step in Hx as (-> & lec & Hl & Hcl).
      apply elem_of_all_index_sessions in He as (ss & Hin & Hs).
      simpl. apply Z.eqb_eq. unfold value. simpl.
      case_bool_decide as Hp; [|done].
      rewrite (Hlec c i ss s lec Hp Hin Hs Hl) in Hcl. discriminate.
    - apply elem_of_index_pairs_sessions in Hx
        as (n1 & n2 & c1 & i1 & s1 & c2 & i2 & s2 & _ & H1 & H2 & -> & Hc & Hcl).
      apply list_elem_of_lookup_2, elem_of_all_index_sessions in H1
        as (ss1 & Hin1 & Hs1).
      apply list_elem_of_lookup_2, elem_of_all_index_sessions in H2
        as (ss2 & Hin2 & Hs2).
      simpl. apply Z.leb_le. unfold value. simpl.
      case_bool_decide as Hp1; case_bool_decide as Hp2; try lia.
      rewrite (Hpair c1 i1 c2 i2 ss1 ss2 s1 s2 Hp1 Hp2 Hc Hin1 Hin2 Hs1 Hs2)
        in Hcl. discriminate.
    - apply elem_of_campus_steps in Hx as (d & _ & ->).
      pose proof (valuation_of_choice_campus index_map pick d) as Hd.
      fold v in Hd. unfold campus_step.
      destruct (day_sessions index_map d) as [|y ys] eqn:E; simpl.
      + apply Z.eqb_eq. by rewrite Hd.
      + apply Z.eqb_eq. by rewrite Hd. }
  split; [exact Hsat|]. intros Solve Hcomplete.
  eexists _, _, _. apply solve_Success_intro. apply Hcomplete. by exists v.
Qed.

Lemma conflict_free_choice_is_feasible_witness :
  satisfies (valuation_of_choice one_option [("SC2079", "10101")])
            (model (build_model two_lectures one_option ["SC2079"])) = true.
Proof.
  apply (conflict_free_choice_is_feasible two_lectures one_option ["SC2079"]
           [("SC2079", "10101")]).
  - apply NoDup_singleton.
  - intros c ->%list_elem_of_singleton _. exists "10101".
    split; [left|]. split; [left|].
    intros i' Hi' _. apply list_elem_of_singleton in Hi'. by injection Hi'.
  - intros c i ss s lec ->%list_elem_of_singleton Hin Hs Hl.
    apply list_elem_of_singleton in Hin. injection Hin as ->.
    apply list_elem_of_singleton in Hs. subst s.
    apply elem_of_cons in Hl as [-> | ->%list_elem_of_singleton]; reflexivity.
  - intros c1 i1 c2 i2 ss1 ss2 s1 s2 H1%list_elem_of_singleton
           H2%list_elem_of_singleton Hne.
    congruence.
Defined.

(** ** The campus-day count *)

Lemma max_values_decide v xs :
  max_values v xs = if decide (Exists (λ x, v x = true) xs) then 1 else 0.
Proof.
  case_decide as H.
  - apply max_values_one. apply Exists_exists in H as (x & ? & ?). eauto.
  - destruct (max_values_range v xs) as [|H1]; [done|]. exfalso. apply H.
    apply max_values_one in H1 as (x & ? & ?). apply Exists_exists. eauto.
Qed.

Lemma campus_value lectures index_map selected_courses v d :
  satisfies v (model (build_model lectures index_map selected_courses)) = true →
  0 ≤ d < 5 →
  value v (Campus d) = max_values v (day_sessions index_map d).
Proof.
  intros Hsat Hd.
  assert (holds v (campus_step index_map d) = true) as Hh.
  { apply (satisfies_holds _ _ _ Hsat), elem_of_build_model.
    do 3 right. apply elem_of_campus_steps. eauto. }
  unfold campus_step in Hh. destruct (day_sessions index_map d) eqn:E.
  - simpl in Hh. apply Z.eqb_eq in Hh. by rewrite Hh.
  - simpl in Hh. by apply Z.eqb_eq in Hh.
Qed.

(** X8. The [campus_days] of a successful [solve] lies between 0 and 5 and
    is the number of weekdays from 0 to 4 on which some option the solver
    chose has a session of type TUT or LAB. *)
Theorem campus_days_counts_weekdays (Solve : CpModel → Response)
    (lectures : list Session) (index_map : IndexMap)
    (selected_courses : list string) (indexes : gmap string string)
    (timetable : list Session) (campus_days : Z) :
  sound_response (model (build_model lectures index_map selected_courses))
    (Solve (model (build_model lectures index_map selected_courses))) →
  solve Solve lectures index_map selected_courses
    = Success indexes timetable campus_days →
  let v := Value (Solve (model (build_model lectures index_map selected_courses))) in
  0 ≤ campus_days ≤ 5
  ∧ campus_days
    = Z.of_nat (length (filter
        (λ d, Exists (λ x, v x = true) (day_sessions index_map d))
        (seqZ 0 5)))
  ∧ ∀ d, Exists (λ x, v x = true) (day_sessions index_map d) ↔
         ∃ c i sessions s, ((c, i), sessions) ∈ index_map ∧ s ∈ sessions
           ∧ s_day s = d ∧ (s_type s = "TUT" ∨ s_type s = "LAB")
           ∧ v (Chosen c i) = true.
Proof.
  intros Hsound (Hst & _ & _ & ->)%solve_Success_inv v.
  specialize (Hsound Hst). fold v in Hsound.
  assert (∀ d, 0 ≤ d < 5 →
            value v (Campus d)
            = if decide (Exists (λ x, v x = true) (day_sessions index_map d))
              then 1 else 0) as Hval.
  { intros d Hd. rewrite <- max_values_decide. by eapply campus_value. }
  assert (sum_values v (campus_day (build_model lectures index_map selected_courses))
    = Z.of_nat (length (filter
        (λ d, Exists (λ x, v x = true) (day_sessions index_map d))
        (seqZ 0 5)))) as Hsum.
  { change (seqZ 0 5) with [0; 1; 2; 3; 4].
    change (campus_day (build_model lectures index_map selected_courses))
      with [Campus 0; Campus 1; Campus 2; Campus 3; Campus 4].
    unfold sum_values. cbn [foldr].
    rewrite !Hval by lia. rewrite !filter_cons, filter_nil.
    repeat case_decide; reflexivity. }
  fold v. rewrite Hsum. split; [|split; [done|]].
  - pose proof (length_filter
      (λ d, Exists (λ x, v x = true) (day_sessions index_map d)) (seqZ 0 5)) as Hl.
    change (length (seqZ 0 5)) with 5%nat in Hl. lia.
  - intros d. rewrite Exists_exists. split.
    + intros (x & (c & i & ss & s & -> & ?)%elem_of_day_sessions & Hx).
      exists c, i, ss, s. tauto.
    + intros (c & i & ss & s & Hin & Hs & Hd & Ht & Hv).
      exists (Chosen c i). split; [|done].
      apply elem_of_day_sessions. exists c, i, ss, s. tauto.
Qed.

Lemma campus_days_counts_weekdays_witness :
  ∃ indexes timetable campus_days,
    solve exhaustive_search [lec_mon] two_options two_courses
      = Success indexes timetable campus_days
    ∧ 0 ≤ campus_days ≤ 5.
Proof.
  eexists _, _, _. split; [vm_compute; reflexivity|].
  refine (proj1 (campus_days_counts_weekdays exhaustive_search [lec_mon]
                   two_options two_courses _ _ _ _ _)).
  - intros _. vm_compute. reflexivity.
  - vm_compute. reflexivity.
Defined.

(** ** Infeasibility diagnosis, in general *)

Lemma first_some_Some {A B} (f : A → option B) (l : list A) y :
  first_some f l = Some y → ∃ x, x ∈ l ∧ f x = Some y.
Proof.
  induction l as [|x l IH]; simpl; [discriminate|].
  destruct (f x) as [z|] eqn:E.
  - intros [= ->]. exists x. split; [left | done].
  - intros (x' & Hx' & Hf)%IH. exists x'. split; [by right | done].
Qed.

Lemma first_some_None_inv {A B} (f : A → option B) (l : list A) x :
  first_some f l = None → x ∈ l → f x = None.
Proof.
  induction l as [|a l IH]; simpl; [by intros _ ?%elem_of_nil|].
  destruct (f a) eqn:E; [discriminate|].
  intros Hn [-> | Hx]%elem_of_cons; [done | by apply IH].
Qed.

Lemma analyze_infeasibility_scans lectures index_map selected_courses :
  analyze_infeasibility lectures index_map selected_courses
  = match lecture_scan lectures index_map selected_courses with
    | Some msg => msg
    | None => match index_scan index_map selected_courses with
              | Some msg => msg
              | None => no_schedule_msg
              end
    end.
Proof. reflexivity. Qed.

Lemma elem_of_course_pairs l c1 c2 :
  (c1, c2) ∈ course_pairs l ↔
  ∃ n1 n2 : nat, (n1 < n2)%nat ∧ l !! n1 = Some c1 ∧ l !! n2 = Some c2.
Proof.
  induction l as [|c l IH]; simpl.
  - rewrite elem_of_nil. split; [done | intros (n1 & n2 & _ & H & _)].
    by rewrite lookup_nil in H.
  - rewrite elem_of_app, list_elem_of_fmap, IH. split.
    + intros [(c' & [= -> ->] & Hc') | (n1 & n2 & Hlt & H1 & H2)].
      * apply list_elem_of_lookup in Hc' as [n Hn].
        exists 0%nat, (S n). repeat split; [lia | done].
      * exists (S n1), (S n2). repeat split; [lia | done..].
    + intros (n1 & n2 & Hlt & H1 & H2).
      destruct n2 as [|n2]; [lia|]. destruct n1 as [|n1]; simpl in *.
      * injection H1 as ->. left. exists c2. split; [done|].
        apply list_elem_of_lookup. eauto.
      * right. exists n1, n2. repeat split; [lia | done..].
Qed.

Lemma lecture_scan_Some lectures index_map selected_courses msg :
  lecture_scan lectures index_map selected_courses = Some msg →
  ∃ c c' lec i s,
    c ∈ selected_courses ∧ c' ∈ selected_courses ∧ c' ≠ c
    ∧ lec ∈ lectures ∧ s_course lec = c ∧ (c', i) ∈ index_map.*1
    ∧ s ∈ dict_get index_map (c', i) ∧ clash lec s = true
    ∧ msg = lecture_conflict_msg c c' (s_type s) i.
Proof.
  unfold lecture_scan.
  intros (c & Hc & (lec & [Hlc Hlec]%list_elem_of_filter
            & (c' & [Hne Hc']%list_elem_of_filter
            & ([c0 i] & [Hk0 Hk]%list_elem_of_filter
            & (s & Hs & Hhit)%first_some_Some)%first_some_Some)
            %first_some_Some)%first_some_Some)%first_some_Some.
  simpl in Hk0. subst c0.
  exists c, c', lec, i, s. split_and!; try done.
  - unfold clash. destruct (strict_conflict lec s); [|done].
    by destruct (set_truthy _).
  - destruct (strict_conflict lec s); [|done].
    destruct (set_truthy _); [|done]. by injection Hhit as <-.
Qed.

Lemma lecture_scan_None lectures index_map selected_courses c c' lec i s :
  lecture_scan lectures index_map selected_courses = None →
  c ∈ selected_courses → c' ∈ selected_courses → c' ≠ c →
  lec ∈ lectures → s_course lec = c → (c', i) ∈ index_map.*1 →
  s ∈ dict_get index_map (c', i) → clash lec s = false.
Proof.
  unfold lecture_scan. intros Hscan Hc Hc' Hne Hlec Hlc Hk Hs.
  apply (first_some_None_inv _ _ c) in Hscan; [|done].
  apply (first_some_None_inv _ _ lec) in Hscan;
    [|by apply list_elem_of_filter].
  apply (first_some_None_inv _ _ c') in Hscan;
    [|by apply list_elem_of_filter].
  apply (first_some_None_inv _ _ (c', i)) in Hscan;
    [|by apply list_elem_of_filter].
  apply (first_some_None_inv _ _ s) in Hscan; [|done].
  cbv beta in Hscan. unfold clash. destruct (strict_conflict lec s); [|done].
  destruct (set_truthy _); [discriminate | done].
Qed.

Lemma index_scan_Some index_map selected_courses msg :
  index_scan index_map selected_courses = Some msg →
  ∃ (n1 n2 : nat) c1 c2 i1 i2 s1 s2,
    (n1 < n2)%nat ∧ selected_courses !! n1 = Some c1
    ∧ selected_courses !! n2 = Some c2
    ∧ (c1, i1) ∈ index_map.*1 ∧ (c2, i2) ∈ index_map.*1
    ∧ s1 ∈ dict_get index_map (c1, i1) ∧ s2 ∈ dict_get index_map (c2, i2)
    ∧ clash s1 s2 = true
    ∧ msg = index_conflict_msg c1 i1 c2 i2.
Proof.
  unfold index_scan.
  intros ([c1 c2] & (n1 & n2 & Hlt & H1 & H2)%elem_of_course_pairs
            & ([a1 i1] & [Ha1 Hk1]%list_elem_of_filter
            & ([a2 i2] & [Ha2 Hk2]%list_elem_of_filter
            & (s1 & Hs1 & (s2 & Hs2 & Hhit)%first_some_Some)%first_some_Some)
            %first_some_Some)%first_some_Some)%first_some_Some.
  simpl in Ha1, Ha2. subst a1 a2.
  exists n1, n2, c1, c2, i1, i2, s1, s2. split_and!; try done.
  - unfold clash. destruct (strict_conflict s1 s2); [|done].
    by destruct (set_truthy _).
  - destruct (strict_conflict s1 s2); [|done].
    destruct (set_truthy _); [|done]. by injection Hhit as <-.
Qed.

Lemma index_scan_None index_map selected_courses
    (n1 n2 : nat) c1 c2 i1 i2 s1 s2 :
  index_scan index_map selected_courses = None →
  (n1 < n2)%nat → selected_courses !! n1 = Some c1 →
  selected_courses !! n2 = Some c2 →
  (c1, i1) ∈ index_map.*1 → (c2, i2) ∈ index_map.*1 →
  s1 ∈ dict_get index_map (c1, i1) → s2 ∈ dict_get index_map (c2, i2) →
  clash s1 s2 = false.
Proof.
  unfold index_scan. intros Hscan Hlt H1 H2 Hk1 Hk2 Hs1 Hs2.
  apply (first_some_None_inv _ _ (c1, c2)) in Hscan;
    [|apply elem_of_course_pairs; eauto].
  apply (first_some_None_inv _ _ (c1, i1)) in Hscan;
    [|by apply list_elem_of_filter].
  apply (first_some_None_inv _ _ (c2, i2)) in Hscan;
    [|by apply list_elem_of_filter].
  apply (first_some_None_inv _ _ s1) in Hscan; [|done].
  apply (first_some_None_inv _ _ s2) in Hscan; [|done].
  cbv beta in Hscan. unfold clash. destruct (strict_conflict s1 s2); [|done].
  destruct (set_truthy _); [discriminate | done].
Qed.

Lemma conflict_msgs_not_generic :
  (∀ c c' t i, lecture_conflict_msg c c' t i ≠ no_schedule_msg)
  ∧ (∀ c1 i1 c2 i2, index_conflict_msg c1 i1 c2 i2 ≠ no_schedule_msg).
Proof. split; intros; discriminate. Qed.

(** X9. [analyze_infeasibility] returns its generic message exactly when
    neither scan finds a clash: no lecture of a selected course clashes
    with a session of an option of a different selected course, and no
    sessions of options of two courses selected at different positions
    clash. *)
Theorem analyze_infeasibility_generic_iff (lectures : list Session)
    (index_map : IndexMap) (selected_courses : list string) :
  analyze_infeasibility lectures index_map selected_courses = no_schedule_msg ↔
  (∀ c c' lec i s,
     c ∈ selected_courses → c' ∈ selected_courses → c' ≠ c →
     lec ∈ lectures → s_course lec = c → (c', i) ∈ index_map.*1 →
     s ∈ dict_get index_map (c', i) → clash lec s = false)
  ∧ (∀ (n1 n2 : nat) c1 c2 i1 i2 s1 s2,
       (n1 < n2)%nat → selected_courses !! n1 = Some c1 →
       selected_courses !! n2 = Some c2 →
       (c1, i1) ∈ index_map.*1 → (c2, i2) ∈ index_map.*1 →
       s1 ∈ dict_get index_map (c1, i1) → s2 ∈ dict_get index_map (c2, i2) →
       clash s1 s2 = false).
Proof.
  rewrite analyze_infeasibility_scans.
  destruct conflict_msgs_not_generic as [Hlm Him]. split.
  - destruct (lecture_scan lectures index_map selected_courses) as [msg|] eqn:El.
    { intros ->. apply lecture_scan_Some in El
        as (c & c' & lec & i & s & _ & _ & _ & _ & _ & _ & _ & _ & Hmsg).
      symmetry in Hmsg. by apply Hlm in Hmsg. }
    destruct (index_scan index_map selected_courses) as [msg|] eqn:Ei.
    { intros ->. apply index_scan_Some in Ei
        as (n1 & n2 & c1 & c2 & i1 & i2 & s1 & s2 & _ & _ & _ & _ & _ & _ & _
            & _ & Hmsg).
      symmetry in Hmsg. by apply Him in Hmsg. }
    intros _. split.
    + intros c c' lec i s. by apply lecture_scan_None.
    + intros n1 n2 c1 c2 i1 i2 s1 s2. by apply index_scan_None.
  - intros [Hlec Hidx].
    destruct (lecture_scan lectures index_map selected_courses) as [msg|] eqn:El.
    { apply lecture_scan_Some in El
        as (c & c' & lec & i & s & Hc & Hc' & Hne & Hl & Hlc & Hk & Hs & Hcl & _).
      rewrite (Hlec c c' lec i s) in Hcl by done. discriminate. }
    destruct (index_scan index_map selected_courses) as [msg|] eqn:Ei; [|done].
    apply index_scan_Some in Ei
      as (n1 & n2 & c1 & c2 & i1 & i2 & s1 & s2 & Hlt & H1 & H2 & Hk1 & Hk2
          & Hs1 & Hs2 & Hcl & _).
    rewrite (Hidx n1 n2 c1 c2 i1 i2 s1 s2) in Hcl by done. discriminate.
Qed.

(** X10. Whenever [analyze_infeasibility] names a conflict, the conflict
    is genuine and the model excludes it: either a lecture of a selected
    course clashes with a session of the named index of another selected
    course, and the model forbids that index; or sessions of the two named
    indexes clash, and the model holds their mutual exclusion when the two
    courses differ. *)
Theorem analyze_infeasibility_names_real_conflict (lectures : list Session)
    (index_map : IndexMap) (selected_courses : list string) :
  let msg := analyze_infeasibility lectures index_map selected_courses in
  let cs := constraints (model (build_model lectures index_map selected_courses)) in
  msg ≠ no_schedule_msg →
  (∃ c c' lec i s,
     c ∈ selected_courses ∧ c' ∈ selected_courses ∧ c' ≠ c
     ∧ lec ∈ lectures ∧ s_course lec = c ∧ (c', i) ∈ index_map.*1
     ∧ s ∈ dict_get index_map (c', i) ∧ clash lec s = true
     ∧ msg = lecture_conflict_msg c c' (s_type s) i
     ∧ EqZero (Chosen c' i) ∈ cs)
  ∨ (∃ (n1 n2 : nat) c1 c2 i1 i2 s1 s2,
       (n1 < n2)%nat ∧ selected_courses !! n1 = Some c1
       ∧ selected_courses !! n2 = Some c2
       ∧ (c1, i1) ∈ index_map.*1 ∧ (c2, i2) ∈ index_map.*1
       ∧ s1 ∈ dict_get index_map (c1, i1) ∧ s2 ∈ dict_get index_map (c2, i2)
       ∧ clash s1 s2 = true
       ∧ msg = index_conflict_msg c1 i1 c2 i2
       ∧ (c1 ≠ c2 → SumLe1 (Chosen c1 i1) (Chosen c2 i2) ∈ cs
                    ∨ SumLe1 (Chosen c2 i2) (Chosen c1 i1) ∈ cs)).
Proof.
  intros msg cs. subst msg cs. rewrite analyze_infeasibility_scans.
  destruct (lecture_scan lectures index_map selected_courses) as [msg|] eqn:El.
  - intros _. left. apply lecture_scan_Some in El
      as (c & c' & lec & i & s & Hc & Hc' & Hne & Hl & Hlc & Hk & Hs & Hcl & ->).
    exists c, c', lec, i, s. split_and!; try done.
    apply elem_of_build_model_EqZero_Chosen.
    apply elem_of_dict_get in Hs as (ss & Hin & Hs).
    exists ss, s, lec. split_and!; try done. by rewrite clash_sym.
  - destruct (index_scan index_map selected_courses) as [msg|] eqn:Ei; [|done].
    intros _. right. apply index_scan_Some in Ei
      as (n1 & n2 & c1 & c2 & i1 & i2 & s1 & s2 & Hlt & H1 & H2 & Hk1 & Hk2
          & Hs1 & Hs2 & Hcl & ->).
    exists n1, n2, c1, c2, i1, i2, s1, s2. split_and!; try done.
    intros Hne. apply elem_of_build_model_SumLe1_Chosen. split; [done|].
    apply elem_of_dict_get in Hs1 as (ss1 & Hin1 & Hs1).
    apply elem_of_dict_get in Hs2 as (ss2 & Hin2 & Hs2).
    by exists ss1, ss2, s1, s2.
Qed.

Lemma analyze_infeasibility_names_real_conflict_witness :
  analyze_infeasibility [lec_mon] clashing_tutorial lecture_and_tutorial_courses
    = lecture_conflict_msg "SC3103" "SC2079" "TUT" "10102"
  ∧ EqZero (Chosen "SC2079" "10102")
      ∈ constraints (model (build_model [lec_mon] clashing_tutorial
                                        lecture_and_tutorial_courses)).
Proof.
  split; [reflexivity|].
  destruct (analyze_infeasibility_names_real_conflict [lec_mon]
              clashing_tutorial lecture_and_tutorial_courses)
    as [(c & c' & lec & i & s & _ & _ & _ & _ & _ & Hk & _ & _ & _ & Hin)
       | (n1 & n2 & c1 & c2 & i1 & i2 & s1 & s2 & Hlt & H1 & H2 & Hk1 & Hk2
          & _)].
  - vm_compute. discriminate.
  - apply list_elem_of_singleton in Hk. injection Hk as -> ->. exact Hin.
  - exfalso. apply list_elem_of_singleton in Hk1, Hk2.
    injection Hk1 as -> _. injection Hk2 as -> _.
    destruct n1 as [|[|n1]]; try discriminate H1.
    destruct n2 as [|[|n2]]; try discriminate H2. lia.
Defined.

(** X11. Lecture clashes are reported first: as soon as a lecture of a
    selected course clashes with a session of an option of a different
    selected course, the message names a lecture clash, whatever index
    clashes there are. *)
Theorem analyze_infeasibility_lecture_first (lectures : list Session)
    (index_map : IndexMap) (selected_courses : list string)
    (c c' i : string) (lec s : Session) :
  c ∈ selected_courses → c' ∈ selected_courses → c' ≠ c →
  lec ∈ lectures → s_course lec = c → (c', i) ∈ index_map.*1 →
  s ∈ dict_get index_map (c', i) → clash lec s = true →
  ∃ c0 c1 lec0 i0 s0,
    analyze_infeasibility lectures index_map selected_courses
      = lecture_conflict_msg c0 c1 (s_type s0) i0
    ∧ lec0 ∈ lectures ∧ s_course lec0 = c0 ∧ c1 ≠ c0
    ∧ s0 ∈ dict_get index_map (c1, i0) ∧ clash lec0 s0 = true.
Proof.
  intros Hc Hc' Hne Hl Hlc Hk Hs Hcl. rewrite analyze_infeasibility_scans.
  destruct (lecture_scan lectures index_map selected_courses) as [msg|] eqn:El.
  - apply lecture_scan_Some in El
      as (c0 & c1 & lec0 & i0 & s0 & _ & _ & ? & ? & ? & _ & ? & ? & ->).
    by exists c0, c1, lec0, i0, s0.
  - rewrite (lecture_scan_None _ _ _ c c' lec i s El) in Hcl by done.
    discriminate.
Qed.

Lemma analyze_infeasibility_lecture_first_witness :
  ∃ c0 c1 lec0 i0 s0,
    analyze_infeasibility [lec_mon] clashing_tutorial lecture_and_tutorial_courses
      = lecture_conflict_msg c0 c1 (s_type s0) i0
    ∧ lec0 ∈ [lec_mon] ∧ s_course lec0 = c0 ∧ c1 ≠ c0
    ∧ s0 ∈ dict_get clashing_tutorial (c1, i0) ∧ clash lec0 s0 = true.
Proof.
  apply (analyze_infeasibility_lecture_first [lec_mon] clashing_tutorial
           lecture_and_tutorial_courses "SC3103" "SC2079" "10102"
           lec_mon tut_odd).
  - left.
  - right. left.
  - discriminate.
  - left.
  - reflexivity.
  - left.
  - vm_compute. left.
  - reflexivity.
Defined.

(** ** Ranked enumeration: what is returned *)

(** X12. The planner's [solve] returns [None] exactly when the solver
    reports no solution or the requested number is not positive; a list it
    returns is never empty, and each of its elements holds, for a valuation
    the solver reported, the value of the variable of every key of the
    index map, in the order of the keys, and the sum of the five
    campus-day indicators. *)
Theorem planner_solve_none_iff (Enumerate : CpModel → list Valuation)
    (lectures : list Session) (index_map : IndexMap)
    (selected_courses : list string) (num_solutions : Z) :
  let b := build_model lectures index_map selected_courses in
  (Planner.solve Enumerate lectures index_map selected_courses num_solutions
     = None ↔ num_solutions ≤ 0 ∨ Enumerate (model b) = [])
  ∧ ∀ sols,
      Planner.solve Enumerate lectures index_map selected_courses num_solutions
        = Some sols →
      sols ≠ []
      ∧ ∀ sol, sol ∈ sols →
          ∃ v, v ∈ Enumerate (model b)
               ∧ Planner.sol_chosen sol
                 = (λ k, (k, value v (Chosen k.1 k.2))) <$> index_map.*1
               ∧ Planner.sol_campus_days sol
                 = sum_values v (Campus <$> seqZ 0 5).
Proof.
  intros b. rewrite planner_solve_unfold. fold b.
  destruct (Enumerate (model b)) as [|v vs] eqn:Ef.
  { rewrite take_nil. simpl. split; [split; auto|]. discriminate. }
  destruct (Z.to_nat num_solutions) as [|k] eqn:Ek.
  { simpl. split; [split; [intros _; left; lia | done]|]. discriminate. }
  rewrite firstn_cons, fmap_cons.
  set (collected := Planner.solution_of b v
                    :: (Planner.solution_of b <$> take k vs)).
  split.
  - split; [discriminate|]. intros [Hn | ?]; [lia | discriminate].
  - intros sols Heq. injection Heq as <-.
    change (Py.insert_by Planner.sol_campus_days (Planner.solution_of b v)
              (Py.sort_by Planner.sol_campus_days
                 (Planner.solution_of b <$> take k vs)))
      with (Py.sort_by Planner.sol_campus_days collected).
    split.
    + intros Hnil. apply (f_equal length) in Hnil.
      rewrite (Permutation_length (sort_by_perm _ _)) in Hnil. discriminate.
    + intros sol Hsol. rewrite sort_by_perm in Hsol. subst collected.
      rewrite <- fmap_cons, <- firstn_cons in Hsol.
      apply list_elem_of_fmap in Hsol as (v' & -> & Hv').
      exists v'. split.
      { apply elem_of_take in Hv' as (j & Hj & _).
        by eapply list_elem_of_lookup_2. }
      unfold b. by rewrite solution_of_fields.
Qed.

(** ** Displayed times read back *)

Lemma chars_text l : Py.chars (Py.text l) = l.
Proof. apply Stdlib.Strings.String.list_ascii_of_string_of_list_ascii. Qed.

Lemma text_chars s : Py.text (Py.chars s) = s.
Proof. apply Stdlib.Strings.String.string_of_list_ascii_of_string. Qed.

Lemma digit_cases d :
  0 ≤ d ≤ 9 →
  d = 0 ∨ d = 1 ∨ d = 2 ∨ d = 3 ∨ d = 4 ∨ d = 5 ∨ d = 6 ∨ d = 7 ∨ d = 8 ∨ d = 9.
Proof. lia. Qed.

Lemma digit_digit_char d : 0 ≤ d ≤ 9 → Py.digit (Fmt.digit_char d) = Some d.
Proof.
  intros Hd. destruct (digit_cases d Hd) as
    [-> | [-> | [-> | [-> | [-> | [-> | [-> | [-> | [-> | ->]]]]]]]]];
    reflexivity.
Qed.

Lemma digit_char_plain d : 0 ≤ d ≤ 9 → plain_char (Fmt.digit_char d).
Proof.
  intros Hd. destruct (digit_cases d Hd) as
    [-> | [-> | [-> | [-> | [-> | [-> | [-> | [-> | [-> | ->]]]]]]]]];
    by split.
Qed.

Lemma decimal_go_S fuel n acc :
  Fmt.decimal_go (S fuel) n acc
  = if n <? 10 then Fmt.digit_char (n mod 10) :: acc
    else Fmt.decimal_go fuel (n / 10) (Fmt.digit_char (n mod 10) :: acc).
Proof. reflexivity. Qed.

Lemma decimal_go_spec fuel n rest :
  0 ≤ n < 2 ^ Z.of_nat (S fuel) →
  ∃ d ds,
    Fmt.decimal_go (S fuel) n rest = Fmt.digit_char d :: ds ++ rest
    ∧ 0 ≤ d ≤ 9 ∧ Forall plain_char ds
    ∧ ∀ a b tail,
        Py.digits_go a b (Fmt.digit_char d :: ds ++ tail)
        = Py.digits_go (a * 10 ^ Z.of_nat (S (length ds)) + n) true tail.
Proof.
  revert n rest. induction fuel as [|fuel IH]; intros n rest Hn.
  all: rewrite decimal_go_S; destruct (n <? 10) eqn:E.
  1, 3: apply Z.ltb_lt in E; exists n, []; rewrite Z.mod_small by lia;
    (split_and!; [done | lia | lia | constructor |]);
    intros a b tail; simpl; rewrite digit_digit_char by lia; f_equal; lia.
  { apply Z.ltb_ge in E. change (2 ^ Z.of_nat 1) with 2 in Hn. lia. }
  - apply Z.ltb_ge in E.
    assert (0 ≤ n mod 10 < 10) as Hm by (apply Z.mod_pos_bound; lia).
    destruct (IH (n / 10) (Fmt.digit_char (n mod 10) :: rest))
      as (d & ds & Heq & Hd & Hds & Hparse).
    { split; [apply Z.div_pos; lia|].
      apply Z.div_lt_upper_bound; [lia|].
      rewrite Nat2Z.inj_succ, Z.pow_succ_r in Hn by lia. lia. }
    exists d, (ds ++ [Fmt.digit_char (n mod 10)]).
    split_and!; [by rewrite Heq, <- app_assoc | lia | lia | |].
    + apply Forall_app. split; [done|]. constructor; [|constructor].
      apply digit_char_plain. lia.
    + intros a b tail. rewrite <- app_assoc. simpl app. rewrite Hparse.
      simpl Py.digits_go. rewrite digit_digit_char by lia.
      f_equal. rewrite length_app. simpl length.
      replace (Z.of_nat (S (length ds + 1)))
        with (Z.succ (Z.of_nat (S (length ds)))) by lia.
      rewrite Z.pow_succ_r by lia.
      pose proof (Z.div_mod n 10). lia.
Qed.

Lemma decimal_spec n :
  0 ≤ n →
  ∃ d ds,
    Fmt.decimal n = Fmt.digit_char d :: ds
    ∧ 0 ≤ d ≤ 9 ∧ Forall plain_char ds
    ∧ Py.digits_go 0 false (Fmt.decimal n) = Some n
    ∧ Py.digits_go 0 true (Fmt.decimal n) = Some n.
Proof.
  intros Hn. unfold Fmt.decimal.
  destruct (decimal_go_spec (Z.to_nat (Z.log2 n)) n [])
    as (d & ds & Heq & Hd & Hds & Hparse).
  { split; [done|]. rewrite Nat2Z.inj_succ, Z2Nat.id by apply Z.log2_nonneg.
    destruct (Z.eq_dec n 0) as [-> | Hne]; [done|].
    apply Z.log2_spec. lia. }
  rewrite app_nil_r in Heq. exists d, ds. rewrite Heq.
  split_and!; try done; try lia.
  - specialize (Hparse 0 false []). rewrite app_nil_r in Hparse.
    rewrite Hparse. simpl. f_equal; lia.
  - specialize (Hparse 0 true []). rewrite app_nil_r in Hparse.
    rewrite Hparse. simpl. f_equal; lia.
Qed.

Lemma lstrip_chars_plain c l :
  Py.isspace c = false → Py.lstrip_chars (c :: l) = c :: l.
Proof. intros H. simpl. by rewrite H. Qed.

Lemma strip_chars_no_space l :
  Forall (λ c, Py.isspace c = false) l → Py.strip_chars l = l.
Proof.
  intros Hl. unfold Py.strip_chars. destruct l as [|c l]; [done|].
  rewrite lstrip_chars_plain by (by apply Forall_cons_1 in Hl as [? _]).
  apply Forall_reverse in Hl.
  destruct (reverse (c :: l)) as [|c' l'] eqn:E.
  - apply (f_equal length) in E. rewrite length_reverse in E. discriminate.
  - rewrite lstrip_chars_plain by (by apply Forall_cons_1 in Hl as [? _]).
    by rewrite <- E, reverse_involutive.
Qed.

Lemma int_space_isspace c : Py.isspace c = false → Py.int_space c = false.
Proof.
  destruct c as [[] [] [] [] [] [] [] []]; vm_compute; congruence.
Qed.

Lemma int_strip_chars_no_space l :
  Forall (λ c, Py.isspace c = false) l → Py.int_strip_chars l = l.
Proof.
  intros Hl. unfold Py.int_strip_chars. destruct l as [|c l]; [done|].
  assert (∀ c l, Py.isspace c = false → Py.int_lstrip_chars (c :: l) = c :: l)
    as Hplain by (intros c' l' H; simpl; by rewrite (int_space_isspace _ H)).
  rewrite Hplain by (by apply Forall_cons_1 in Hl as [? _]).
  apply Forall_reverse in Hl.
  destruct (reverse (c :: l)) as [|c' l'] eqn:E.
  - apply (f_equal length) in E. rewrite length_reverse in E. discriminate.
  - rewrite Hplain by (by apply Forall_cons_1 in Hl as [? _]).
    by rewrite <- E, reverse_involutive.
Qed.

Lemma int_strip_chars_plain l :
  Forall plain_char l → Py.int_strip_chars l = l.
Proof.
  intros Hl. apply int_strip_chars_no_space.
  eapply Forall_impl; [exact Hl|]. by intros c [? _].
Qed.

Lemma d02_chars_spec n :
  (Forall plain_char (Fmt.d02_chars n) ∧ Fmt.d02_chars n ≠ [])
  ∧ Py.int (Py.text (Fmt.d02_chars n)) = Some n.
Proof.
  unfold Py.int. rewrite chars_text. unfold Fmt.d02_chars, Fmt.str_chars.
  destruct ((0 <=? n) && (n <? 10)) eqn:E1;
    [|destruct (n <? 0) eqn:E2].
  - apply andb_true_iff in E1 as [H0%Z.leb_le H1%Z.ltb_lt].
    destruct (decimal_spec n H0) as (d & ds & Heq & Hd & Hds & _ & Hp).
    assert (Forall plain_char ("0"%char :: Fmt.decimal n)) as Hall.
    { rewrite Heq. constructor; [done|].
      constructor; [by apply digit_char_plain | done]. }
    split; [split; [done | done]|].
    rewrite int_strip_chars_plain by done. simpl. exact Hp.
  - apply Z.ltb_lt in E2.
    destruct (decimal_spec (- n)) as (d & ds & Heq & Hd & Hds & Hp & _); [lia|].
    assert (Forall plain_char ("-"%char :: Fmt.decimal (- n))) as Hall.
    { rewrite Heq. constructor; [done|].
      constructor; [by apply digit_char_plain | done]. }
    split; [split; [done | done]|].
    rewrite int_strip_chars_plain by done. rewrite Hp. simpl. f_equal. lia.
  - apply Z.ltb_ge in E2.
    destruct (decimal_spec n E2) as (d & ds & Heq & Hd & Hds & Hp & _).
    assert (Forall plain_char (Fmt.decimal n)) as Hall.
    { rewrite Heq. constructor; [by apply digit_char_plain | done]. }
    split; [split; [done | by rewrite Heq]|].
    rewrite int_strip_chars_plain by done. rewrite <- Hp, Heq.
    destruct (digit_cases d Hd) as
      [-> | [-> | [-> | [-> | [-> | [-> | [-> | [-> | [-> | ->]]]]]]]]];
      reflexivity.
Qed.

Lemma split_go_no_sep sep cur l :
  sep ∉ l → Py.split_go sep cur l = [reverse cur ++ l].
Proof.
  revert cur. induction l as [|c l IH]; intros cur Hl; simpl.
  - by rewrite app_nil_r.
  - apply not_elem_of_cons in Hl as [Hc Hl].
    rewrite bool_decide_eq_false_2 by congruence.
    rewrite IH by done. by rewrite reverse_cons, <- app_assoc.
Qed.

Lemma split_go_sep sep cur l1 l2 :
  sep ∉ l1 →
  Py.split_go sep cur (l1 ++ sep :: l2)
  = (reverse cur ++ l1) :: Py.split_go sep [] l2.
Proof.
  revert cur. induction l1 as [|c l1 IH]; intros cur Hl; simpl.
  - rewrite bool_decide_eq_true_2 by done. by rewrite app_nil_r.
  - apply not_elem_of_cons in Hl as [Hc Hl].
    rewrite bool_decide_eq_false_2 by congruence.
    rewrite IH by done. by rewrite reverse_cons, <- app_assoc.
Qed.

(** X13. A time written as hours and minutes, each with [:02d], around a
    colon is read by [time_to_minutes] as hours times 60 plus minutes,
    for all integers, none being out of range for it; so the text a time
    is displayed as is read back as that time. *)
Theorem time_to_minutes_reads_display (h m t : Z) :
  time_to_minutes
    (PyStr (Py.text (Fmt.d02_chars h ++ ":"%char :: Fmt.d02_chars m)))
    = Some (h * 60 + m)
  ∧ time_to_minutes (PyStr (hhmm t)) = Some t.
Proof.
  assert (∀ h m,
    time_to_minutes
      (PyStr (Py.text (Fmt.d02_chars h ++ ":"%char :: Fmt.d02_chars m)))
    = Some (h * 60 + m)) as Hgen.
  { clear. intros h m.
    destruct (d02_chars_spec h) as [[Hh _] Hih].
    destruct (d02_chars_spec m) as [[Hm _] Him].
    assert (":"%char ∉ Fmt.d02_chars h) as Hnh.
    { intros Hin. rewrite Forall_forall in Hh. by destruct (Hh _ Hin). }
    assert (":"%char ∉ Fmt.d02_chars m) as Hnm.
    { intros Hin. rewrite Forall_forall in Hm. by destruct (Hm _ Hin). }
    unfold time_to_minutes.
    assert (Py.strip
              (Py.text (Fmt.d02_chars h ++ ":"%char :: Fmt.d02_chars m))
            = Py.text (Fmt.d02_chars h ++ ":"%char :: Fmt.d02_chars m)) as ->.
    { unfold Py.strip. rewrite chars_text. f_equal.
      apply strip_chars_no_space, Forall_app. split.
      - eapply Forall_impl; [exact Hh|]. by intros c [? _].
      - constructor; [done|].
        eapply Forall_impl; [exact Hm|]. by intros c [? _]. }
    rewrite chars_text.
    rewrite bool_decide_eq_true_2
      by (apply elem_of_app; right; left).
    unfold Py.split. rewrite chars_text, split_go_sep by done.
    rewrite split_go_no_sep by done. simpl.
    by rewrite Hih, Him. }
  split; [apply Hgen|]. unfold hhmm. rewrite Hgen. f_equal.
  pose proof (Z.div_mod t 60). lia.
Qed.

(** ** Checking a solution *)

Lemma conflict_scan_body s1 s2 :
  (if bool_decide (s_day s1 = s_day s2) && sessions_overlap s1 s2 then
     if strict_conflict s1 s2 then
       if set_truthy (s_weeks s1 ∩ s_weeks s2)
       then [conflict_message s1 s2] else []
     else []
   else [])
  = if clash s1 s2 then [conflict_message s1 s2] else [].
Proof.
  unfold clash, strict_conflict.
  destruct (sessions_overlap s1 s2) eqn:E; simpl.
  - apply sessions_overlap_true in E as (Hd & _).
    rewrite (bool_decide_eq_true_2 _ Hd). simpl.
    destruct (bool_decide _ && bool_decide _); simpl;
      [|by destruct (set_truthy _)].
    destruct (labs_conflict s1 s2); [|done]. by destruct (set_truthy _).
  - by rewrite andb_false_r.
Qed.

Lemma elem_of_conflict_scan l msg :
  msg ∈ conflict_scan l ↔
  ∃ (n1 n2 : nat) s1 s2,
    (n1 < n2)%nat ∧ l !! n1 = Some s1 ∧ l !! n2 = Some s2
    ∧ clash s1 s2 = true ∧ msg = conflict_message s1 s2.
Proof.
  induction l as [|s l IH]; simpl.
  - rewrite elem_of_nil. split; [done | intros (n1 & n2 & s1 & s2 & _ & H & _)].
    by rewrite lookup_nil in H.
  - rewrite elem_of_app, elem_of_flat_map, IH. split.
    + intros [(s2 & Hs2 & Hm) | (n1 & n2 & s1 & s2 & Hlt & H1 & H2 & Hcl & ->)].
      * rewrite conflict_scan_body in Hm.
        destruct (clash s s2) eqn:E; [|by apply elem_of_nil in Hm].
        apply list_elem_of_singleton in Hm as ->.
        apply list_elem_of_lookup in Hs2 as [n Hn].
        exists 0%nat, (S n), s, s2. split_and!; [lia | done..].
      * exists (S n1), (S n2), s1, s2. split_and!; [lia | done..].
    + intros (n1 & n2 & s1 & s2 & Hlt & H1 & H2 & Hcl & ->).
      destruct n2 as [|n2]; [lia|]. destruct n1 as [|n1]; simpl in *.
      * injection H1 as ->. left. exists s2.
        split; [apply list_elem_of_lookup; eauto|].
        rewrite conflict_scan_body, Hcl. left.
      * right. exists n1, n2, s1, s2. split_and!; [lia | done..].
Qed.

(** X14. On the variables of the built model, [check_solution_conflicts]
    returns no message exactly when no two of the checked sessions (the
    lectures followed by the sessions of the options whose variable is 1)
    clash under the combined check; pairs of the same course are checked
    like any other. *)
Theorem check_solution_conflicts_empty_iff (v : Valuation)
    (lectures : list Session) (index_map : IndexMap)
    (selected_courses : list string) :
  check_solution_conflicts v lectures index_map
    (chosen (build_model lectures index_map selected_courses)) = [] ↔
  ∀ (n1 n2 : nat) s1 s2,
    (n1 < n2)%nat →
    selected_sessions v lectures index_map
      (chosen (build_model lectures index_map selected_courses)) !! n1 = Some s1 →
    selected_sessions v lectures index_map
      (chosen (build_model lectures index_map selected_courses)) !! n2 = Some s2 →
    clash s1 s2 = false.
Proof.
  unfold check_solution_conflicts.
  set (l := selected_sessions v lectures index_map _). split.
  - intros Hnil n1 n2 s1 s2 Hlt H1 H2. apply not_true_is_false. intros Hcl.
    assert (conflict_message s1 s2 ∈ conflict_scan l)
      as Hin by (apply elem_of_conflict_scan; by exists n1, n2, s1, s2).
    rewrite Hnil in Hin. by apply elem_of_nil in Hin.
  - intros Hall. apply elem_of_nil_inv. intros msg
      (n1 & n2 & s1 & s2 & Hlt & H1 & H2 & Hcl & _)%elem_of_conflict_scan.
    rewrite (Hall n1 n2 s1 s2) in Hcl by done. discriminate.
Qed.

Lemma elem_of_selected_sessions v lectures index_map selected_courses s :
  s ∈ selected_sessions v lectures index_map
        (chosen (build_model lectures index_map selected_courses)) ↔
  (∃ lec, lec ∈ lectures ∧ s = session_copy lec)
  ∨ (∃ c i a, (c, i) ∈ index_map.*1 ∧ v (Chosen c i) = true
              ∧ a ∈ dict_get index_map (c, i) ∧ s = session_copy a).
Proof.
  unfold selected_sessions. rewrite elem_of_app, list_elem_of_fmap.
  rewrite elem_of_flat_map. simpl chosen. split.
  - intros [(lec & -> & Hl) | ([[c i] var] & Hin & Hs)]; [left; eauto|].
    apply list_elem_of_fmap in Hin as ([c' i'] & [= -> -> ->] & Hk).
    simpl in Hs. rewrite value_eqb_1 in Hs.
    destruct (v (Chosen c' i')) eqn:E; [|by apply elem_of_nil in Hs].
    apply list_elem_of_fmap in Hs as (a & -> & Ha). right. by exists c', i', a.
  - intros [(lec & Hl & ->) | (c & i & a & Hk & Hv & Ha & ->)]; [left; eauto|].
    right. exists ((c, i), Chosen c i).
    split; [apply list_elem_of_fmap; by exists (c, i)|].
    rewrite value_eqb_1, Hv. apply list_elem_of_fmap. eauto.
Qed.

(** X15. On a valuation that satisfies the built model, every message of
    [check_solution_conflicts] is about a genuine clash between two
    lectures or between two sessions of chosen options of one and the same
    course, which for a selected course is one and the same option: the
    model rules out every other clash. *)
Theorem check_solution_conflicts_on_solution (v : Valuation)
    (lectures : list Session) (index_map : IndexMap)
    (selected_courses : list string) (msg : string) :
  let b := build_model lectures index_map selected_courses in
  satisfies v (model b) = true →
  msg ∈ check_solution_conflicts v lectures index_map (chosen b) →
  ∃ s1 s2,
    msg = conflict_message s1 s2 ∧ clash s1 s2 = true
    ∧ ((∃ lec1 lec2, lec1 ∈ lectures ∧ lec2 ∈ lectures
                     ∧ s1 = session_copy lec1 ∧ s2 = session_copy lec2)
       ∨ (∃ c i1 i2 a1 a2,
            v (Chosen c i1) = true ∧ v (Chosen c i2) = true
            ∧ a1 ∈ dict_get index_map (c, i1) ∧ a2 ∈ dict_get index_map (c, i2)
            ∧ s1 = session_copy a1 ∧ s2 = session_copy a2
            ∧ (c ∈ selected_courses → i1 = i2))).
Proof.
  intros b Hsat (n1 & n2 & s1 & s2 & Hlt & H1 & H2 & Hcl & ->)%elem_of_conflict_scan.
  exists s1, s2. split; [done|]. split; [done|].
  set (Solve := λ _ : CpModel, {| status := OPTIMAL; Value := v |}).
  assert (sound_response (model b) (Solve (model b))) as Hsound
    by (intros _; exact Hsat).
  assert (status (Solve (model b)) = OPTIMAL ∨ status (Solve (model b)) = FEASIBLE)
    as Hst by (by left).
  apply list_elem_of_lookup_2, elem_of_selected_sessions in H1, H2.
  destruct H1 as [(lec1 & Hl1 & ->) | (c1 & i1 & a1 & Hk1 & Hv1 & Ha1 & ->)];
    destruct H2 as [(lec2 & Hl2 & ->) | (c2 & i2 & a2 & Hk2 & Hv2 & Ha2 & ->)].
  - left. by exists lec1, lec2.
  - exfalso. unfold session_copy in Hcl. rewrite clash_timetable_entry in Hcl.
    rewrite clash_sym in Hcl.
    rewrite (picked_no_lecture_clash Solve lectures index_map selected_courses
               Hsound c2 i2 a2 lec1 Hst Hv2 Ha2 Hl1) in Hcl. discriminate.
  - exfalso. unfold session_copy in Hcl. rewrite clash_timetable_entry in Hcl.
    rewrite (picked_no_lecture_clash Solve lectures index_map selected_courses
               Hsound c1 i1 a1 lec2 Hst Hv1 Ha1 Hl2) in Hcl. discriminate.
  - right. unfold session_copy in Hcl. rewrite clash_timetable_entry in Hcl.
    destruct (decide (c1 = c2)) as [-> | Hne].
    + exists c2, i1, i2, a1, a2. split_and!; try done. intros Hc.
      exact (picked_unique Solve lectures index_map selected_courses Hsound
               c2 i1 i2 Hc Hst Hk1 Hv1 Hk2 Hv2).
    + rewrite (picked_no_index_clash Solve lectures index_map selected_courses
                 Hsound c1 i1 a1 c2 i2 a2 Hst Hv1 Ha1 Hv2 Ha2 Hne) in Hcl.
      discriminate.
Qed.

Lemma check_solution_conflicts_on_solution_witness :
  ∃ s1 s2,
    conflict_message (session_copy (session "SC2079" None "LEC" 0 540 600 all_weeks))
                     (session_copy (session "SC2104" None "LEC" 0 540 600 all_weeks))
      = conflict_message s1 s2
    ∧ clash s1 s2 = true
    ∧ ((∃ lec1 lec2, lec1 ∈ two_lectures ∧ lec2 ∈ two_lectures
                     ∧ s1 = session_copy lec1 ∧ s2 = session_copy lec2)
       ∨ (∃ c i1 i2 a1 a2,
            valuation_of_choice one_option [("SC2079", "10101")] (Chosen c i1) = true
            ∧ valuation_of_choice one_option [("SC2079", "10101")] (Chosen c i2) = true
            ∧ a1 ∈ dict_get one_option (c, i1) ∧ a2 ∈ dict_get one_option (c, i2)
            ∧ s1 = session_copy a1 ∧ s2 = session_copy a2
            ∧ (c ∈ ["SC2079"] → i1 = i2))).
Proof.
  apply (check_solution_conflicts_on_solution
           (valuation_of_choice one_option [("SC2079", "10101")])
           two_lectures one_option ["SC2079"]).
  - vm_compute. reflexivity.
  - apply elem_of_conflict_scan.
    exists 0%nat, 1%nat, (session_copy (session "SC2079" None "LEC" 0 540 600 all_weeks)),
      (session_copy (session "SC2104" None "LEC" 0 540 600 all_weeks)).
    split_and!; [lia | reflexivity | reflexivity | vm_compute; reflexivity | reflexivity].
Defined.

(** ** Campus days of a set of weeks *)

Lemma elem_of_campus_inner (target_weeks : gset Z) (ss : list Session)
    (days : gset Z) (d : Z) :
  d ∈ foldl (λ (days : gset Z) session,
               if set_truthy (s_weeks session ∩ target_weeks)
               then {[s_day session]} ∪ days else days) days ss ↔
  d ∈ days ∨ ∃ s, s ∈ ss ∧ s_day s = d ∧ s_weeks s ∩ target_weeks ≠ ∅.
Proof.
  revert days. induction ss as [|s ss IH]; intros days; simpl.
  - split; [by left | intros [? | (s & ?%elem_of_nil & _)]; done].
  - rewrite IH. destruct (set_truthy (s_weeks s ∩ target_weeks)) eqn:E.
    + apply set_truthy_true in E. rewrite elem_of_union, elem_of_singleton. split.
      * intros [[-> | ?] | (s' & ? & ? & ?)]; [right | by left | right].
        -- exists s. split; [left | done].
        -- exists s'. split; [by right | done].
      * intros [? | (s' & [-> | ?]%elem_of_cons & Hd & ?)]; [by left; right | |].
        -- by left; left.
        -- right. by exists s'.
    + apply set_truthy_false in E. split.
      * intros [? | (s' & ? & ? & ?)]; [by left | right].
        exists s'. split; [by right | done].
      * intros [? | (s' & [-> | ?]%elem_of_cons & Hd & ?)]; [by left | done |].
        right. by exists s'.
Qed.

Lemma elem_of_campus_outer (v : Valuation) (index_map : IndexMap)
    (target_weeks : gset Z) (chosen : list ((string * string) * BoolVar))
    (days : gset Z) (d : Z) :
  d ∈ foldl (λ (days : gset Z) '((course, idx), var),
               if value v var =? 1 then
                 foldl (λ (days : gset Z) session,
                          if set_truthy (s_weeks session ∩ target_weeks)
                          then {[s_day session]} ∪ days else days)
                       days (dict_get index_map (course, idx))
               else days) days chosen ↔
  d ∈ days ∨ ∃ c i var s, ((c, i), var) ∈ chosen ∧ value v var = 1
                 ∧ s ∈ dict_get index_map (c, i) ∧ s_day s = d
                 ∧ s_weeks s ∩ target_weeks ≠ ∅.
Proof.
  revert days. induction chosen as [|[[c i] var] chosen IH]; intros days; simpl.
  - split; [by left | intros [? | (? & ? & ? & ? & ?%elem_of_nil & _)]; done].
  - rewrite IH. destruct (value v var =? 1) eqn:E.
    + apply Z.eqb_eq in E. rewrite elem_of_campus_inner. split.
      * intros [[? | (s & ? & ? & ?)] | (c' & i' & var' & s & ? & ?)];
          [by left | right | right].
        -- exists c, i, var, s. split; [left | done].
        -- exists c', i', var', s. split; [by right | done].
      * intros [? | (c' & i' & var' & s & [[= -> -> ->] | ?]%elem_of_cons & ? & ? & ? & ?)];
          [by left; left | |].
        -- left; right. by exists s.
        -- right. by exists c', i', var', s.
    + apply Z.eqb_neq in E. split.
      * intros [? | (c' & i' & var' & s & ? & ?)]; [by left | right].
        exists c', i', var', s. split; [by right | done].
      * intros [? | (c' & i' & var' & s & [[= -> -> ->] | ?]%elem_of_cons & ? & ? & ? & ?)];
          [by left | done |].
        right. by exists c', i', var', s.
Qed.

Lemma elem_of_campus_day_set v index_map chosen target_weeks d :
  d ∈ campus_day_set v index_map chosen target_weeks ↔
  ∃ c i var s, ((c, i), var) ∈ chosen ∧ value v var = 1
    ∧ s ∈ dict_get index_map (c, i) ∧ s_day s = d
    ∧ s_weeks s ∩ target_weeks ≠ ∅.
Proof.
  unfold campus_day_set. rewrite elem_of_campus_outer. split; [|by right].
  by intros [?%elem_of_empty | ?].
Qed.

(** X16. On the variables of the built model,
    [calculate_campus_days_for_weeks] counts the distinct weekdays of the
    sessions, of whatever type, of the options whose variable is 1 that
    meet the target weeks: it returns the length of any list of exactly
    those weekdays without repetition.  The count is 0 for an empty
    target, grows with the target, and for a union of two targets lies
    between the larger of the two counts and their sum. *)
Theorem campus_days_for_weeks_counts (v : Valuation) (lectures : list Session)
    (index_map : IndexMap) (selected_courses : list string)
    (target_weeks : gset Z) :
  let chosen := chosen (build_model lectures index_map selected_courses) in
  (∀ d, d ∈ campus_day_set v index_map chosen target_weeks ↔
        ∃ c i s, (c, i) ∈ index_map.*1 ∧ v (Chosen c i) = true
          ∧ s ∈ dict_get index_map (c, i) ∧ s_day s = d
          ∧ s_weeks s ∩ target_weeks ≠ ∅)
  ∧ (∀ ds : list Z, NoDup ds →
       (∀ d, d ∈ ds ↔
          ∃ c i s, (c, i) ∈ index_map.*1 ∧ v (Chosen c i) = true
            ∧ s ∈ dict_get index_map (c, i) ∧ s_day s = d
            ∧ s_weeks s ∩ target_weeks ≠ ∅) →
       calculate_campus_days_for_weeks v index_map chosen target_weeks
       = Z.of_nat (length ds))
  ∧ calculate_campus_days_for_weeks v index_map chosen ∅ = 0
  ∧ (∀ more, target_weeks ⊆ more →
       calculate_campus_days_for_weeks v index_map chosen target_weeks
       ≤ calculate_campus_days_for_weeks v index_map chosen more)
  ∧ (∀ other,
       calculate_campus_days_for_weeks v index_map chosen target_weeks
         `max` calculate_campus_days_for_weeks v index_map chosen other
       ≤ calculate_campus_days_for_weeks v index_map chosen (target_weeks ∪ other)
       ≤ calculate_campus_days_for_weeks v index_map chosen target_weeks
         + calculate_campus_days_for_weeks v index_map chosen other).
Proof.
  intros chosen.
  assert (∀ t1 t2 : gset Z, t1 ⊆ t2 →
            campus_day_set v index_map chosen t1
            ⊆ campus_day_set v index_map chosen t2) as Hmono.
  { intros t1 t2 Hsub d (c & i & var & s & ? & ? & ? & ? & Hne)%elem_of_campus_day_set.
    apply elem_of_campus_day_set. exists c, i, var, s. split_and!; try done.
    intros He. apply Hne. apply elem_of_equiv_empty_L. intros w Hw.
    apply elem_of_intersection in Hw as [Hw1 Hw2].
    assert (w ∈ s_weeks s ∩ t2) as Hw' by (apply elem_of_intersection; auto).
    rewrite He in Hw'. by apply elem_of_empty in Hw'. }
  assert (∀ d, d ∈ campus_day_set v index_map chosen target_weeks ↔
        ∃ c i s, (c, i) ∈ index_map.*1 ∧ v (Chosen c i) = true
          ∧ s ∈ dict_get index_map (c, i) ∧ s_day s = d
          ∧ s_weeks s ∩ target_weeks ≠ ∅) as Hset.
  { intros d. rewrite elem_of_campus_day_set. split.
    + intros (c & i & var & s & Hin & Hv & Hs & Hd & Hne).
      apply list_elem_of_fmap in Hin as ([c' i'] & [= -> -> ->] & Hk).
      exists c', i', s. split_and!; try done.
      unfold value in Hv. by destruct (v (Chosen c' i')).
    + intros (c & i & s & Hk & Hv & Hs & Hd & Hne).
      exists c, i, (Chosen c i), s. split_and!; try done.
      * apply list_elem_of_fmap. by exists (c, i).
      * unfold value. by rewrite Hv. }
  unfold calculate_campus_days_for_weeks. split_and!.
  - exact Hset.
  - intros ds Hnd Hds. f_equal. apply Permutation_length, NoDup_Permutation.
    + apply NoDup_elements.
    + done.
    + intros d. by rewrite elem_of_elements, Hset, Hds.
  - assert (campus_day_set v index_map chosen ∅ = ∅) as ->; [|done].
    apply elem_of_equiv_empty_L.
    intros d (c & i & var & s & _ & _ & _ & _ & Hne)%elem_of_campus_day_set.
    apply Hne. apply intersection_empty_r_L.
  - intros more Hsub. apply inj_le, subseteq_size, Hmono, Hsub.
  - intros other. split.
    + apply Z.max_lub; apply inj_le, subseteq_size, Hmono.
      * apply union_subseteq_l.
      * apply union_subseteq_r.
    + rewrite <- Nat2Z.inj_add. apply inj_le.
      assert (campus_day_set v index_map chosen (target_weeks ∪ other)
              ⊆ campus_day_set v index_map chosen target_weeks
                ∪ campus_day_set v index_map chosen other) as Hsub.
      { intros d (c & i & var & s & ? & ? & ? & ? & Hne)%elem_of_campus_day_set.
        destruct (decide (s_weeks s ∩ target_weeks = ∅)) as [He | Hn].
        - apply elem_of_union_r, elem_of_campus_day_set.
          exists c, i, var, s. split_and!; try done. intros He'. apply Hne.
          by rewrite intersection_union_l_L, He, He', union_empty_l_L.
        - apply elem_of_union_l, elem_of_campus_day_set.
          by exists c, i, var, s. }
      apply subseteq_size in Hsub.
      pose proof (size_union_alt (campus_day_set v index_map chosen target_weeks)
                    (campus_day_set v index_map chosen other)) as Hu.
      pose proof (subseteq_size
                    (campus_day_set v index_map chosen other
                     ∖ campus_day_set v index_map chosen target_weeks)
                    (campus_day_set v index_map chosen other)
                    ltac:(apply subseteq_difference_l; reflexivity)).
      lia.
Qed.

Lemma campus_sum_count lectures index_map selected_courses v :
  satisfies v (model (build_model lectures index_map selected_courses)) = true →
  sum_values v (campus_day (build_model lectures index_map selected_courses))
  = Z.of_nat (length (filter
      (λ d, Exists (λ x, v x = true) (day_sessions index_map d)) (seqZ 0 5))).
Proof.
  intros Hsat.
  assert (∀ d, 0 ≤ d < 5 →
            value v (Campus d)
            = if decide (Exists (λ x, v x = true) (day_sessions index_map d))
              then 1 else 0) as Hval.
  { intros d Hd. rewrite <- max_values_decide. by eapply campus_value. }
  change (seqZ 0 5) with [0; 1; 2; 3; 4].
  change (campus_day (build_model lectures index_map selected_courses))
    with [Campus 0; Campus 1; Campus 2; Campus 3; Campus 4].
  unfold sum_values. cbn [foldr].
  rewrite !Hval by lia. rewrite !filter_cons, filter_nil.
  repeat case_decide; reflexivity.
Qed.

(** X17. When every session of the index map is a TUT or LAB on a weekday
    from 0 to 4, the count of [calculate_campus_days_for_weeks] on the
    solver's solution never exceeds the [campus_days] that [solve] returns,
    whatever the target weeks; and when the index map is a dictionary and
    every session of a chosen option meets the target weeks, the two are
    equal. *)
Theorem campus_days_for_weeks_bounded (Solve : CpModel → Response)
    (lectures : list Session) (index_map : IndexMap)
    (selected_courses : list string) (indexes : gmap string string)
    (timetable : list Session) (campus_days : Z) (target_weeks : gset Z) :
  let b := build_model lectures index_map selected_courses in
  let v := Value (Solve (model b)) in
  sound_response (model b) (Solve (model b)) →
  solve Solve lectures index_map selected_courses
    = Success indexes timetable campus_days →
  (∀ key sessions s, (key, sessions) ∈ index_map → s ∈ sessions →
     (s_type s = "TUT" ∨ s_type s = "LAB") ∧ 0 ≤ s_day s < 5) →
  calculate_campus_days_for_weeks v index_map (chosen b) target_weeks
    ≤ campus_days
  ∧ (NoDup (index_map.*1) →
     (∀ c i sessions s, ((c, i), sessions) ∈ index_map → v (Chosen c i) = true →
        s ∈ sessions → s_weeks s ∩ target_weeks ≠ ∅) →
     calculate_campus_days_for_weeks v index_map (chosen b) target_weeks
       = campus_days).
Proof.
  intros b v Hsound (Hst & _ & _ & ->)%solve_Success_inv Hty.
  specialize (Hsound Hst). fold b v in Hsound |- *.
  unfold b at 2 4. rewrite (campus_sum_count _ _ _ _ Hsound).
  set (P := λ d : Z, Exists (λ x, v x = true) (day_sessions index_map d)).
  assert (NoDup (filter P (seqZ 0 5))) as Hnd
    by apply NoDup_filter, NoDup_seqZ.
  rewrite <- (size_list_to_set (C := gset Z) _ Hnd).
  unfold calculate_campus_days_for_weeks.
  assert (∀ d, d ∈ campus_day_set v index_map (chosen b) target_weeks →
               d ∈ (list_to_set (filter P (seqZ 0 5)) : gset Z)) as Hsub.
  { intros d (c & i & var & s & Hin & Hv & Hs & Hd & _)%elem_of_campus_day_set.
    apply list_elem_of_fmap in Hin as ([c' i'] & [= -> -> ->] & Hk).
    apply elem_of_dict_get in Hs as (ss & Hss & Hs).
    destruct (Hty _ _ _ Hss Hs) as [Ht Hr].
    apply elem_of_list_to_set, list_elem_of_filter. split.
    - apply Exists_exists. exists (Chosen c' i'). split.
      + apply elem_of_day_sessions. by exists c', i', ss, s.
      + unfold value in Hv. by destruct (v (Chosen c' i')).
    - apply elem_of_seqZ. lia. }
  split.
  - apply inj_le, subseteq_size. intros d. apply Hsub.
  - intros Hdict Hmeet. f_equal. f_equal. apply set_eq. intros d.
    split; [apply Hsub|].
    intros [(x & (c & i & ss & s & -> & Hss & Hs & Hd & Ht)%elem_of_day_sessions
               & Hx)%Exists_exists _]%elem_of_list_to_set%list_elem_of_filter.
    apply elem_of_campus_day_set. exists c, i, (Chosen c i), s. split_and!.
    + apply list_elem_of_fmap. exists (c, i). split; [done|].
      apply list_elem_of_fmap. by exists ((c, i), ss).
    + unfold value. by rewrite Hx.
    + by rewrite (dict_get_entry _ _ _ Hdict Hss).
    + done.
    + by eapply Hmeet.
Qed.

Lemma campus_days_for_weeks_bounded_witness :
  ∃ indexes timetable campus_days,
    solve exhaustive_search [lec_mon] two_options two_courses
      = Success indexes timetable campus_days
    ∧ calculate_campus_days_for_weeks
        (Value (exhaustive_search
                  (model (build_model [lec_mon] two_options two_courses))))
        two_options (chosen (build_model [lec_mon] two_options two_courses))
        even_weeks
      ≤ campus_days.
Proof.
  eexists _, _, _. split; [vm_compute; reflexivity|].
  refine (proj1 (campus_days_for_weeks_bounded exhaustive_search [lec_mon]
                   two_options two_courses _ _ _ even_weeks _ _ _)).
  - intros _. vm_compute. reflexivity.
  - vm_compute. reflexivity.
  - intros key ss s Hin Hs.
    apply elem_of_cons in Hin as [[= -> ->] | [= -> ->]%list_elem_of_singleton];
      apply list_elem_of_singleton in Hs as ->; simpl; split; auto; lia.
Defined.

(** ** The detailed timetable *)

Lemma insert_le_perm {A} (le : A → A → bool) x l : insert_le le x l ≡ₚ x :: l.
Proof.
  induction l as [|y l IH]; simpl; [done|].
  destruct (le x y); [done|]. by rewrite IH, Permutation_swap.
Qed.

Lemma sort_le_perm {A} (le : A → A → bool) l : sort_le le l ≡ₚ l.
Proof.
  induction l as [|x l IH]; simpl; [done|].
  fold (sort_le le l). by rewrite insert_le_perm, IH.
Qed.

Lemma insert_le_sorted {A} (le : A → A → bool) x l :
  (∀ a b, le a b = false → le b a = true) →
  (∀ a b c, le a b = true → le b c = true → le a c = true) →
  StronglySorted (λ a b, le a b = true) l →
  StronglySorted (λ a b, le a b = true) (insert_le le x l).
Proof.
  intros Htot Htr. induction 1 as [|y l Hl IH Hy]; simpl.
  - repeat constructor.
  - destruct (le x y) eqn:E.
    + constructor; [by constructor|]. constructor; [done|].
      eapply Forall_impl; [exact Hy|]. intros z Hz. by eapply Htr.
    + constructor; [done|]. rewrite insert_le_perm. constructor; [|done].
      by apply Htot.
Qed.

Lemma sort_le_sorted {A} (le : A → A → bool) l :
  (∀ a b, le a b = false → le b a = true) →
  (∀ a b c, le a b = true → le b c = true → le a c = true) →
  StronglySorted (λ a b, le a b = true) (sort_le le l).
Proof.
  intros Htot Htr. induction l as [|x l IH]; simpl; [constructor|].
  by apply insert_le_sorted.
Qed.

Lemma pair_le_spec a b :
  pair_le a b = true ↔ a.1 < b.1 ∨ (a.1 = b.1 ∧ a.2 ≤ b.2).
Proof.
  unfold pair_le.
  rewrite orb_true_iff, andb_true_iff, Z.ltb_lt, Z.eqb_eq, Z.leb_le. tauto.
Qed.

Lemma pair_le_total a b : pair_le a b = false → pair_le b a = true.
Proof.
  intros H. apply pair_le_spec. apply not_true_iff_false in H.
  rewrite pair_le_spec in H. lia.
Qed.

Lemma pair_le_trans a b c :
  pair_le a b = true → pair_le b c = true → pair_le a c = true.
Proof. rewrite !pair_le_spec. lia. Qed.

Lemma sessions_on_insert d x l :
  StronglySorted (λ a b, pair_le (s_day a, s_start a) (s_day b, s_start b) = true) l →
  sessions_on d
    (insert_le (λ a b, pair_le (s_day a, s_start a) (s_day b, s_start b)) x l)
  = if decide (s_day x = d) then Py.insert_by s_start x (sessions_on d l)
    else sessions_on d l.
Proof.
  unfold sessions_on. induction 1 as [|y l Hl IH Hy]; simpl.
  - rewrite filter_cons, filter_nil. by case_decide.
  - destruct (pair_le _ _) eqn:E.
    + rewrite (filter_cons _ x). case_decide as Hx; [|done].
      destruct (filter (λ s, s_day s = d) (y :: l)) as [|z m] eqn:Ef; [done|].
      simpl. assert (s_day z = d ∧ z ∈ y :: l) as [Hzd Hz].
      { apply (list_elem_of_filter (λ s, s_day s = d)). rewrite Ef. left. }
      assert (pair_le (s_day x, s_start x) (s_day z, s_start z) = true) as Hxz.
      { apply elem_of_cons in Hz as [-> | Hz]; [done|].
        eapply pair_le_trans; [exact E|].
        by apply (proj1 (Forall_forall _ _) Hy). }
      apply pair_le_spec in Hxz. simpl in Hxz.
      by rewrite (proj2 (Z.leb_le _ _)) by lia.
    + rewrite !(filter_cons _ y), IH.
      apply not_true_iff_false in E. rewrite pair_le_spec in E. simpl in E.
      repeat case_decide; simpl; try done.
      by rewrite (proj2 (Z.leb_gt _ _)) by lia.
Qed.

Lemma sessions_on_sort d l :
  sessions_on d
    (sort_le (λ a b, pair_le (s_day a, s_start a) (s_day b, s_start b)) l)
  = Py.sort_by s_start (sessions_on d l).
Proof.
  induction l as [|x l IH]; [done|]. simpl.
  rewrite sessions_on_insert.
  - fold (sort_le (λ a b, pair_le (s_day a, s_start a) (s_day b, s_start b)) l).
    rewrite IH. unfold sessions_on at 3. rewrite filter_cons.
    by case_decide.
  - apply sort_le_sorted.
    + intros a b. apply pair_le_total.
    + intros a b c. apply pair_le_trans.
Qed.

Lemma elem_of_show_day sessions d line :
  line ∈ show_day sessions d ↔
  (sessions_on d sessions ≠ [] ∧ line = day_header d)
  ∨ (∃ s, s ∈ sessions ∧ s_day s = d ∧ line = session_line s).
Proof.
  unfold show_day. destruct (sessions_on d sessions) as [|z m] eqn:E.
  - rewrite elem_of_nil. split; [done|].
    intros [[? _] | (s & Hs & Hd & _)]; [done|].
    assert (s ∈ sessions_on d sessions) as Hin
      by (by apply list_elem_of_filter).
    rewrite E in Hin. by apply elem_of_nil in Hin.
  - rewrite elem_of_cons, list_elem_of_fmap, <- E. split.
    + intros [-> | (s & -> & [? ?]%list_elem_of_filter)].
      * left. split; [by rewrite E | done].
      * right. by exists s.
    + intros [[_ ->] | (s & Hs & Hd & ->)]; [by left|].
      right. exists s. split; [done|]. by apply list_elem_of_filter.
Qed.

(** X18. In [show_detailed_timetable], the sessions listed under a weekday
    are the checked sessions of that day sorted by start time alone, the
    sort being stable: none is lost or repeated, the start times ascend,
    and sessions that start together keep their order (lectures before
    options).  A header is printed for the weekdays from 0 to 4 that have
    a session, and a session line for every session on such a weekday and
    for no other. *)
Theorem show_detailed_timetable_by_day (v : Valuation) (lectures : list Session)
    (index_map : IndexMap) (selected_courses : list string) :
  let chosen := chosen (build_model lectures index_map selected_courses) in
  let selected := selected_sessions v lectures index_map chosen in
  let shown := timetable_sessions v lectures index_map chosen in
  (∀ d, sessions_on d shown = Py.sort_by s_start (sessions_on d selected))
  ∧ (∀ d, sessions_on d shown ≡ₚ sessions_on d selected
          ∧ StronglySorted (λ a b, s_start a ≤ s_start b) (sessions_on d shown)
          ∧ ∀ t, filter (λ s, s_start s = t) (sessions_on d shown)
                 = filter (λ s, s_start s = t) (sessions_on d selected))
  ∧ (∀ line, line ∈ show_detailed_timetable v lectures index_map chosen ↔
       (∃ d, 0 ≤ d < 5 ∧ sessions_on d selected ≠ [] ∧ line = day_header d)
       ∨ (∃ s, s ∈ selected ∧ 0 ≤ s_day s < 5 ∧ line = session_line s)).
Proof.
  intros chosen selected shown.
  assert (∀ d, sessions_on d shown = Py.sort_by s_start (sessions_on d selected))
    as Heq by (intros d; apply sessions_on_sort).
  split_and!.
  - exact Heq.
  - intros d. rewrite Heq. split_and!.
    + apply sort_by_perm.
    + apply sort_by_sorted.
    + intros t. apply sort_by_stable.
  - intros line. unfold show_detailed_timetable. rewrite elem_of_flat_map.
    fold shown. split.
    + intros (d & Hd%elem_of_seqZ & [[Hne ->] | (s & Hs & Hsd & ->)]%elem_of_show_day).
      * left. exists d. split_and!; [lia.. | | done].
        intros He. apply Hne. by rewrite Heq, He.
      * right. exists s. split_and!; [|lia..|done].
        unfold shown, timetable_sessions in Hs. by rewrite sort_le_perm in Hs.
    + intros [(d & Hd & Hne & ->) | (s & Hs & Hd & ->)].
      * exists d. split; [apply elem_of_seqZ; lia|].
        apply elem_of_show_day. left. split; [|done].
        intros He. apply Hne. apply Permutation_nil_r.
        by rewrite <- He, Heq, sort_by_perm.
      * exists (s_day s). split; [apply elem_of_seqZ; lia|].
        apply elem_of_show_day. right. exists s. split_and!; [|done..].
        unfold shown, timetable_sessions. by rewrite sort_le_perm.
Qed.

(** ** Selecting courses at the console *)

Lemma unique_go_spec l seen :
  NoDup (unique_go seen l)
  ∧ ∀ c, c ∈ unique_go seen l ↔ c ∈ l ∧ c ∉ seen.
Proof.
  revert seen. induction l as [|x l IH]; intros seen; simpl.
  - split; [constructor|]. intros c. rewrite elem_of_nil. tauto.
  - case_bool_decide as Hx.
    + destruct (IH ({[x]} ∪ seen)) as [Hnd Hin]. split.
      * constructor; [|done]. rewrite Hin. intros [_ Hx'].
        apply Hx', elem_of_union_l, elem_of_singleton. done.
      * intros c. rewrite !elem_of_cons, Hin, not_elem_of_union.
        rewrite elem_of_singleton.
        destruct (decide (c = x)) as [-> | Hne]; [tauto|]. tauto.
    + destruct (IH seen) as [Hnd Hin]. split; [done|].
      intros c. rewrite elem_of_cons, Hin.
      split; [tauto|]. intros [[-> | ?] ?]; tauto.
Qed.

Lemma read_parts_range n parts l :
  read_parts n parts = inr l → Forall (λ k, 1 ≤ k ≤ n) l.
Proof.
  revert l. induction parts as [|part parts IH]; intros l; simpl.
  - intros [= <-]. constructor.
  - destruct (Py.int (Py.strip part)) as [num|]; [|discriminate].
    destruct ((1 <=? num) && (num <=? n)) eqn:E; [|discriminate].
    destruct (read_parts n parts) as [|l']; [discriminate|].
    intros [= <-]. constructor; [lia | by apply IH].
Qed.

Lemma round_Return sorted_courses line courses :
  round sorted_courses line = Return courses →
  (lower (Py.strip line) = "all" ∧ courses = sorted_courses)
  ∨ (NoDup courses ∧ (2 ≤ length courses)%nat
     ∧ ∀ c, c ∈ courses → c ∈ sorted_courses).
Proof.
  unfold round. case_bool_decide as Hall; [intros [= <-]; by left|].
  case_bool_decide; [discriminate|].
  destruct (read_parts _ _) as [|ids] eqn:E; [discriminate|].
  destruct (_ <? 2) eqn:El; [discriminate|]. intros [= <-]. right.
  apply Z.ltb_ge in El.
  destruct (unique_go_spec
              ((λ idx, default "" (sorted_courses !! Z.to_nat (idx - 1))) <$> ids)
              ∅) as [Hnd Hin].
  split_and!; [done | lia |].
  intros c [(idx & -> & Hidx)%list_elem_of_fmap _]%Hin.
  apply read_parts_range in E.
  pose proof (proj1 (Forall_forall _ _) E idx Hidx) as Hr. simpl in Hr.
  destruct (lookup_lt_is_Some_2 sorted_courses (Z.to_nat (idx - 1)))
    as [c Hc]; [lia|].
  rewrite Hc. simpl. by eapply list_elem_of_lookup_2.
Qed.

Lemma prompt_loop_result sorted_courses inputs courses pattern :
  (prompt_loop sorted_courses inputs).2 = Some (Some (courses, pattern)) →
  pattern = "all"
  ∧ ∃ line, Line line ∈ inputs ∧ round sorted_courses line = Return courses.
Proof.
  induction inputs as [|[line| |e] inputs IH]; simpl; [discriminate| |discriminate|].
  - destruct (round sorted_courses line) as [cs|printed] eqn:E; simpl.
    + intros [= <- <-]. split; [done|]. exists line. split; [left | done].
    + destruct (prompt_loop sorted_courses inputs) as [out r]. simpl in *.
      intros (-> & line' & ? & ?)%IH. split; [done|].
      exists line'. split; [by right | done].
  - destruct (prompt_loop sorted_courses inputs) as [out r]. simpl in *.
    intros (-> & line' & ? & ?)%IH. split; [done|].
    exists line'. split; [by right | done].
Qed.

Lemma select_courses_console_snd available_courses inputs :
  (select_courses_console available_courses inputs).2
  = (prompt_loop (sorted_strings available_courses) inputs).2.
Proof.
  unfold select_courses_console.
  by destruct (prompt_loop (sorted_strings available_courses) inputs).
Qed.

(** X19. Whatever is typed, when [select_courses_console] returns a
    selection, its week pattern is "all", its courses are all available,
    and either it is the whole sorted list of available courses (the line
    was "all", in any letter case, with white space around it allowed) or
    it has no duplicate and at least two courses.  "all" is accepted
    whatever the number of available courses, and an interrupt at the first
    prompt returns the pair of [None]s. *)
Theorem select_courses_console_result (available_courses : list string)
    (inputs : list ConsoleInput) :
  (∀ courses pattern,
     (select_courses_console available_courses inputs).2
       = Some (Some (courses, pattern)) →
     pattern = "all"
     ∧ (∀ c, c ∈ courses → c ∈ available_courses)
     ∧ (courses = sorted_strings available_courses
        ∨ (NoDup courses ∧ (2 ≤ length courses)%nat)))
  ∧ (∀ line, lower (Py.strip line) = "all" →
       (select_courses_console available_courses (Line line :: inputs)).2
       = Some (Some (sorted_strings available_courses, "all")))
  ∧ (select_courses_console available_courses (KeyboardInterrupt :: inputs)).2
    = Some None.
Proof.
  split_and!.
  - intros courses pattern. rewrite select_courses_console_snd.
    intros (-> & line & _ & [[_ ->] | (Hnd & Hlen & Hin)]%round_Return)%prompt_loop_result.
    + split; [done|]. split; [|by left].
      intros c. unfold sorted_strings. by rewrite sort_le_perm.
    + split; [done|]. split; [|by right].
      intros c Hc%Hin. unfold sorted_strings in Hc. by rewrite sort_le_perm in Hc.
  - intros line Hall. rewrite select_courses_console_snd. simpl.
    unfold round. by rewrite bool_decide_eq_true_2.
  - by rewrite select_courses_console_snd.
Qed.

(** ** The list of available courses *)

Lemma string_compare_trans (a b c : string) :
  Stdlib.Strings.String.compare a b ≠ Gt →
  Stdlib.Strings.String.compare b c ≠ Gt →
  Stdlib.Strings.String.compare a c ≠ Gt.
Proof.
  revert b c. induction a as [|x a IH]; intros [|y b] [|z c]; simpl; try done.
  unfold Ascii.compare.
  destruct (N.compare_spec (N_of_ascii x) (N_of_ascii y)),
    (N.compare_spec (N_of_ascii y) (N_of_ascii z)),
    (N.compare_spec (N_of_ascii x) (N_of_ascii z)); try done; try lia; eauto.
Qed.

Lemma string_leb_trans (a b c : string) :
  Stdlib.Strings.String.leb a b = true →
  Stdlib.Strings.String.leb b c = true →
  Stdlib.Strings.String.leb a c = true.
Proof.
  unfold Stdlib.Strings.String.leb. pose proof (string_compare_trans a b c) as H.
  destruct (Stdlib.Strings.String.compare a b),
    (Stdlib.Strings.String.compare b c),
    (Stdlib.Strings.String.compare a c); try done; intros; exfalso; by apply H.
Qed.

Lemma sorted_strings_sorted l :
  StronglySorted (λ a b, Stdlib.Strings.String.leb a b = true) (sorted_strings l).
Proof.
  apply sort_le_sorted.
  - intros a b Hab.
    destruct (Stdlib.Strings.String.leb_total a b) as [H | H]; [congruence | done].
  - apply string_leb_trans.
Qed.

Lemma elem_of_course_codes column c :
  c ∈ course_codes column ↔ ∃ cell, Some cell ∈ column ∧ c = Py.strip cell.
Proof.
  unfold course_codes. rewrite elem_of_list_to_set, list_elem_of_fmap. split.
  - intros (cell & -> & (o & Ho & Hid)%list_elem_of_omap). simpl in Hid. subst o.
    by exists cell.
  - intros (cell & Hin & ->). exists cell. split; [done|].
    apply list_elem_of_omap. by exists (Some cell).
Qed.

(** X20. The list [get_available_courses] returns is in ascending order of
    code points without duplicates.  When both sheets are read, it holds
    exactly the stripped texts of the non-empty cells of the two
    course-code columns that are not empty and do not start with
    "Unnamed"; so a course of the lecture sheet alone is offered too.
    When the reading of either sheet raises, the list is empty. *)
Theorem get_available_courses_spec (table1 table2 : option (list (option string))) :
  StronglySorted (λ a b, Stdlib.Strings.String.leb a b = true)
                 (get_available_courses table1 table2)
  ∧ NoDup (get_available_courses table1 table2)
  ∧ (∀ c, c ∈ get_available_courses table1 table2 ↔
          ∃ column1 column2,
            table1 = Some column1 ∧ table2 = Some column2
            ∧ c ≠ "" ∧ startswith "Unnamed" c = false
            ∧ ∃ cell, Some cell ∈ column1 ++ column2 ∧ c = Py.strip cell)
  ∧ (table1 = None ∨ table2 = None → get_available_courses table1 table2 = []).
Proof.
  destruct table1 as [column1|], table2 as [column2|]; simpl.
  2-4: split_and!; [constructor | constructor | | done];
       intros c; rewrite elem_of_nil; split; [done|];
       by intros (? & ? & ? & ? & _).
  split_and!.
  - apply sorted_strings_sorted.
  - unfold sorted_strings. rewrite sort_le_perm. apply NoDup_elements.
  - intros c. unfold sorted_strings. rewrite sort_le_perm, elem_of_elements.
    rewrite elem_of_filter, elem_of_union, !elem_of_course_codes. split.
    + intros [[Hne Hun] Hcell]. exists column1, column2. split_and!; try done.
      destruct Hcell as [(cell & ? & ?) | (cell & ? & ?)]; exists cell;
        rewrite elem_of_app; auto.
    + intros (? & ? & [= <-] & [= <-] & Hne & Hun & cell & Hin & ->).
      split; [done|]. apply elem_of_app in Hin as [? | ?]; [left | right];
        by exists cell.
  - by intros [? | ?].
Qed.

(** ** The app, from the sheets to the result *)

(** X21. When the app's optimisation succeeds, something was selected;
    every selected course with a row in the index sheet, readable or not,
    is given an index; every index given belongs to a selected course and
    is the index of one of its rows, so a course without a row in the index
    sheet is given none; and every row of the timetable is of a selected
    course, on a weekday from 0 to 4. *)
Theorem optimize_success (Solve : CpModel → Response)
    (lecture_sheet : list LectureRow) (index_sheet : list IndexRow)
    (selected : list string) (indexes : gmap string string)
    (timetable : list Session) (campus_days : Z) :
  let lectures := load_lectures lecture_sheet selected in
  let index_map := load_indexes index_sheet selected "all" in
  sound_response (model (build_model lectures index_map selected))
    (Solve (model (build_model lectures index_map selected))) →
  optimize Solve lecture_sheet index_sheet selected
    = Some (Success indexes timetable campus_days) →
  selected ≠ []
  ∧ (∀ c, c ∈ selected →
       (∃ row, row ∈ index_sheet ∧ row_course row = c) →
       is_Some (indexes !! c))
  ∧ (∀ c i, indexes !! c = Some i →
       c ∈ selected
       ∧ ∃ row, row ∈ index_sheet ∧ row_course row = c ∧ row_index row = i)
  ∧ (∀ r, r ∈ timetable →
       s_course r ∈ selected ∧ 0 ≤ s_day r ≤ 4 ∧ s_index r = None).
Proof.
  intros lectures index_map Hsound Hopt.
  assert (selected ≠ []
          ∧ solve Solve lectures index_map selected
            = Success indexes timetable campus_days) as [Hne Hsolve].
  { subst lectures index_map. destruct selected; [discriminate|].
    split; [done|]. unfold optimize in Hopt. by injection Hopt. }
  clear Hopt.
  apply solve_Success_inv in Hsolve as (Hst & -> & -> & _).
  destruct (load_indexes_dict index_sheet selected "all") as (Hnd & Hkeys & _).
  fold index_map in Hnd, Hkeys.
  split_and!.
  - done.
  - intros c Hc (row & Hrow & Hrc).
    destruct (picked_exists Solve lectures index_map selected Hsound c Hc Hst)
      as (i & Hi & Hv).
    { exists (row_index row). apply Hkeys. split; [done|].
      exists row. split; [done|]. unfold row_key. by rewrite Hrc. }
    by eapply picked_indexes_is_Some.
  - intros c i [Hk _]%picked_indexes_Some.
    apply Hkeys in Hk as (Hc & row & Hrow & [= ? ?]). split; [done|].
    by exists row.
  - intros r [Hr | Hr]%elem_of_app.
    + apply elem_of_picked_rows in Hr as (c & i & s & Hk & _ & Hs & ->).
      apply elem_of_dict_get in Hs as (ss & Hin & Hs).
      destruct (load_indexes_session_row _ _ _ _ _ _ Hin Hs)
        as (Hc & row & _ & _ & Hrow).
      apply index_row_session_Some in Hrow as (_ & _ & _ & Hday & _).
      apply day_to_index_range in Hday.
      split_and!; [done | apply Hday | apply Hday | done].
    + unfold lecture_rows in Hr.
      apply list_elem_of_fmap in Hr as (lec & -> & Hlec).
      destruct (proj2 (load_lectures_elem lecture_sheet selected) lec Hlec)
        as (Hc & _ & _ & Hday & _).
      split_and!; [done | apply Hday | apply Hday | done].
Qed.

Lemma optimize_success_witness :
  ∃ indexes timetable campus_days,
    optimize exhaustive_search [lecture_row_mon; lecture_row_untimed]
      [row_late_remark] ["SC2079"; "SC2104"]
    = Some (Success indexes timetable campus_days)
    ∧ (∀ c i, indexes !! c = Some i →
         c ∈ ["SC2079"; "SC2104"]
         ∧ ∃ row, row ∈ [row_late_remark] ∧ row_course row = c
                  ∧ row_index row = i).
Proof.
  eexists _, _, _. split; [vm_compute; reflexivity|].
  refine (proj1 (proj2 (proj2 (optimize_success exhaustive_search
            [lecture_row_mon; lecture_row_untimed] [row_late_remark]
            ["SC2079"; "SC2104"] _ _ _ _ _)))).
  - intros _. vm_compute. reflexivity.
  - vm_compute. reflexivity.
Defined.
